(** * Macro dashboard: the monthly alignment pipeline of [macro_dashboard.py]

    A shallow embedding of the dashboard script and of the pandas, requests
    and Streamlit operations it calls, followed by the properties of the
    pipeline (frequency normalisation, year-over-year transform, panel
    assembly, display smoothing, KPI cards, export, credential gate).

    Conventions of the embedding.
    - A float64 cell is a binary64 [float]; pandas' missing value is NaN.
    - A timestamp is a calendar date (the API delivers dates without a
      time of day, so every timestamp is at midnight).
    - pandas is modelled as the releases on which the script runs, namely
      those that accept the resampling alias "M" (before 3.0): there
      [pct_change] pads missing values by default, [Resampler.last] skips
      missing values, and [infer_freq] names calendar month ends "M".
      Means are computed as pandas computes them: the group mean and the
      rolling mean keep compensated running sums, and the rolling mean
      takes an infinite value for a missing one. The labels of a
      [concat] along the columns are sorted only when every input has a
      [DatetimeIndex].
    - Streamlit's secrets raise when no secrets file is found.
    - The script is a program over a world (secrets, widgets, network) that
      logs what it renders, keeps its data frames in a store of objects, and
      may stop or raise. *)

From Stdlib Require Import ZArith List Bool Lia Floats.
From Stdlib Require Import String Ascii DecimalString.
From stdpp Require Import base option gmap strings.

Import ListNotations.
Local Open Scope string_scope.
Local Open Scope Z_scope.

(* ===================================================================== *)
(** * Float64 cells *)
(* ===================================================================== *)

Module F64.

(** [pd.isna] on a float64 cell. *)
Definition isna (x : float) : bool := PrimFloat.is_nan x.

Definition notna (x : float) : bool := negb (isna x).

Definition NaN : float := PrimFloat.nan.

(** A Python [int] scalar met by a float64 operand is converted to
    float64; only small literals occur ([1], [100], counts). *)
Definition of_nat (n : nat) : float :=
  PrimFloat.of_uint63 (Uint63.of_Z (Z.of_nat n)).

Definition f1 : float := Eval vm_compute in of_nat 1.
Definition f100 : float := Eval vm_compute in of_nat 100.

End F64.

(* ===================================================================== *)
(** * Calendar dates *)
(* ===================================================================== *)

Record Timestamp : Type := mkTs { year : Z; month : Z; day : Z }.

Module Cal.

Definition is_leap (y : Z) : bool :=
  (y mod 4 =? 0) && (negb (y mod 100 =? 0) || (y mod 400 =? 0)).

Definition days_in_month (y m : Z) : Z :=
  if m =? 2 then (if is_leap y then 29 else 28)
  else if (m =? 4) || (m =? 6) || (m =? 9) || (m =? 11) then 30
  else 31.

(** A date of the proleptic Gregorian calendar. *)
Definition valid (t : Timestamp) : bool :=
  (1 <=? month t) && (month t <=? 12) &&
  (1 <=? day t) && (day t <=? days_in_month (year t) (month t)).

(** Months counted from year 0: pandas' [year * 12 + (month - 1)]. *)
Definition month_ord (t : Timestamp) : Z := year t * 12 + (month t - 1).

(** The label of a monthly bin: the last day of the month. *)
Definition month_end (o : Z) : Timestamp :=
  let y := o / 12 in
  let m := o mod 12 + 1 in
  mkTs y m (days_in_month y m).

Definition is_month_end (t : Timestamp) : bool :=
  day t =? days_in_month (year t) (month t).

Definition is_month_start (t : Timestamp) : bool := day t =? 1.

(** Chronological order. *)
Definition compare (a b : Timestamp) : comparison :=
  match year a ?= year b with
  | Eq => match month a ?= month b with
          | Eq => day a ?= day b
          | c => c
          end
  | c => c
  end.

Definition ltb (a b : Timestamp) : bool :=
  match compare a b with Lt => true | _ => false end.

Definition leb (a b : Timestamp) : bool :=
  match compare a b with Gt => false | _ => true end.

Definition eqb (a b : Timestamp) : bool :=
  match compare a b with Eq => true | _ => false end.

End Cal.

#[global] Instance Timestamp_eq_dec : EqDecision Timestamp.
Proof. solve_decision. Defined.

(* ===================================================================== *)
(** * Exceptions and fallible results *)
(* ===================================================================== *)

Inductive exn : Type :=
| ValueError (msg : string)
| TypeError (msg : string)
| KeyError (key : string)
| HTTPError (status : Z)
| JSONDecodeError
| RequestException
| StreamlitSecretNotFoundError.

Inductive result (A : Type) : Type :=
| Ok (a : A)
| Raise (e : exn).

Arguments Ok {A} a.
Arguments Raise {A} e.

Definition rbind {A B : Type} (r : result A) (k : A -> result B) : result B :=
  match r with
  | Ok a => k a
  | Raise e => Raise e
  end.

Definition rmap {A B : Type} (f : A -> B) (r : result A) : result B :=
  rbind r (fun a => Ok (f a)).

(* ===================================================================== *)
(** * The pandas operations the script calls *)
(* ===================================================================== *)

(** A [pd.Series] with a date index: its name and its (label, value)
    entries in storage order. *)
Record Series : Type := mkSeries {
  name : string;
  obs : list (Timestamp * float)
}.

(** A [pd.DataFrame] of float64 columns with a date index: the column
    labels and, per row, the index label and one cell per column. *)
Record DataFrame : Type := mkFrame {
  columns : list string;
  rows : list (Timestamp * list float)
}.

Module Pd.

Definition index {A : Type} (l : list (Timestamp * A)) : list Timestamp :=
  map fst l.

Definition values (s : Series) : list float := map snd (obs s).

(** [df.empty]: some axis has length zero. *)
Definition empty (df : DataFrame) : bool :=
  match columns df, rows df with
  | [], _ => true
  | _, [] => true
  | _, _ => false
  end.

Definition series_empty (s : Series) : bool :=
  match obs s with [] => true | _ => false end.

(** ** [sort_index]: a stable sort on the index labels *)

Fixpoint insert_row {A : Type} (r : Timestamp * A) (l : list (Timestamp * A))
  : list (Timestamp * A) :=
  match l with
  | [] => [r]
  | h :: t => if Cal.leb (fst r) (fst h) then r :: h :: t
              else h :: insert_row r t
  end.

Fixpoint sort_rows {A : Type} (l : list (Timestamp * A)) : list (Timestamp * A) :=
  match l with
  | [] => []
  | r :: t => insert_row r (sort_rows t)
  end.

Definition sort_index (df : DataFrame) : DataFrame :=
  mkFrame (columns df) (sort_rows (rows df)).

(** ** Column access *)

Fixpoint position (c : string) (cols : list string) : option nat :=
  match cols with
  | [] => None
  | h :: t => if String.eqb c h then Some O
              else match position c t with
                   | Some k => Some (S k)
                   | None => None
                   end
  end.

Definition cell (k : nat) (r : Timestamp * list float) : float :=
  nth k (snd r) F64.NaN.

Definition column_at (k : nat) (rs : list (Timestamp * list float)) : list float :=
  map (cell k) rs.

(** [df[c]]: the column as a Series named [c]; [KeyError] when absent. *)
Definition getitem (df : DataFrame) (c : string) : result Series :=
  match position c (columns df) with
  | Some k => Ok (mkSeries c (map (fun r => (fst r, cell k r)) (rows df)))
  | None => Raise (KeyError c)
  end.

(** [df[[c]]]: the one-column sub-frame. *)
Definition getitem_list (df : DataFrame) (c : string) : result DataFrame :=
  match position c (columns df) with
  | Some k => Ok (mkFrame [c] (map (fun r => (fst r, [cell k r])) (rows df)))
  | None => Raise (KeyError c)
  end.

(** [df.rename(columns={old: new})]: a new frame; labels other than
    [old] are kept. *)
Definition rename (df : DataFrame) (old new : string) : DataFrame :=
  mkFrame (map (fun c => if String.eqb c old then new else c) (columns df))
          (rows df).

(** The value a Series holds at a label ([NaN] when the label is absent):
    what reindexing on labels reads. *)
Definition lookup_label (t : Timestamp) (l : list (Timestamp * float)) : float :=
  match List.find (fun r => bool_decide (fst r = t)) l with
  | Some r => snd r
  | None => F64.NaN
  end.

(** [df[c] = s]: the Series is aligned on the frame's index labels; an
    existing column keeps its position, a new one is appended. *)
Definition setitem (df : DataFrame) (c : string) (s : Series) : DataFrame :=
  match position c (columns df) with
  | Some k =>
      mkFrame (columns df)
              (map (fun r => (fst r, <[k := lookup_label (fst r) (obs s)]> (snd r)))
                   (rows df))
  | None =>
      mkFrame (columns df ++ [c])%list
              (map (fun r => (fst r, (snd r ++ [lookup_label (fst r) (obs s)])%list))
                   (rows df))
  end.

(** ** [resample("M")]: calendar-month bins labelled by the month end *)

Definition month_range (first last : Z) : list Z :=
  map (fun k => first + Z.of_nat k) (seq 0 (Z.to_nat (last - first + 1))).

Definition in_month {A : Type} (o : Z) (r : Timestamp * A) : bool :=
  Cal.month_ord (fst r) =? o.

(** [Resampler.last]: the last value of the bin that is not missing. *)
Definition agg_last (vs : list float) : float :=
  fold_left (fun acc v => if F64.isna v then acc else v) vs F64.NaN.

(** [Resampler.mean] (the group mean): the values that are not missing
    are added to a running sum with Kahan's compensation, in row order; a
    compensation that is not a number (an infinite value was added) is
    reset to zero. The mean is the sum over the count. *)
Definition group_mean_add (acc : nat * float * float) (val : float)
  : nat * float * float :=
  let '(nobs, sumx, compensation) := acc in
  if F64.isna val then acc
  else
    let y := PrimFloat.sub val compensation in
    let t := PrimFloat.add sumx y in
    let c := PrimFloat.sub (PrimFloat.sub t sumx) y in
    (S nobs, t, if F64.isna c then PrimFloat.zero else c).

Definition agg_mean (vs : list float) : float :=
  let '(nobs, sumx, _) :=
    fold_left group_mean_add vs (O, PrimFloat.zero, PrimFloat.zero) in
  match nobs with
  | O => F64.NaN
  | _ => PrimFloat.div sumx (F64.of_nat nobs)
  end.

(** The bins run over every month from the first to the last label, so a
    month without rows yields a row of missing values. Resampling needs
    a datetime index, which a frame without rows does not have here
    (see [fetch_fred]). *)
Definition resample_M (agg : list float -> float) (df : DataFrame)
  : result DataFrame :=
  let sorted := sort_rows (rows df) in
  match sorted with
  | [] => Raise (TypeError "Only valid with DatetimeIndex")
  | r0 :: _ =>
      let first := Cal.month_ord (fst r0) in
      let last := Cal.month_ord (fst (List.last sorted r0)) in
      Ok (mkFrame (columns df)
            (map (fun o =>
                    (Cal.month_end o,
                     map (fun k => agg (column_at k (List.filter (in_month o) sorted)))
                         (seq 0 (length (columns df)))))
                 (month_range first last)))
  end.

(** ** [pd.infer_freq] *)

(** What the caller can observe of the inferred alias: it only tests
    membership in [("M", "MS")], so every other outcome (no frequency,
    or an alias such as "A-DEC", "Q-DEC", "2M", "BM", "W-SUN", "D") is
    one case. *)
Inductive Inferred : Type := Inf_M | Inf_MS | Inf_other.

Fixpoint deltas (l : list Z) : list Z :=
  match l with
  | a :: ((b :: _) as t) => (b - a) :: deltas t
  | _ => []
  end.

(** The only element of [unique_deltas], when there is exactly one. *)
Definition single_delta (l : list Z) : option Z :=
  match deltas l with
  | [] => None
  | d :: ds => if forallb (Z.eqb d) ds then Some d else None
  end.

Fixpoint strictly_increasing (l : list Timestamp) : bool :=
  match l with
  | a :: ((b :: _) as t) => Cal.ltb a b && strictly_increasing t
  | _ => true
  end.

Fixpoint strictly_decreasing (l : list Timestamp) : bool :=
  match l with
  | a :: ((b :: _) as t) => Cal.ltb b a && strictly_decreasing t
  | _ => true
  end.

(** [month_position_check]: "ce" when every date is the last day of its
    month, "cs" when every date is the first; the business-day variants
    ("be", "bs") and the absence of a position are one case, since none
    of them leads to "M" or "MS". *)
Inductive MonthPos : Type := pos_ce | pos_cs | pos_business_or_none.

Definition month_position_check (idx : list Timestamp) : MonthPos :=
  if forallb Cal.is_month_end idx then pos_ce
  else if forallb Cal.is_month_start idx then pos_cs
  else pos_business_or_none.

Definition all_same_month (idx : list Timestamp) : bool :=
  match idx with
  | [] => true
  | t :: ts => forallb (fun u => month u =? month t) ts
  end.

(** The daily rule of the inferer, in its order: annual, quarterly,
    monthly. Fewer than three dates raise; an index that is not unique
    and monotonic has no frequency. *)
Definition infer_freq (idx : list Timestamp) : result Inferred :=
  if (length idx <? 3)%nat
  then Raise (ValueError "Need at least 3 dates to infer frequency")
  else if negb (strictly_increasing idx || strictly_decreasing idx)
  then Ok Inf_other
  else
    let pos := month_position_check idx in
    let ydiffs := single_delta (map year idx) in
    let mdiffs := single_delta (map Cal.month_ord idx) in
    let annual :=
      match ydiffs, pos with
      | Some _, (pos_ce | pos_cs) => all_same_month idx
      | _, _ => false
      end in
    let quarterly :=
      match mdiffs, pos with
      | Some d, (pos_ce | pos_cs) => d mod 3 =? 0
      | _, _ => false
      end in
    if annual then Ok Inf_other
    else if quarterly then Ok Inf_other
    else match mdiffs, pos with
         | Some 1, pos_ce => Ok Inf_M
         | Some 1, pos_cs => Ok Inf_MS
         | _, _ => Ok Inf_other
         end.

(** ** [Series.pct_change(periods)] *)

(** [ffill]: a missing value takes the last value before it that is
    not missing. *)
Fixpoint ffill_from (prev : float) (l : list float) : list float :=
  match l with
  | [] => []
  | v :: t => let v' := if F64.isna v then prev else v in
              v' :: ffill_from v' t
  end.

Definition ffill (l : list float) : list float := ffill_from F64.NaN l.

(** [shift(n)]: the values move down by [n] rows; the length is kept. *)
Definition shift (n : nat) (l : list float) : list float :=
  firstn (length l) (repeat F64.NaN n ++ l)%list.

Fixpoint zip_with (f : float -> float -> float) (a b : list float) : list float :=
  match a, b with
  | x :: a', y :: b' => f x y :: zip_with f a' b'
  | _, _ => []
  end.

(** With the default [fill_method="pad"]:
    [data = ffill(self); data / data.shift(periods) - 1]. *)
Definition pct_change_values (periods : nat) (l : list float) : list float :=
  let data := ffill l in
  zip_with (fun a b => PrimFloat.sub (PrimFloat.div a b) F64.f1)
           data (shift periods data).

Definition with_values (s : Series) (vs : list float) : Series :=
  mkSeries (name s) (combine (index (obs s)) vs).

Definition pct_change (periods : nat) (s : Series) : Series :=
  with_values s (pct_change_values periods (values s)).

(** [s * 100]. *)
Definition mul_scalar (s : Series) (k : float) : Series :=
  with_values s (map (fun v => PrimFloat.mul v k) (values s)).

(** ** [pd.concat(..., axis=1)]: outer join on the index labels *)

Fixpoint is_unique (l : list Timestamp) : bool :=
  match l with
  | [] => true
  | h :: t => negb (existsb (fun u => bool_decide (u = h)) t) && is_unique t
  end.

Definition has_label (t : Timestamp) (l : list Timestamp) : bool :=
  existsb (fun u => bool_decide (u = t)) l.

Definition count_label (t : Timestamp) (l : list Timestamp) : nat :=
  length (List.filter (fun u => bool_decide (u = t)) l).

(** The labels of a list in the order of their first appearance. *)
Definition first_appearances (l : list Timestamp) : list Timestamp :=
  fold_left (fun seen t => if has_label t seen then seen else (seen ++ [t])%list) l [].

(** The union of two indexes of which the second repeats a label: every
    label as often as the index that holds it most often, the labels in
    the order of their first appearance. *)
Definition union_with_duplicates (a b : list Timestamp) : list Timestamp :=
  flat_map (fun t => repeat t (Nat.max (count_label t a) (count_label t b)))
           (first_appearances (a ++ b)).

(** The labels of the union before any sorting: the first index as it
    is, then the labels that only the second one has. *)
Definition union_values (a b : list Timestamp) : list Timestamp :=
  if is_unique b
  then (a ++ List.filter (fun t => negb (has_label t a)) b)%list
  else union_with_duplicates a b.

Definition sort_labels (l : list Timestamp) : list Timestamp :=
  index (sort_rows (map (fun t => (t, tt)) l)).

(** [Index.union(other, sort)] with [sort=None] ([true] here) or
    [sort=False]: an index that is empty or equal to the other one gives
    the other or itself back as it is, sorted or not. *)
Definition index_union (sort : bool) (a b : list Timestamp) : list Timestamp :=
  match a, b with
  | _, [] => a
  | [], _ => b
  | _, _ =>
      if bool_decide (a = b) then a
      else if sort then sort_labels (union_values a b)
      else union_values a b
  end.

(** [union_indexes]: the indexes are united one after the other. A
    Series of the script has a [DatetimeIndex] exactly when it has rows
    (see [fetch_fred] and [cpi_yoy_from_index]). When every index is a
    [DatetimeIndex] the unions sort; when one is not, the labels are
    united as objects and keep the order of their first appearance. *)
Definition union_indexes (idxs : list (list Timestamp)) : list Timestamp :=
  match idxs with
  | [] => []
  | first :: others =>
      let all_dated := forallb (fun idx => negb (bool_decide (idx = []))) idxs in
      fold_left (index_union all_dated) others first
  end.

(** A Series is put on the labels of the frame: as it is when its index
    equals them, else by its labels, which must then be unique. *)
Definition realign (labels : list Timestamp) (s : Series) : result (list float) :=
  if bool_decide (index (obs s) = labels) then Ok (values s)
  else if is_unique (index (obs s))
  then Ok (map (fun t => lookup_label t (obs s)) labels)
  else Raise (ValueError "cannot reindex on an axis with duplicate labels").

Fixpoint collect {A : Type} (rs : list (result A)) : result (list A) :=
  match rs with
  | [] => Ok []
  | r :: t => rbind r (fun a => rmap (cons a) (collect t))
  end.

(** One column per Series, named after it, over the union of the
    labels. *)
Definition concat_axis1 (ss : list Series) : result DataFrame :=
  let labels := union_indexes (map (fun s => index (obs s)) ss) in
  rbind (collect (map (realign labels) ss)) (fun cols =>
  Ok (mkFrame (map name ss)
        (map (fun j => (nth j labels (mkTs 0 0 0),
                        map (fun col => nth j col F64.NaN) cols))
             (seq 0 (length labels))))).

(** ** [dropna] *)

(** [how="all"]: a row goes when every cell is missing. *)
Definition dropna_all (df : DataFrame) : DataFrame :=
  mkFrame (columns df) (List.filter (fun r => existsb F64.notna (snd r)) (rows df)).

(** The default [how="any"]: a row goes when some cell is missing. *)
Definition dropna_any (df : DataFrame) : DataFrame :=
  mkFrame (columns df) (List.filter (fun r => forallb F64.notna (snd r)) (rows df)).

(** ** [rolling(window).mean()] *)

(** The values as the window routines get them: an infinite value is
    turned into a missing one. *)
Definition prep_values (l : list float) : list float :=
  map (fun v => if PrimFloat.is_infinity v then F64.NaN else v) l.

(** The running state of the mean over a moving window: the number of
    observations in the window, their sum with the compensations of
    Kahan's summation (one for additions, one for removals), the number
    of negative observations, and the length of the run of equal values
    that ends at the last observation added. *)
Record MeanState : Type := mkMeanState {
  nobs : nat;
  sum_x : float;
  neg_ct : nat;
  compensation_add : float;
  compensation_remove : float;
  num_consecutive_same_value : nat;
  prev_value : float
}.

Definition mean_init (first : float) : MeanState :=
  mkMeanState 0 PrimFloat.zero 0 PrimFloat.zero PrimFloat.zero 0 first.

(** A value enters the window; a missing one leaves the state as it is. *)
Definition add_mean (val : float) (st : MeanState) : MeanState :=
  if F64.isna val then st
  else
    let y := PrimFloat.sub val (compensation_add st) in
    let t := PrimFloat.add (sum_x st) y in
    mkMeanState (S (nobs st)) t
                (if PrimFloat.get_sign val then S (neg_ct st) else neg_ct st)
                (PrimFloat.sub (PrimFloat.sub t (sum_x st)) y)
                (compensation_remove st)
                (if PrimFloat.eqb val (prev_value st)
                 then S (num_consecutive_same_value st) else 1)
                val.

(** A value leaves the window. *)
Definition remove_mean (val : float) (st : MeanState) : MeanState :=
  if F64.isna val then st
  else
    let y := PrimFloat.sub (PrimFloat.opp val) (compensation_remove st) in
    let t := PrimFloat.add (sum_x st) y in
    mkMeanState (nobs st - 1) t
                (if PrimFloat.get_sign val then neg_ct st - 1 else neg_ct st)
                (compensation_add st)
                (PrimFloat.sub (PrimFloat.sub t (sum_x st)) y)
                (num_consecutive_same_value st)
                (prev_value st).

(** The mean of the window, when it holds at least [minp] observations:
    the sum over their number, but the value itself when the window is a
    run of one value, and zero when rounding gave the sum the sign that
    no observation has. *)
Definition calc_mean (minp : nat) (st : MeanState) : float :=
  if (minp <=? nobs st)%nat && (0 <? nobs st)%nat
  then
    let result := PrimFloat.div (sum_x st) (F64.of_nat (nobs st)) in
    if (nobs st <=? num_consecutive_same_value st)%nat then prev_value st
    else if (neg_ct st =? 0)%nat && PrimFloat.ltb result PrimFloat.zero
    then PrimFloat.zero
    else if (neg_ct st =? nobs st)%nat && PrimFloat.ltb PrimFloat.zero result
    then PrimFloat.zero
    else result
  else F64.NaN.

(** The state moves from row [i - 1] to row [i]: with a window of [w]
    rows ending at each row, the value of row [i - w] leaves (when there
    is one) and the value of row [i] enters. *)
Definition mean_step (w : nat) (values : list float) (i : nat) (val : float)
           (st : MeanState) : MeanState :=
  add_mean val (if (w <=? i)%nat
                then remove_mean (nth (i - w) values F64.NaN) st
                else st).

Fixpoint roll_mean_from (w minp : nat) (values : list float) (i : nat)
         (todo : list float) (st : MeanState) : list float :=
  match todo with
  | [] => []
  | val :: rest =>
      let st' := mean_step w values i val st in
      calc_mean minp st' :: roll_mean_from w minp values (S i) rest st'
  end.

(** [roll_mean] over the fixed windows of [rolling(w)]: one state is
    carried down the column. *)
Definition roll_mean (w minp : nat) (values : list float) : list float :=
  match values with
  | [] => []
  | first :: _ => roll_mean_from w minp values 0 values (mean_init first)
  end.

(** [min_periods] defaults to the size of the window. *)
Definition rolling_mean_values (w : nat) (l : list float) : list float :=
  roll_mean w w (prep_values l).

Definition rolling_mean (w : nat) (s : Series) : Series :=
  with_values s (rolling_mean_values w (values s)).

(** ** Rows *)

(** [df.iloc[-1]], on a frame that has rows. *)
Definition iloc_last (df : DataFrame) : option (Timestamp * list float) :=
  List.last (map Some (rows df)) None.

(** [row.get(c, default)] on a row of a frame with the given columns. *)
Definition row_get (cols : list string) (r : Timestamp * list float)
           (c : string) (default : float) : float :=
  match position c cols with
  | Some k => nth k (snd r) default
  | None => default
  end.

End Pd.

(* ===================================================================== *)
(** * Number formatting: [f"{value:,.2f}"] *)
(* ===================================================================== *)

Module Fmt.

(** [num / den] rounded to the nearest integer, ties to even
    ([den] positive). *)
Definition round_half_even (num den : Z) : Z :=
  let q := num / den in
  let r := num mod den in
  match 2 * r ?= den with
  | Lt => q
  | Gt => q + 1
  | Eq => if Z.even q then q else q + 1
  end.

(** The magnitude [m * 2^e] in hundredths, correctly rounded. *)
Definition hundredths (m : positive) (e : Z) : Z :=
  if 0 <=? e then Z.pos m * 2 ^ e * 100
  else round_half_even (Z.pos m * 100) (2 ^ (- e)).

Definition digits (n : Z) : list ascii :=
  list_ascii_of_string (NilZero.string_of_uint (N.to_uint (Z.to_N n))).

Definition digit (n : Z) : ascii := ascii_of_nat (48 + Z.to_nat n).

(** The thousands separator, on the digits from the least significant. *)
Fixpoint group3 (rev_digits : list ascii) : list ascii :=
  match rev_digits with
  | a :: b :: c :: ((_ :: _) as t) => a :: b :: c :: ","%char :: group3 t
  | l => l
  end.

Definition grouped (n : Z) : string :=
  string_of_list_ascii (rev (group3 (rev (digits n)))).

Definition two_decimals (n : Z) : string :=
  String (digit (n mod 100 / 10)) (String (digit (n mod 10)) EmptyString).

Definition sign (s : bool) : string := if s then "-" else "".

Definition fixed2 (s : bool) (n : Z) : string :=
  sign s ++ grouped (n / 100) ++ "." ++ two_decimals n.

Definition format_comma_2f (x : float) : string :=
  match Prim2SF x with
  | S754_nan => "nan"
  | S754_infinity s => sign s ++ "inf"
  | S754_zero s => fixed2 s 0
  | S754_finite s m e => fixed2 s (hundredths m e)
  end.

(** [date.strftime("%Y-%m-%d")]. *)
Definition pad (width : nat) (n : Z) : string :=
  let d := digits n in
  string_of_list_ascii (repeat "0"%char (width - length d) ++ d)%list.

Definition strftime_ymd (t : Timestamp) : string :=
  pad 4 (year t) ++ "-" ++ pad 2 (month t) ++ "-" ++ pad 2 (day t).

End Fmt.

(* ===================================================================== *)
(** * The world of the script: secrets, widgets, network, page *)
(* ===================================================================== *)

(** One record of the API's "observations" list. *)
Record RawObs : Type := mkRawObs { date : string; value : string }.

Record Request : Type := mkRequest {
  url : string;
  params : list (string * string);
  timeout : Z
}.

Inductive Payload : Type :=
| NotJson
| JsonObject (observations : option (list RawObs)).

Inductive HttpOutcome : Type :=
| NoResponse
| Response (status_code : Z) (payload : Payload).

(** [st.secrets]: the entries of the secrets file, when one is found.
    Reading a key without a secrets file raises, whatever the default
    passed to [get]; a key is looked up in the store that is there. *)
#[global] Instance secrets_lookup : Lookup string string (option (gmap string string)) :=
  fun key store => match store with
                   | Some entries => entries !! key
                   | None => None
                   end.

Record World : Type := mkWorld {
  secrets : option (gmap string string);
  date_input : Timestamp;
  checkbox : bool;
  http : Request -> HttpOutcome
}.

(** What the script puts on the page or sends out, in order. *)
Inductive Event : Type :=
| EvPageConfig (page_title page_icon layout : string)
| EvTitle (body : string)
| EvCaption (body : string)
| EvWarning (body : string)
| EvInfo (body : string)
| EvSubheader (body : string)
| EvMarkdown (body : string)
| EvSidebarHeader (body : string)
| EvSidebarCaption (body : string)
| EvSpinner (body : string)
| EvHttpGet (req : Request)
| EvColumns (n : nat)
| EvMetric (label : string) (shown : string)
| EvPlotly (title yaxis_title y : string) (data : DataFrame)
| EvDownload (label : string) (workbook : list (string * DataFrame))
             (file_name mime : string).

(** Data frames bound to the script's names are objects of a store;
    a name holds a reference. *)
Definition ref : Type := nat.

Record State : Type := mkState {
  log : list Event;
  heap : gmap nat DataFrame;
  next_ref : nat
}.

Definition initial : State := mkState [] ∅ O.

Inductive Outcome (A : Type) : Type :=
| Done (a : A)
| Stopped
| Raised (e : exn).

Arguments Done {A} a.
Arguments Stopped {A}.
Arguments Raised {A} e.

Definition M (A : Type) : Type := World -> State -> Outcome A * State.

Module Run.

Definition ret {A : Type} (a : A) : M A := fun _ s => (Done a, s).

Definition bind {A B : Type} (m : M A) (k : A -> M B) : M B :=
  fun w s =>
    match m w s with
    | (Done a, s') => k a w s'
    | (Stopped, s') => (Stopped, s')
    | (Raised e, s') => (Raised e, s')
    end.

Definition emit (e : Event) : M unit :=
  fun _ s => (Done tt, mkState (log s ++ [e])%list (heap s) (next_ref s)).

(** [st.stop()]: the run ends here. *)
Definition stop {A : Type} : M A := fun _ s => (Stopped, s).

Definition raise {A : Type} (e : exn) : M A := fun _ s => (Raised e, s).

Definition lift {A : Type} (r : result A) : M A :=
  match r with
  | Ok a => ret a
  | Raise e => raise e
  end.

Definition ask : M World := fun w s => (Done w, s).

(** A new object. *)
Definition alloc (df : DataFrame) : M ref :=
  fun _ s => (Done (next_ref s),
              mkState (log s) (<[next_ref s := df]> (heap s)) (S (next_ref s))).

Definition read (r : ref) : M DataFrame :=
  fun _ s => match heap s !! r with
             | Some df => (Done df, s)
             | None => (Raised (KeyError "dangling reference"), s)
             end.

(** An update of the object in place. *)
Definition modify (r : ref) (f : DataFrame -> DataFrame) : M unit :=
  fun _ s => match heap s !! r with
             | Some df => (Done tt, mkState (log s) (<[r := f df]> (heap s)) (next_ref s))
             | None => (Raised (KeyError "dangling reference"), s)
             end.

Fixpoint for_each {A : Type} (l : list A) (body : A -> M unit) : M unit :=
  match l with
  | [] => ret tt
  | x :: t => bind (body x) (fun _ => for_each t body)
  end.

Fixpoint map_result {A B : Type} (f : A -> result B) (l : list A) : result (list B) :=
  match l with
  | [] => Ok []
  | x :: t => rbind (f x) (fun y => rmap (cons y) (map_result f t))
  end.

End Run.

Declare Scope run_scope.
Delimit Scope run_scope with run.
Notation "'do' x <- m ; k" := (Run.bind m (fun x => k))
  (at level 10, x name, m at level 100, k at level 200) : run_scope.
Notation "'go' m ; k" := (Run.bind m (fun _ => k))
  (at level 10, m at level 100, k at level 200) : run_scope.

(* ===================================================================== *)
(** * The script *)
(* ===================================================================== *)

(** The frames the script keeps for the export, and the panel. *)
Record Frames : Type := mkFrames {
  cpi_m : ref;
  unrate_m : ref;
  real10_m : ref;
  panel : ref
}.

Section Script.

Local Open Scope run_scope.

(** [pd.to_datetime] on one date string ([None]: it raises) and
    [pd.to_numeric(errors="coerce")] on one value string (NaN when the
    string is not a number); and the text of the [ValueError] that
    [pd.to_datetime] raises on a column of date strings one of which it
    cannot read (the text names the string and its position). *)
Variable to_datetime : string -> option Timestamp.
Variable to_numeric : string -> float.
Variable date_error : list string -> string.

Definition FRED_API : string :=
  "https://api.stlouisfed.org/fred/series/observations".

Definition newline : string := String (ascii_of_nat 10) EmptyString.

Definition no_key_warning : string :=
  "Your app is running, but no FRED API key is set. " ++
  "Go to Streamlit → Settings → Secrets and add FRED_API_KEY." ++
  newline ++ newline ++
  "See the README for instructions.".

(** ** Helpers *)

(** The frame built from the "observations" list: column 'value'
    indexed by date, sorted; no rows when the list is empty. *)
Definition observations_frame (obs : list RawObs) : result DataFrame :=
  match obs with
  | [] => Ok (mkFrame ["value"] [])
  | _ =>
      rbind (Run.map_result
               (fun o => match to_datetime (date o) with
                         | Some t => Ok (t, [to_numeric (value o)])
                         | None => Raise (ValueError (date_error (map date obs)))
                         end) obs)
            (fun rs => Ok (Pd.sort_index (mkFrame ["value"] rs)))
  end.

Definition fetch_request (api_key series_id start : string) : Request :=
  mkRequest FRED_API
            [("series_id", series_id); ("api_key", api_key);
             ("file_type", "json"); ("observation_start", start)]
            30.

Definition fetch_fred (api_key series_id start : string) : M DataFrame :=
  let req := fetch_request api_key series_id start in
  go Run.emit (EvHttpGet req);
  do w <- Run.ask;
  match http w req with
  | NoResponse => Run.raise RequestException
  | Response code js =>
      if (400 <=? code) && (code <? 600) then Run.raise (HTTPError code)
      else match js with
           | NotJson => Run.raise JSONDecodeError
           | JsonObject o => Run.lift (observations_frame (default [] o))
           end
  end.

Definition monthlyize (df : DataFrame) (how : string) : result DataFrame :=
  if Pd.empty df then Ok df
  else if String.eqb how "mean" then Pd.resample_M Pd.agg_mean df
  else Pd.resample_M Pd.agg_last df.

Definition cpi_yoy_from_index (cpi_idx : DataFrame) : result Series :=
  if Pd.empty cpi_idx then Ok (mkSeries "CPI_YoY" [])
  else
    rbind (Pd.infer_freq (Pd.index (rows cpi_idx))) (fun freq =>
    rbind (match freq with
           | Pd.Inf_M | Pd.Inf_MS => Ok cpi_idx
           | Pd.Inf_other => Pd.resample_M Pd.agg_last cpi_idx
           end) (fun cpi_idx =>
    rbind (Pd.getitem cpi_idx "value") (fun col =>
    let yoy := Pd.mul_scalar (Pd.pct_change 12 col) F64.f100 in
    Ok (mkSeries "CPI_YoY" (obs yoy))))).

Definition metric_shown (value : float) (suffix : string) : string :=
  if F64.isna value then "-" else Fmt.format_comma_2f value ++ suffix.

Definition metric_card (label : string) (value : float) (suffix : string) : M unit :=
  Run.emit (EvMetric label (metric_shown value suffix)).

Definition line_chart (df : DataFrame) (y title yaxis_title : string) : M unit :=
  if Pd.empty df || negb (bool_decide (y ∈ columns df))
  then Run.emit (EvInfo ("No data to display for **" ++ title ++ "**."))
  else Run.emit (EvPlotly title yaxis_title y df).

(** ** The sections of the script body *)

(** Page setup. *)
Definition page_setup : M unit :=
  go Run.emit (EvPageConfig "Macro Dashboard (CPI, Unemployment, Real Rates)"
                            "📈" "wide");
  go Run.emit (EvTitle "📈 Macro Dashboard — CPI (YoY), Unemployment, Real Rates");
  Run.emit (EvCaption "Source: Federal Reserve Economic Data (FRED).").

(** Config / Secrets: [st.secrets.get] parses the secrets file before it
    looks the key up, and raises when there is none; with a store and
    without a key, a warning and [st.stop()]. *)
Definition config_secrets : M string :=
  do w <- Run.ask;
  match secrets w with
  | None => Run.raise StreamlitSecretNotFoundError
  | Some store =>
      let api_key := default "" (store !! "FRED_API_KEY") in
      go (if String.eqb api_key ""
          then go Run.emit (EvWarning no_key_warning); Run.stop
          else Run.ret tt);
      Run.ret api_key
  end.

(** Sidebar: the start date as text and the smoothing switch. *)
Definition sidebar : M (string * bool) :=
  go Run.emit (EvSidebarHeader "Settings");
  do w <- Run.ask;
  let start_date := Fmt.strftime_ymd (date_input w) in
  let smooth_ma := checkbox w in
  go Run.emit (EvSidebarCaption
       "Series: CPIAUCSL (CPI index), UNRATE (U‑3), DFII10 (10‑year TIPS real yield).");
  Run.ret (start_date, smooth_ma).

(** Combine (monthly): the outer join and the pruning of empty rows. *)
Definition combine_monthly (cpi_m : DataFrame) (cpi_yoy : Series)
           (unrate_m real10_m : DataFrame) : result DataFrame :=
  rbind (Pd.getitem cpi_m "CPI") (fun c =>
  rbind (Pd.getitem unrate_m "Unemployment") (fun u =>
  rbind (Pd.getitem real10_m "Real10Y") (fun r =>
  rbind (Pd.concat_axis1 [c; cpi_yoy; u; r]) (fun panel =>
  Ok (Pd.dropna_all panel))))).

(** Fetch Data, then Combine. *)
Definition fetch_data (api_key start_date : string) : M Frames :=
  go Run.emit (EvSpinner "Fetching data from FRED…");
  do cpi_idx <- fetch_fred api_key "CPIAUCSL" start_date;
  do cpi_m0 <- Run.lift (monthlyize cpi_idx "last");
  do cpi_m <- Run.alloc (Pd.rename cpi_m0 "value" "CPI");
  do cpi_yoy <- Run.lift (cpi_yoy_from_index cpi_idx);
  do unrate <- fetch_fred api_key "UNRATE" start_date;
  do unrate_m0 <- Run.lift (monthlyize unrate "last");
  do unrate_m <- Run.alloc (Pd.rename unrate_m0 "value" "Unemployment");
  do real10_daily <- fetch_fred api_key "DFII10" start_date;
  do real10_m0 <- Run.lift (monthlyize real10_daily "mean");
  do real10_m <- Run.alloc (Pd.rename real10_m0 "value" "Real10Y");
  do c <- Run.read cpi_m;
  do u <- Run.read unrate_m;
  do r <- Run.read real10_m;
  do panel0 <- Run.lift (combine_monthly c cpi_yoy u r);
  do panel <- Run.alloc panel0;
  Run.ret (mkFrames cpi_m unrate_m real10_m panel).

(** Optional smoothing for display: a copy of the panel whose columns
    are replaced one by one. *)
Definition smooth_column (display_df : ref) (col : string) : M unit :=
  do d <- Run.read display_df;
  do s <- Run.lift (Pd.getitem d col);
  Run.modify display_df (fun d => Pd.setitem d col (Pd.rolling_mean 3 s)).

Definition make_display_df (panel : ref) (smooth_ma : bool) : M ref :=
  do p <- Run.read panel;
  do display_df <- Run.alloc p;
  go (if smooth_ma
      then do d <- Run.read display_df;
           Run.for_each (columns d) (smooth_column display_df)
      else Run.ret tt);
  Run.ret display_df.

(** KPI row. *)
Definition kpi_row (panel : ref) : M unit :=
  do p <- Run.read panel;
  let latest := Pd.dropna_any p in
  match Pd.iloc_last latest with
  | None => Run.emit (EvInfo "No data available yet for the selected period.")
  | Some last =>
      let get c := Pd.row_get (columns latest) last c F64.NaN in
      go Run.emit (EvColumns 3);
      go metric_card "CPI YoY" (get "CPI_YoY") " %";
      go metric_card "Unemployment" (get "Unemployment") " %";
      metric_card "Real 10Y Yield" (get "Real10Y") " %"
  end.

(** Charts. *)
Definition chart (display_df : ref) (heading col title : string) : M unit :=
  go Run.emit (EvSubheader heading);
  do d <- Run.read display_df;
  do sub <- Run.lift (Pd.getitem_list d col);
  line_chart (Pd.dropna_any sub) col title "%".

Definition charts (display_df : ref) : M unit :=
  go chart display_df "CPI — Year‑over‑Year (%)" "CPI_YoY"
           "CPI YoY (computed from CPIAUCSL)";
  go chart display_df "Unemployment Rate (%)" "Unemployment"
           "Unemployment Rate (UNRATE)";
  chart display_df "Real Rates — 10Y TIPS Real Yield (%)" "Real10Y"
        "10‑Year Real Yield (DFII10 monthly average)".

(** Download: the workbook is written from the panel and the three
    monthly frames. *)
Definition download (fr : Frames) : M unit :=
  go Run.emit (EvMarkdown "### Download data");
  go Run.emit (EvCaption
       "Monthly series; CPI YoY computed; Real10Y is monthly mean of DFII10.");
  do p <- Run.read (panel fr);
  do c <- Run.read (cpi_m fr);
  do u <- Run.read (unrate_m fr);
  do r <- Run.read (real10_m fr);
  Run.emit (EvDownload "⬇️ Export to Excel"
              [("macro_panel", p); ("cpi_index", c);
               ("unemployment", u); ("real10y", r)]
              "macro_dashboard_data.xlsx"
              "application/vnd.openxmlformats-officedocument.spreadsheetml.sheet").

(** What follows the data: display copy, KPI row, charts, download. *)
Definition present (fr : Frames) (smooth_ma : bool) : M unit :=
  do display_df <- make_display_df (panel fr) smooth_ma;
  go kpi_row (panel fr);
  go charts display_df;
  download fr.

(** ** The script, top to bottom *)

Definition macro_dashboard : M unit :=
  go page_setup;
  do api_key <- config_secrets;
  do controls <- sidebar;
  do fr <- fetch_data api_key (fst controls);
  present fr (snd controls).

End Script.

(** The formats of the API: dates as YYYY-MM-DD, values as decimal
    numerals ("." and any other text is not a number). They stand for the
    pandas parsers in the worked examples. *)
Module Api.

Definition digit_value (c : ascii) : option Z :=
  let n := Z.of_nat (nat_of_ascii c) in
  if (48 <=? n) && (n <=? 57) then Some (n - 48) else None.

Fixpoint natural (acc : Z) (s : string) : option Z :=
  match s with
  | EmptyString => Some acc
  | String c t => match digit_value c with
                  | Some d => natural (acc * 10 + d) t
                  | None => None
                  end
  end.

Definition iso_date (s : string) : option Timestamp :=
  match natural 0 (substring 0 4 s), natural 0 (substring 5 2 s),
        natural 0 (substring 8 2 s) with
  | Some y, Some m, Some d =>
      if (String.length s =? 10)%nat && Cal.valid (mkTs y m d)
      then Some (mkTs y m d) else None
  | _, _, _ => None
  end.

(** The error text of the examples does not name the string. *)
Definition date_error (dates : list string) : string :=
  "Unknown datetime string format".

(** Whole numbers are enough for the examples. *)
Definition numeral (s : string) : float :=
  match s with
  | EmptyString => F64.NaN
  | _ => match natural 0 s with
         | Some n => PrimFloat.of_uint63 (Uint63.of_Z n)
         | None => F64.NaN
         end
  end.

End Api.

(* ===================================================================== *)
(** * Vocabulary of the properties *)
(* ===================================================================== *)

Module Spec.

(** The value of a row of a one-column frame. *)
Definition value_of (r : Timestamp * list float) : float := Pd.cell 0 r.

(** A Series: the column 'value' over valid dates that ascend without
    repeats. *)
Definition is_series (df : DataFrame) : Prop :=
  columns df = ["value"] /\
  Forall (fun r => Cal.valid (fst r) = true) (rows df) /\
  Pd.strictly_increasing (Pd.index (rows df)) = true.

(** [v] is the value of the last observation of month [o] that is not
    missing, or is missing when the month has no such observation. *)
Definition last_valid_of_month (l : list (Timestamp * list float)) (o : Z)
           (v : float) : Prop :=
  (exists l1 r l2,
      l = (l1 ++ r :: l2)%list /\ Cal.month_ord (fst r) = o /\
      F64.isna (value_of r) = false /\ v = value_of r /\
      Forall (fun r' => Cal.month_ord (fst r') = o ->
                        F64.isna (value_of r') = true) l2)
  \/ (v = F64.NaN /\
      Forall (fun r' => Cal.month_ord (fst r') = o ->
                        F64.isna (value_of r') = true) l).

(** The index of a Monthly Series: valid month ends, one per calendar
    month, without a gap. *)
Fixpoint consecutive_month_ends (idx : list Timestamp) : bool :=
  match idx with
  | [] => true
  | a :: t =>
      Cal.valid a && Cal.is_month_end a &&
      match t with
      | [] => true
      | b :: _ => (Cal.month_ord b =? Cal.month_ord a + 1) &&
                  consecutive_month_ends t
      end
  end.

Definition is_monthly_series (df : DataFrame) : Prop :=
  columns df = ["value"] /\
  consecutive_month_ends (Pd.index (rows df)) = true.

(** [(current / earlier - 1) * 100]. *)
Definition percent_change (current earlier : float) : float :=
  PrimFloat.mul (PrimFloat.sub (PrimFloat.div current earlier) F64.f1) F64.f100.

(** The arithmetic mean of three values in binary64, summed from zero. *)
Definition mean3 (a b c : float) : float :=
  PrimFloat.div
    (PrimFloat.add (PrimFloat.add (PrimFloat.add PrimFloat.zero a) b) c)
    (F64.of_nat 3).

(** One when row [j] of a column holds a value, zero when it is missing. *)
Definition observed (vals : list float) (j : nat) : nat :=
  if F64.isna (nth j vals F64.NaN) then 0%nat else 1%nat.

(** The running sums of a column of prepared values when the window of
    three rows ends at row [i]: every value down to row [i] has entered,
    and every value above row [i - 2] has left again. *)
Fixpoint running3 (vals : list float) (i : nat) : Pd.MeanState :=
  match i with
  | O => Pd.mean_step 3 vals 0 (nth 0 vals F64.NaN) (Pd.mean_init (nth 0 vals F64.NaN))
  | S j => Pd.mean_step 3 vals (S j) (nth (S j) vals F64.NaN) (running3 vals j)
  end.

(** The trailing 3-row mean of a column at row [i]: missing on the first
    two rows and wherever one of the three values is missing or
    infinite; elsewhere the mean that the running sums give. *)
Definition trailing_mean3 (col : list float) (i : nat) : float :=
  if (i <? 2)%nat then F64.NaN
  else
    let a := nth (i - 2) col F64.NaN in
    let b := nth (i - 1) col F64.NaN in
    let c := nth i col F64.NaN in
    if F64.isna a || F64.isna b || F64.isna c then F64.NaN
    else if PrimFloat.is_infinity a || PrimFloat.is_infinity b || PrimFloat.is_infinity c
    then F64.NaN
    else Pd.calc_mean 3 (running3 (Pd.prep_values col) i).

(** A row to read when a position is out of range. *)
Definition no_row : Timestamp * list float := (mkTs 0 0 0, []).

(** A well-formed frame: distinct column labels, distinct index labels,
    one cell per column in every row. *)
Definition frame_wf (df : DataFrame) : Prop :=
  List.NoDup (columns df) /\
  List.NoDup (Pd.index (rows df)) /\
  Forall (fun r => length (snd r) = length (columns df)) (rows df).

(** The frame that the smoothing loop leaves after the listed columns,
    as a function of the frame it starts from. *)
Definition smooth_columns (d : DataFrame) (cols : list string) : DataFrame :=
  fold_left (fun d col =>
               match Pd.getitem d col with
               | Ok s => Pd.setitem d col (Pd.rolling_mean 3 s)
               | Raise _ => d
               end) cols d.

(** The state of the smoothing loop over the frame [d0] when its first
    [j] columns are done: those hold the trailing means of the columns of
    [d0], the others are as in [d0]. *)
Definition smoothed_upto (d0 : DataFrame) (j : nat) (d : DataFrame) : Prop :=
  columns d = columns d0 /\
  Pd.index (rows d) = Pd.index (rows d0) /\
  Forall (fun r => length (snd r) = length (columns d0)) (rows d) /\
  forall i k, (i < length (rows d0))%nat -> (k < length (columns d0))%nat ->
    Pd.cell k (nth i (rows d) no_row) =
    if (k <? j)%nat then trailing_mean3 (Pd.column_at k (rows d0)) i
    else Pd.cell k (nth i (rows d0) no_row).

(** The panel of the script: its four columns, four cells per row. *)
Definition is_panel (df : DataFrame) : Prop :=
  columns df = ["CPI"; "CPI_YoY"; "Unemployment"; "Real10Y"] /\
  Forall (fun r => length (snd r) = 4%nat) (rows df).

(** A row without a missing cell. *)
Definition complete (r : Timestamp * list float) : bool :=
  forallb F64.notna (snd r).

Definition is_metric (e : Event) : bool :=
  match e with EvMetric _ _ => true | _ => false end.

(** The network calls and the exports among the events of a run. *)
Definition is_network_call (e : Event) : bool :=
  match e with EvHttpGet _ => true | _ => false end.

Definition network_calls (l : list Event) : list Event :=
  List.filter is_network_call l.

Definition is_download (e : Event) : bool :=
  match e with EvDownload _ _ _ _ => true | _ => false end.

Definition downloads (l : list Event) : list Event :=
  List.filter is_download l.

(** The export event for given sheets. *)
Definition export_of (p c u r : DataFrame) : Event :=
  EvDownload "⬇️ Export to Excel"
             [("macro_panel", p); ("cpi_index", c); ("unemployment", u); ("real10y", r)]
             "macro_dashboard_data.xlsx"
             "application/vnd.openxmlformats-officedocument.spreadsheetml.sheet".

(** An index dated as the API dates monthly series: the first day of
    every month, without a gap. *)
Fixpoint consecutive_month_starts (idx : list Timestamp) : bool :=
  match idx with
  | [] => true
  | a :: t =>
      Cal.valid a && Cal.is_month_start a &&
      match t with
      | [] => true
      | b :: _ => (Cal.month_ord b =? Cal.month_ord a + 1) &&
                  consecutive_month_starts t
      end
  end.

(** An index in chronological order, repeats allowed. *)
Fixpoint ascending (l : list Timestamp) : bool :=
  match l with
  | a :: ((b :: _) as t) => Cal.leb a b && ascending t
  | _ => true
  end.

(** The row that an observation record becomes once its fields are
    parsed. *)
Definition parsed_row (to_datetime : string -> option Timestamp)
           (to_numeric : string -> float) (o : RawObs) : Timestamp * list float :=
  (default (mkTs 0 0 0) (to_datetime (date o)), [to_numeric (value o)]).

(** A computation that adds no event of a given kind to the page,
    however it ends. *)
Definition silent {A : Type} (kind : Event -> bool) (m : M A) : Prop :=
  forall w s o s', m w s = (o, s') ->
                   List.filter kind (log s') = List.filter kind (log s).

(** The API answers the request for a series with a status outside
    400..599 and a JSON object whose observations are [obs] (none when
    the key is absent), each with a date that can be read. *)
Definition answered (to_datetime : string -> option Timestamp) (w : World)
           (api_key series_id start : string) (obs : list RawObs) : Prop :=
  exists (code : Z) (o : option (list RawObs)),
    http w (fetch_request api_key series_id start) = Response code (JsonObject o) /\
    (code < 400 \/ 600 <= code) /\
    default [] o = obs /\
    Forall (fun r => to_datetime (date r) <> None) obs.

(** A computation that does not read the smoothing switch. *)
Definition flagless {A : Type} (m : M A) : Prop :=
  forall sec di h s, m (mkWorld sec di true h) s = m (mkWorld sec di false h) s.

(** The state with more events on the page. *)
Definition logged (s : State) (evs : list Event) : State :=
  mkState (log s ++ evs)%list (heap s) (next_ref s).

End Spec.

(** Worked inputs. *)
Module Ex.

Definition f (n : Z) : float := PrimFloat.of_uint63 (Uint63.of_Z n).

(** Two observations in January 2000, the later one missing. *)
Definition january : DataFrame :=
  mkFrame ["value"] [(mkTs 2000 1 10, [f 1]); (mkTs 2000 1 20, [F64.NaN])].

Definition month_ends (first : Z) (n : nat) : list Timestamp :=
  map (fun k => Cal.month_end (first + Z.of_nat k)) (seq 0 n).

(** Fourteen months from January 2000, index 100, 101, ...; the value
    of February 2001 is missing. *)
Definition cpi_with_gap : DataFrame :=
  mkFrame ["value"]
    (combine (month_ends 24000 14)
             (map (fun v => [v])
                  (map (fun k => f (100 + Z.of_nat k)) (seq 0 13) ++ [F64.NaN]))).

(** Monthly frames with overlapping and disjoint ranges; March 2000 is
    missing in the only column that has it. *)
Definition cpi_frame : DataFrame :=
  mkFrame ["CPI"] [(mkTs 2000 1 31, [f 100]); (mkTs 2000 2 29, [f 101])].
Definition yoy_series : Series :=
  mkSeries "CPI_YoY" [(mkTs 2000 1 31, F64.NaN); (mkTs 2000 2 29, F64.NaN)].
Definition unrate_frame : DataFrame :=
  mkFrame ["Unemployment"] [(mkTs 2000 2 29, [f 4]); (mkTs 2000 3 31, [F64.NaN])].
Definition real10_frame : DataFrame :=
  mkFrame ["Real10Y"] [(mkTs 2000 4 30, [f 2])].

Definition cpi_col : Series :=
  mkSeries "CPI" [(mkTs 2000 1 31, f 100); (mkTs 2000 2 29, f 101)].
Definition unrate_col : Series :=
  mkSeries "Unemployment" [(mkTs 2000 2 29, f 4); (mkTs 2000 3 31, F64.NaN)].
Definition real10_col : Series :=
  mkSeries "Real10Y" [(mkTs 2000 4 30, f 2)].

(** A panel of one column, 1 to 5 over five months. *)
Definition one_to_five : DataFrame :=
  mkFrame ["CPI"]
    (combine (month_ends 24000 5) (map (fun v => [f v]) [1; 2; 3; 4; 5])).

(** The same panel with the value of the second month missing. *)
Definition one_to_five_holed : DataFrame :=
  mkFrame ["CPI"]
    (combine (month_ends 24000 5)
             (map (fun v => [v]) [f 1; F64.NaN; f 3; f 4; f 5])).

(** A store that holds one frame. *)
Definition store_of (df : DataFrame) : State := mkState [] {[ 0%nat := df ]} 1.

(** The API as a function of the request: the observations of the three
    series, by identifier. *)
Definition api (cpi unrate dfii : list RawObs) (r : Request) : HttpOutcome :=
  match List.find (fun p => String.eqb (fst p) "series_id") (params r) with
  | Some (_, sid) =>
      if String.eqb sid "CPIAUCSL" then Response 200 (JsonObject (Some cpi))
      else if String.eqb sid "UNRATE" then Response 200 (JsonObject (Some unrate))
      else if String.eqb sid "DFII10" then Response 200 (JsonObject (Some dfii))
      else Response 400 NotJson
  | None => Response 400 NotJson
  end.

(** Monthly observations dated on the first of the month, as the API
    dates them, with values [v0], [v0 + 1], ... *)
Definition month_start (o : Z) : Timestamp := mkTs (o / 12) (o mod 12 + 1) 1.

Definition monthly_obs (first : Z) (n : nat) (v0 : Z) : list RawObs :=
  map (fun k => mkRawObs (Fmt.strftime_ymd (month_start (first + Z.of_nat k)))
                         (string_of_list_ascii (Fmt.digits (v0 + Z.of_nat k))))
      (seq 0 n).

(** Three months of data from January 2000: index 100..102, rate 4..6,
    one daily yield per month. *)
Definition young_world : World :=
  mkWorld (Some {[ "FRED_API_KEY" := "k" ]}) (mkTs 2000 1 1) false
          (api (monthly_obs 24000 3 100) (monthly_obs 24000 3 4)
               [mkRawObs "2000-01-03" "2"; mkRawObs "2000-02-01" "2";
                mkRawObs "2000-03-01" "2"]).

(** Thirteen months of data from January 2000: index 100..112, rate
    4, 5, ..., daily yields in January 2001 with one day without data. *)
Definition fred_world : World :=
  mkWorld (Some {[ "FRED_API_KEY" := "k" ]}) (mkTs 2000 1 1) false
          (api (monthly_obs 24000 13 100) (monthly_obs 24000 13 4)
               [mkRawObs "2001-01-02" "3"; mkRawObs "2001-01-03" ".";
                mkRawObs "2001-01-04" "5"]).

(** A panel whose last complete row is the second of three. *)
Definition kpi_panel : DataFrame :=
  mkFrame ["CPI"; "CPI_YoY"; "Unemployment"; "Real10Y"]
    [(mkTs 2001 1 31, [f 112; f 12; f 4; f 2]);
     (mkTs 2001 2 28, [f 113; PrimFloat.div (f 25) (f 2); f 5; f 1234]);
     (mkTs 2001 3 31, [f 114; f 13; F64.NaN; f 3])].

(** A world whose API answers out of order, with one value that is not
    a number; and one whose API answers 503 with a well-formed body. *)
Definition unsorted_obs : list RawObs :=
  [mkRawObs "2000-03-01" "3"; mkRawObs "2000-01-01" "1"; mkRawObs "2000-02-01" "."].

Definition unsorted_world : World :=
  mkWorld (Some {[ "FRED_API_KEY" := "k" ]}) (mkTs 2000 1 1) false
          (fun _ => Response 200 (JsonObject (Some unsorted_obs))).

Definition down_world : World :=
  mkWorld (Some {[ "FRED_API_KEY" := "k" ]}) (mkTs 2000 1 1) false
          (fun _ => Response 503 (JsonObject (Some unsorted_obs))).

(** Daily values out of order, with a day without data and nothing in
    February and March 2000. *)
Definition daily_frame : DataFrame :=
  mkFrame ["value"]
    [(mkTs 2000 4 3, [f 7]); (mkTs 2000 1 4, [f 3]); (mkTs 2000 1 5, [F64.NaN]);
     (mkTs 2000 1 6, [f 5])].

(** Thirteen months of the index, dated on the first of the month. *)
Definition cpi_month_starts : DataFrame :=
  mkFrame ["value"]
    (map (fun k => (month_start (24000 + Z.of_nat k), [f (100 + Z.of_nat k)]))
         (seq 0 13)).

(** Two months of data from January 2000. *)
Definition two_month_world : World :=
  mkWorld (Some {[ "FRED_API_KEY" := "k" ]}) (mkTs 2000 1 1) false
          (api (monthly_obs 24000 2 100) (monthly_obs 24000 2 4)
               [mkRawObs "2000-01-03" "2"; mkRawObs "2000-02-01" "2"]).


Definition tenth (n : Z) : float := PrimFloat.div (f n) (f 10).

(** A world without a secrets file. *)
Definition no_store_world : World :=
  mkWorld None (mkTs 2000 1 1) false (fun _ => Response 200 (JsonObject (Some []))).

(** A world without the credential, and one whose three series are
    empty. *)
Definition no_key_world : World :=
  mkWorld (Some ∅) (mkTs 2000 1 1) false (fun _ => Response 200 (JsonObject (Some []))).

Definition empty_world : World :=
  mkWorld (Some {[ "FRED_API_KEY" := "k" ]}) (mkTs 2000 1 1) false
          (fun _ => Response 200 (JsonObject (Some []))).

End Ex.

(* ===================================================================== *)
(** * Properties of float64 cells *)
(* ===================================================================== *)

Section FloatFacts.

Lemma SFcompare_refl_finite s m e :
  SFcompare (S754_finite s m e) (S754_finite s m e) = Some Eq.
Proof.
  simpl. destruct s; rewrite Z.compare_refl, ?Pos.compare_cont_refl;
    rewrite ?Pos.compare_refl; reflexivity.
Qed.

Lemma Prim2SF_nan_inv x : Prim2SF x = S754_nan -> x = PrimFloat.nan.
Proof.
  intros H. rewrite <- (SF2Prim_Prim2SF x), H. reflexivity.
Qed.

(** A cell is missing exactly when it is the NaN. *)
Lemma isna_spec x : F64.isna x = true <-> x = F64.NaN.
Proof.
  unfold F64.isna, F64.NaN, PrimFloat.is_nan. split.
  - intros H. rewrite FloatAxioms.eqb_spec in H. apply Prim2SF_nan_inv.
    destruct (Prim2SF x) as [s| s| |s m e] eqn:E; try reflexivity.
    + destruct s; discriminate H.
    + destruct s; discriminate H.
    + unfold SFeqb in H. rewrite SFcompare_refl_finite in H. discriminate H.
  - intros ->. reflexivity.
Qed.

Lemma notna_spec x : F64.notna x = true <-> x <> F64.NaN.
Proof.
  unfold F64.notna. rewrite negb_true_iff, <- not_true_iff_false, isna_spec.
  reflexivity.
Qed.

Lemma isna_NaN : F64.isna F64.NaN = true.
Proof. reflexivity. Qed.

Lemma div_NaN_r x : PrimFloat.div x F64.NaN = F64.NaN.
Proof.
  apply Prim2SF_inj. rewrite div_spec.
  change (Prim2SF F64.NaN) with S754_nan.
  unfold SF64div, SFdiv. destruct (Prim2SF x) as [s| s| |s m e]; reflexivity.
Qed.

Lemma sub_NaN_l y : PrimFloat.sub F64.NaN y = F64.NaN.
Proof.
  apply Prim2SF_inj. rewrite sub_spec.
  change (Prim2SF F64.NaN) with S754_nan. reflexivity.
Qed.

Lemma mul_NaN_l y : PrimFloat.mul F64.NaN y = F64.NaN.
Proof.
  apply Prim2SF_inj. rewrite mul_spec.
  change (Prim2SF F64.NaN) with S754_nan. reflexivity.
Qed.

End FloatFacts.

(* ===================================================================== *)
(** * Properties of the calendar order *)
(* ===================================================================== *)

Section CalendarFacts.

Ltac by_cases_on_fields :=
  repeat match goal with
         | |- context [?x ?= ?y] =>
             let E := fresh "E" in
             destruct (Z.compare_spec x y) as [E|E|E]
         end.

Lemma compare_eq_iff a b : Cal.compare a b = Eq <-> a = b.
Proof.
  destruct a as [ya ma da], b as [yb mb db]. unfold Cal.compare; simpl.
  by_cases_on_fields; split; intros Hc; try discriminate Hc; try reflexivity;
    try (subst; reflexivity); inversion Hc; lia.
Qed.

Lemma compare_lt_iff a b :
  Cal.compare a b = Lt <->
  (year a < year b \/ (year a = year b /\
    (month a < month b \/ (month a = month b /\ day a < day b)))).
Proof.
  destruct a as [ya ma da], b as [yb mb db]. unfold Cal.compare; simpl.
  by_cases_on_fields; split; intros Hc; try discriminate Hc; try reflexivity; lia.
Qed.

Lemma compare_gt_iff a b : Cal.compare a b = Gt <-> Cal.compare b a = Lt.
Proof.
  rewrite compare_lt_iff.
  destruct a as [ya ma da], b as [yb mb db]. unfold Cal.compare; simpl.
  by_cases_on_fields; split; intros Hc; try discriminate Hc; try reflexivity; lia.
Qed.

Lemma ltb_lt a b : Cal.ltb a b = true <-> Cal.compare a b = Lt.
Proof. unfold Cal.ltb. destruct (Cal.compare a b); split; congruence. Qed.

Lemma ltb_trans a b c :
  Cal.ltb a b = true -> Cal.ltb b c = true -> Cal.ltb a c = true.
Proof. rewrite !ltb_lt, !compare_lt_iff. lia. Qed.

Lemma ltb_irrefl a : Cal.ltb a a = false.
Proof.
  unfold Cal.ltb. replace (Cal.compare a a) with Eq; [reflexivity|].
  symmetry. now apply compare_eq_iff.
Qed.

Lemma leb_of_ltb a b : Cal.ltb a b = true -> Cal.leb a b = true.
Proof. unfold Cal.ltb, Cal.leb. destruct (Cal.compare a b); congruence. Qed.

Lemma days_in_month_pos y m : 28 <= Cal.days_in_month y m <= 31.
Proof.
  unfold Cal.days_in_month.
  destruct (m =? 2); [destruct (Cal.is_leap y); lia|].
  destruct ((m =? 4) || (m =? 6) || (m =? 9) || (m =? 11)); lia.
Qed.

Lemma valid_month t : Cal.valid t = true -> 1 <= month t <= 12.
Proof. unfold Cal.valid. rewrite !andb_true_iff, !Z.leb_le. lia. Qed.

(** Among valid dates the month count follows the order. *)
Lemma month_ord_mono a b :
  Cal.valid a = true -> Cal.valid b = true ->
  Cal.leb a b = true -> Cal.month_ord a <= Cal.month_ord b.
Proof.
  intros Ha%valid_month Hb%valid_month Hle. unfold Cal.month_ord.
  unfold Cal.leb in Hle.
  destruct (Cal.compare a b) eqn:E; try discriminate Hle.
  - apply compare_eq_iff in E. subst. lia.
  - apply compare_lt_iff in E. lia.
Qed.

Lemma month_end_inj o o' : Cal.month_end o = Cal.month_end o' -> o = o'.
Proof.
  unfold Cal.month_end. intros H. injection H as Hy Hm _.
  rewrite (Z.div_mod o 12), (Z.div_mod o' 12) by lia. lia.
Qed.

Lemma month_end_of_month_ord t :
  Cal.valid t = true ->
  Cal.month_end (Cal.month_ord t) =
  mkTs (year t) (month t) (Cal.days_in_month (year t) (month t)).
Proof.
  intros H%valid_month. unfold Cal.month_end, Cal.month_ord.
  replace ((year t * 12 + (month t - 1)) / 12) with (year t)
    by (apply Z.div_unique with (r := month t - 1); lia).
  replace ((year t * 12 + (month t - 1)) mod 12) with (month t - 1)
    by (apply Z.mod_unique with (q := year t); lia).
  replace (month t - 1 + 1) with (month t) by lia. reflexivity.
Qed.

Lemma month_ord_month_end o : Cal.month_ord (Cal.month_end o) = o.
Proof.
  unfold Cal.month_ord, Cal.month_end; simpl.
  rewrite (Z.div_mod o 12) at 3 by lia. lia.
Qed.

Lemma month_end_is_month_end o : Cal.is_month_end (Cal.month_end o) = true.
Proof. unfold Cal.is_month_end, Cal.month_end; simpl. apply Z.eqb_refl. Qed.

End CalendarFacts.

(* ===================================================================== *)
(** * Properties of sorting and of monthly resampling *)
(* ===================================================================== *)

Section ResampleFacts.

Lemma strictly_increasing_cons a l :
  Pd.strictly_increasing (a :: l) = true ->
  Pd.strictly_increasing l = true /\ Forall (fun b => Cal.ltb a b = true) l.
Proof.
  revert a. induction l as [|b l IH]; intros a H.
  - split; [reflexivity | constructor].
  - simpl in H. apply andb_true_iff in H as [Hab Hl].
    split; [exact Hl|]. constructor; [exact Hab|].
    destruct (IH b Hl) as [_ Hall].
    eapply List.Forall_impl; [|exact Hall].
    intros c Hbc. simpl in Hbc. eapply ltb_trans; eassumption.
Qed.

(** Sorting a frame whose index already ascends changes nothing. *)
Lemma sort_rows_sorted {A : Type} (l : list (Timestamp * A)) :
  Pd.strictly_increasing (Pd.index l) = true -> Pd.sort_rows l = l.
Proof.
  induction l as [|r l IH]; intros H; [reflexivity|].
  change (Pd.index (r :: l)) with (fst r :: Pd.index l) in H.
  apply strictly_increasing_cons in H as [Hl Hall].
  simpl. rewrite (IH Hl). destruct l as [|h t]; [reflexivity|].
  simpl. inversion Hall as [|? ? Hrh _]; subst.
  now rewrite (leb_of_ltb _ _ Hrh).
Qed.

Lemma strictly_increasing_last a l d :
  Pd.strictly_increasing (a :: l) = true ->
  Forall (fun b => Cal.leb b (List.last (a :: l) d) = true) (a :: l).
Proof.
  revert a. induction l as [|b l IH]; intros a H.
  - constructor; [|constructor]. simpl. unfold Cal.leb.
    replace (Cal.compare a a) with Eq; [reflexivity|].
    symmetry. now apply compare_eq_iff.
  - pose proof H as H'. simpl in H'. apply andb_true_iff in H' as [Hab Hl].
    specialize (IH b Hl).
    change (List.last (a :: b :: l) d) with (List.last (b :: l) d).
    constructor; [|exact IH].
    inversion IH as [|? ? Hb _]; subst.
    unfold Cal.leb in *. apply ltb_lt in Hab.
    destruct (Cal.compare b (List.last (b :: l) d)) eqn:E; try discriminate Hb.
    + apply compare_eq_iff in E. rewrite <- E, Hab. reflexivity.
    + assert (Cal.compare a (List.last (b :: l) d) = Lt) as ->; [|reflexivity].
      apply ltb_lt. eapply ltb_trans; apply ltb_lt; eassumption.
Qed.

Lemma elem_of_month_range first last o :
  first <= o <= last -> In o (Pd.month_range first last).
Proof.
  intros H. unfold Pd.month_range. apply in_map_iff.
  exists (Z.to_nat (o - first)). split; [lia|].
  apply in_seq. lia.
Qed.

Lemma month_range_bounds first last o :
  In o (Pd.month_range first last) -> first <= o <= last.
Proof.
  unfold Pd.month_range. intros (k & <- & Hk%in_seq)%in_map_iff. lia.
Qed.

Lemma NoDup_month_range first last : List.NoDup (Pd.month_range first last).
Proof.
  unfold Pd.month_range. apply Finite.Injective_map_NoDup.
  - intros x y. lia.
  - apply seq_NoDup.
Qed.

(** ** The aggregate of a bin under [last] *)

Lemma agg_last_from acc vs :
  Forall (fun v => F64.isna v = true) vs ->
  fold_left (fun a v => if F64.isna v then a else v) vs acc = acc.
Proof.
  revert acc. induction vs as [|v vs IH]; intros acc H; [reflexivity|].
  inversion H as [|? ? Hv Hvs]; subst. simpl. rewrite Hv. now apply IH.
Qed.

Lemma agg_last_all_missing vs :
  Forall (fun v => F64.isna v = true) vs -> Pd.agg_last vs = F64.NaN.
Proof. apply agg_last_from. Qed.

Lemma agg_last_last_valid before x after :
  F64.isna x = false ->
  Forall (fun v => F64.isna v = true) after ->
  Pd.agg_last (before ++ x :: after) = x.
Proof.
  intros Hx Hafter. unfold Pd.agg_last.
  rewrite fold_left_app. simpl. rewrite Hx. now apply agg_last_from.
Qed.

End ResampleFacts.

(* ===================================================================== *)
(** * Frequency Normalizer, mode [last] *)
(* ===================================================================== *)

Section NormalizerLast.

Lemma split_last_valid (l : list (Timestamp * list float)) (o : Z) :
  Forall (fun r => Cal.month_ord (fst r) = o ->
                   F64.isna (Spec.value_of r) = true) l
  \/ exists l1 r l2,
      l = (l1 ++ r :: l2)%list /\ Cal.month_ord (fst r) = o /\
      F64.isna (Spec.value_of r) = false /\
      Forall (fun r' => Cal.month_ord (fst r') = o ->
                        F64.isna (Spec.value_of r') = true) l2.
Proof.
  induction l as [|r l IH].
  - left. constructor.
  - destruct IH as [Hall | (l1 & r0 & l2 & -> & Ho & Hv & Hl2)].
    + destruct (Z.eq_dec (Cal.month_ord (fst r)) o) as [Hr|Hr].
      * destruct (F64.isna (Spec.value_of r)) eqn:E.
        -- left. constructor; auto.
        -- right. exists [], r, l. auto.
      * left. constructor; [intros; contradiction | exact Hall].
    + right. exists (r :: l1), r0, l2. auto.
Qed.

Lemma bin_all_missing (l : list (Timestamp * list float)) (o : Z) :
  Forall (fun r => Cal.month_ord (fst r) = o ->
                   F64.isna (Spec.value_of r) = true) l ->
  Forall (fun v => F64.isna v = true)
         (Pd.column_at 0 (List.filter (Pd.in_month o) l)).
Proof.
  induction 1 as [|r l Hr _ IH]; [constructor|].
  simpl. unfold Pd.in_month at 1.
  destruct (Z.eqb_spec (Cal.month_ord (fst r)) o) as [E|E]; [|exact IH].
  constructor; [exact (Hr E) | exact IH].
Qed.

(** The aggregate of a month's bin is the month's last value that is
    not missing. *)
Lemma agg_last_of_bin (l : list (Timestamp * list float)) (o : Z) :
  Spec.last_valid_of_month l o
    (Pd.agg_last (Pd.column_at 0 (List.filter (Pd.in_month o) l))).
Proof.
  destruct (split_last_valid l o) as [Hall | (l1 & r & l2 & -> & Ho & Hv & Hl2)].
  - right. split; [|exact Hall].
    apply agg_last_all_missing, bin_all_missing, Hall.
  - left. exists l1, r, l2. repeat split; auto.
    rewrite List.filter_app. simpl. unfold Pd.in_month at 2.
    rewrite Ho, Z.eqb_refl. unfold Pd.column_at. rewrite List.map_app. simpl.
    apply agg_last_last_valid; [exact Hv|].
    apply bin_all_missing, Hl2.
Qed.

Lemma last_of_map {A B : Type} (g : A -> B) (l : list A) (d : A) :
  List.last (map g l) (g d) = g (List.last l d).
Proof.
  induction l as [|a l IH]; [reflexivity|].
  destruct l as [|b l]; [reflexivity|]. exact IH.
Qed.

Lemma month_of_row_in_range (r0 : Timestamp * list float) l r :
  Forall (fun r => Cal.valid (fst r) = true) (r0 :: l) ->
  Pd.strictly_increasing (Pd.index (r0 :: l)) = true ->
  In r (r0 :: l) ->
  Cal.month_ord (fst r0) <= Cal.month_ord (fst r)
    <= Cal.month_ord (fst (List.last (r0 :: l) r0)).
Proof.
  intros Hvalid Hinc Hin.
  assert (Hv : forall x, In x (r0 :: l) -> Cal.valid (fst x) = true)
    by (now apply List.Forall_forall).
  assert (Hlast : In (List.last (r0 :: l) r0) (r0 :: l)).
  { destruct (exists_last (l := r0 :: l)) as (l' & x & E); [discriminate|].
    rewrite E, last_last. apply in_or_app. right. now left. }
  split.
  - destruct Hin as [<- | Hin]; [lia|].
    change (Pd.index (r0 :: l)) with (fst r0 :: Pd.index l) in Hinc.
    apply strictly_increasing_cons in Hinc as [_ Hall].
    rewrite List.Forall_forall in Hall.
    apply month_ord_mono; [apply Hv; now left | apply Hv; now right |].
    apply leb_of_ltb, Hall, in_map, Hin.
  - change (Pd.index (r0 :: l)) with (fst r0 :: Pd.index l) in Hinc.
    pose proof (strictly_increasing_last _ _ (fst r0) Hinc) as Hall.
    rewrite List.Forall_forall in Hall.
    apply month_ord_mono; [now apply Hv | now apply Hv |].
    specialize (Hall (fst r) (in_map fst _ _ Hin)).
    change (fst r0 :: Pd.index l) with (map fst (r0 :: l)) in Hall.
    now rewrite (last_of_map fst) in Hall.
Qed.

Lemma index_map {A B : Type} (g : A -> Timestamp * B) (l : list A) :
  Pd.index (map g l) = map (fun a => fst (g a)) l.
Proof. unfold Pd.index. apply List.map_map. Qed.

(** C5 (as amended). For every Series, mode [last] yields one row per
    calendar month of the input, keyed on the month end, and its value
    is the last observation of the month that is not missing; it is
    missing only when all the observations of the month are. *)
Theorem monthlyize_last_spec (df : DataFrame) :
  Spec.is_series df ->
  exists out,
    monthlyize df "last" = Ok out /\
    columns out = ["value"] /\
    List.NoDup (Pd.index (rows out)) /\
    Forall (fun t => Cal.is_month_end t = true) (Pd.index (rows out)) /\
    forall r, In r (rows df) ->
      exists v,
        In (Cal.month_end (Cal.month_ord (fst r)), [v]) (rows out) /\
        Spec.last_valid_of_month (rows df) (Cal.month_ord (fst r)) v.
Proof.
  intros (Hcols & Hvalid & Hinc).
  destruct df as [cols l]. simpl in *. subst cols.
  unfold monthlyize, Pd.empty; simpl.
  destruct l as [|r0 l].
  { exists (mkFrame ["value"] []). repeat split; try constructor.
    intros r []. }
  change (String.eqb "last" "mean") with false; cbv iota.
  unfold Pd.resample_M. cbn [rows columns].
  rewrite (sort_rows_sorted _ Hinc). cbn [length seq map].
  eexists. split; [reflexivity|]. cbn [rows columns].
  split; [reflexivity|]. rewrite index_map. cbn [fst].
  split; [|split].
  - apply Finite.Injective_map_NoDup; [|apply NoDup_month_range].
    intros x y. apply month_end_inj.
  - apply List.Forall_forall. intros t (o & <- & _)%in_map_iff.
    apply month_end_is_month_end.
  - intros r Hr.
    exists (Pd.agg_last
              (Pd.column_at 0
                 (List.filter (Pd.in_month (Cal.month_ord (fst r))) (r0 :: l)))).
    split; [|apply agg_last_of_bin].
    apply in_map_iff. exists (Cal.month_ord (fst r)). split; [reflexivity|].
    apply elem_of_month_range. now apply month_of_row_in_range.
Qed.

Lemma monthlyize_last_witness :
  exists out,
    monthlyize Ex.january "last" = Ok out /\
    columns out = ["value"] /\
    List.NoDup (Pd.index (rows out)) /\
    Forall (fun t => Cal.is_month_end t = true) (Pd.index (rows out)) /\
    forall r, In r (rows Ex.january) ->
      exists v,
        In (Cal.month_end (Cal.month_ord (fst r)), [v]) (rows out) /\
        Spec.last_valid_of_month (rows Ex.january) (Cal.month_ord (fst r)) v.
Proof.
  apply (monthlyize_last_spec Ex.january).
  split; [reflexivity|]. split; [|reflexivity].
  repeat constructor.
Defined.

(** C5 as stated fails: the last observation of January 2000 is
    missing, yet the monthly value is the earlier one. *)
Lemma monthlyize_last_skips_missing :
  Spec.is_series Ex.january /\
  List.last (rows Ex.january) (mkTs 0 0 0, []) = (mkTs 2000 1 20, [F64.NaN]) /\
  monthlyize Ex.january "last" = Ok (mkFrame ["value"] [(mkTs 2000 1 31, [Ex.f 1])]) /\
  F64.isna (Ex.f 1) = false.
Proof.
  split; [|split; [reflexivity|split;[vm_compute; reflexivity|reflexivity]]].
  split; [reflexivity|]. split; [|reflexivity]. repeat constructor.
Qed.

End NormalizerLast.

(* ===================================================================== *)
(** * Derived Metric Calculator *)
(* ===================================================================== *)

Section YearOverYear.

(** ** The frequency inferred for a Monthly Series *)

Lemma consecutive_tail a t :
  Spec.consecutive_month_ends (a :: t) = true ->
  Spec.consecutive_month_ends t = true.
Proof.
  simpl. destruct t as [|b t]; [reflexivity|].
  rewrite !andb_true_iff. tauto.
Qed.

Lemma consecutive_step a b t :
  Spec.consecutive_month_ends (a :: b :: t) = true ->
  Cal.valid a = true /\ Cal.valid b = true /\
  Cal.month_ord b = Cal.month_ord a + 1.
Proof.
  intros H. pose proof (consecutive_tail _ _ H) as Hb.
  simpl in H, Hb. rewrite !andb_true_iff in H.
  destruct H as [[Hva _] [Hord _]]. apply Z.eqb_eq in Hord.
  split; [exact Hva|]. split; [|exact Hord].
  destruct t; rewrite !andb_true_iff in Hb; tauto.
Qed.

Lemma next_month_later a b :
  Cal.valid a = true -> Cal.valid b = true ->
  Cal.month_ord b = Cal.month_ord a + 1 ->
  Cal.ltb a b = true /\ month b <> month a.
Proof.
  intros Ha%valid_month Hb%valid_month. unfold Cal.month_ord. intros H.
  split; [apply ltb_lt, compare_lt_iff|]; lia.
Qed.

Lemma consecutive_increasing idx :
  Spec.consecutive_month_ends idx = true -> Pd.strictly_increasing idx = true.
Proof.
  induction idx as [|a t IH]; [reflexivity|]. intros H.
  destruct t as [|b t]; [reflexivity|].
  destruct (consecutive_step _ _ _ H) as (Ha & Hb & Hord).
  change (Cal.ltb a b && Pd.strictly_increasing (b :: t) = true).
  rewrite (proj1 (next_month_later a b Ha Hb Hord)).
  apply IH. exact (consecutive_tail _ _ H).
Qed.

Lemma consecutive_month_ends_all idx :
  Spec.consecutive_month_ends idx = true -> forallb Cal.is_month_end idx = true.
Proof.
  induction idx as [|a t IH]; [reflexivity|]. intros H.
  simpl. rewrite (IH (consecutive_tail _ _ H)).
  simpl in H. rewrite !andb_true_iff in H. destruct H as [[_ ->] _]. reflexivity.
Qed.

Lemma consecutive_deltas idx :
  Spec.consecutive_month_ends idx = true ->
  forallb (Z.eqb 1) (Pd.deltas (map Cal.month_ord idx)) = true.
Proof.
  induction idx as [|a t IH]; [reflexivity|]. intros H.
  destruct t as [|b t]; [reflexivity|].
  destruct (consecutive_step _ _ _ H) as (_ & _ & Hord).
  change (Pd.deltas (map Cal.month_ord (a :: b :: t)))
    with ((Cal.month_ord b - Cal.month_ord a) :: Pd.deltas (map Cal.month_ord (b :: t))).
  cbn [forallb]. rewrite (IH (consecutive_tail _ _ H)), andb_true_r.
  apply Z.eqb_eq. lia.
Qed.

(** A Monthly Series of three months or more is recognised as "M". *)
Lemma infer_freq_monthly idx :
  Spec.consecutive_month_ends idx = true -> (3 <= length idx)%nat ->
  Pd.infer_freq idx = Ok Pd.Inf_M.
Proof.
  intros H Hlen. unfold Pd.infer_freq.
  destruct (Nat.ltb_spec (length idx) 3) as [Hc|_]; [lia|].
  rewrite (consecutive_increasing _ H). cbn [orb negb].
  unfold Pd.month_position_check.
  rewrite (consecutive_month_ends_all _ H).
  destruct idx as [|a [|b t]]; try (simpl in Hlen; lia).
  destruct (consecutive_step _ _ _ H) as (Ha & Hb & Hord).
  assert (Hsame : Pd.all_same_month (a :: b :: t) = false).
  { simpl. destruct (Z.eqb_spec (month b) (month a)) as [E|_]; [|reflexivity].
    now destruct (next_month_later a b Ha Hb Hord). }
  assert (Hm : Pd.single_delta (map Cal.month_ord (a :: b :: t)) = Some 1).
  { pose proof (consecutive_deltas _ H) as Hd. unfold Pd.single_delta.
    change (Pd.deltas (map Cal.month_ord (a :: b :: t)))
      with ((Cal.month_ord b - Cal.month_ord a)
              :: Pd.deltas (map Cal.month_ord (b :: t))) in *.
    replace (Cal.month_ord b - Cal.month_ord a) with 1 in * by lia.
    cbn [forallb] in Hd. apply andb_true_iff in Hd as [_ Hd].
    cbv iota. now rewrite Hd. }
  rewrite Hm, Hsame.
  destruct (Pd.single_delta (map year (a :: b :: t))); reflexivity.
Qed.

(** ** Lengths and positions in [pct_change] *)

Lemma length_ffill_from prev l : length (Pd.ffill_from prev l) = length l.
Proof.
  revert prev. induction l as [|v l IH]; intros prev; [reflexivity|].
  simpl. now rewrite IH.
Qed.

Lemma length_shift n l : length (Pd.shift n l) = length l.
Proof.
  unfold Pd.shift. rewrite List.length_firstn, List.length_app. lia.
Qed.

Lemma length_zip_with g a b :
  length a = length b -> length (Pd.zip_with g a b) = length a.
Proof.
  revert b. induction a as [|x a IH]; intros [|y b] H; simpl in *;
    try reflexivity; try discriminate. now rewrite IH by lia.
Qed.

Lemma nth_zip_with g a b i d :
  length a = length b -> (i < length a)%nat ->
  nth i (Pd.zip_with g a b) d = g (nth i a d) (nth i b d).
Proof.
  revert b i. induction a as [|x a IH]; intros [|y b] i H Hi; simpl in *;
    try lia. destruct i as [|i]; [reflexivity|]. apply IH; lia.
Qed.

Lemma nth_shift n l i :
  (i < length l)%nat ->
  nth i (Pd.shift n l) F64.NaN =
  if (i <? n)%nat then F64.NaN else nth (i - n) l F64.NaN.
Proof.
  intros Hi. unfold Pd.shift.
  rewrite List.nth_firstn. destruct (Nat.ltb_spec i (length l)) as [_|]; [|lia].
  destruct (Nat.ltb_spec i n) as [Hn|Hn].
  - rewrite List.app_nth1 by (rewrite List.repeat_length; lia).
    apply List.nth_repeat.
  - rewrite List.app_nth2; rewrite List.repeat_length; [reflexivity | lia].
Qed.

Lemma length_pct_change_values n l :
  length (Pd.pct_change_values n l) = length l.
Proof.
  unfold Pd.pct_change_values.
  rewrite length_zip_with; unfold Pd.ffill; rewrite ?length_shift;
    now rewrite ?length_ffill_from.
Qed.

Lemma values_with_values s vs :
  length vs = length (obs s) -> Pd.values (Pd.with_values s vs) = vs.
Proof.
  intros H. unfold Pd.values, Pd.with_values, Pd.index. simpl.
  revert vs H. induction (obs s) as [|r l IH]; intros [|v vs] H;
    simpl in *; try reflexivity; try discriminate.
  f_equal. apply IH. lia.
Qed.

Lemma index_with_values s vs :
  length vs = length (obs s) ->
  Pd.index (obs (Pd.with_values s vs)) = Pd.index (obs s).
Proof.
  intros H. unfold Pd.with_values, Pd.index. simpl.
  revert vs H. induction (obs s) as [|r l IH]; intros [|v vs] H;
    simpl in *; try reflexivity; try discriminate.
  f_equal. apply IH. lia.
Qed.

(** ** Forward filling *)

Lemma nth_ffill_from_valid prev l i :
  (i < length l)%nat -> F64.isna (nth i l F64.NaN) = false ->
  nth i (Pd.ffill_from prev l) F64.NaN = nth i l F64.NaN.
Proof.
  revert prev i. induction l as [|v l IH]; intros prev i Hi Hv; simpl in *; [lia|].
  destruct i as [|i]; [now rewrite Hv|]. apply IH; [lia|exact Hv].
Qed.

Lemma nth_ffill_from_missing prev l i :
  (i < length l)%nat ->
  Forall (fun v => F64.isna v = true) (firstn (S i) l) ->
  nth i (Pd.ffill_from prev l) F64.NaN = prev.
Proof.
  revert prev i. induction l as [|v l IH]; intros prev i Hi Hall; simpl in *; [lia|].
  inversion Hall as [|? ? Hv Hrest]; subst. rewrite Hv.
  destruct i as [|i]; [reflexivity|]. apply IH; [lia|exact Hrest].
Qed.

(** ** The transform *)

Lemma values_pct_change n s :
  Pd.values (Pd.pct_change n s) = Pd.pct_change_values n (Pd.values s).
Proof.
  apply values_with_values. rewrite length_pct_change_values.
  unfold Pd.values. apply List.length_map.
Qed.

Lemma length_obs_with_values s vs :
  length vs = length (obs s) -> length (obs (Pd.with_values s vs)) = length (obs s).
Proof.
  intros H. unfold Pd.with_values, Pd.index. simpl.
  rewrite List.length_combine, List.length_map. lia.
Qed.

Lemma values_yoy s k :
  Pd.values (Pd.mul_scalar (Pd.pct_change 12 s) k) =
  map (fun v => PrimFloat.mul v k) (Pd.pct_change_values 12 (Pd.values s)).
Proof.
  unfold Pd.mul_scalar. rewrite values_with_values, values_pct_change; [reflexivity|].
  rewrite List.length_map. unfold Pd.values at 1. now rewrite List.length_map.
Qed.

Lemma index_yoy s k :
  Pd.index (obs (Pd.mul_scalar (Pd.pct_change 12 s) k)) = Pd.index (obs s).
Proof.
  assert (H : length (Pd.pct_change_values 12 (Pd.values s)) = length (obs s)).
  { rewrite length_pct_change_values. unfold Pd.values. apply List.length_map. }
  unfold Pd.mul_scalar. rewrite index_with_values.
  - unfold Pd.pct_change. now apply index_with_values.
  - rewrite List.length_map. unfold Pd.values. rewrite List.length_map. reflexivity.
Qed.

(** The year-over-year value at a row: the percent change between the
    padded value of the row and the padded value twelve rows earlier. *)
Lemma nth_yoy (l : list float) i :
  (i < length l)%nat ->
  nth i (map (fun v => PrimFloat.mul v F64.f100) (Pd.pct_change_values 12 l)) F64.NaN =
  Spec.percent_change
    (nth i (Pd.ffill l) F64.NaN)
    (if (i <? 12)%nat then F64.NaN else nth (i - 12) (Pd.ffill l) F64.NaN).
Proof.
  intros Hi.
  assert (Hf : length (Pd.ffill l) = length l) by apply length_ffill_from.
  rewrite (List.nth_indep _ F64.NaN (PrimFloat.mul F64.NaN F64.f100))
    by (rewrite List.length_map, length_pct_change_values; exact Hi).
  rewrite (List.map_nth (fun v => PrimFloat.mul v F64.f100)).
  unfold Pd.pct_change_values.
  rewrite nth_zip_with by (rewrite ?length_shift; lia).
  rewrite nth_shift by lia. reflexivity.
Qed.

Lemma percent_change_NaN x : Spec.percent_change x F64.NaN = F64.NaN.
Proof.
  unfold Spec.percent_change. now rewrite div_NaN_r, sub_NaN_l, mul_NaN_l.
Qed.

(** C1 (as amended). For a Monthly Series of three months or more the
    calculator returns a series on the same dates; its first 12 entries
    are missing, and from row 12 on the entry is the percent change
    between the padded input (a missing value replaced by the last
    value before it that is not missing) at the row and twelve rows
    earlier. So it is [(S[i]/S[i-12] - 1) * 100] when both are present,
    and it is missing when no value up to row [i-12] is present. *)
Theorem cpi_yoy_from_index_spec (df : DataFrame) :
  Spec.is_monthly_series df ->
  (3 <= length (rows df))%nat ->
  exists out,
    cpi_yoy_from_index df = Ok out /\
    name out = "CPI_YoY" /\
    Pd.index (obs out) = Pd.index (rows df) /\
    let vals := Pd.column_at 0 (rows df) in
    let padded := Pd.ffill vals in
    forall i, (i < length (rows df))%nat ->
      let y := nth i (Pd.values out) F64.NaN in
      ((i < 12)%nat -> y = F64.NaN) /\
      ((12 <= i)%nat ->
         y = Spec.percent_change (nth i padded F64.NaN) (nth (i - 12) padded F64.NaN) /\
         (F64.isna (nth i vals F64.NaN) = false ->
          F64.isna (nth (i - 12) vals F64.NaN) = false ->
          y = Spec.percent_change (nth i vals F64.NaN) (nth (i - 12) vals F64.NaN)) /\
         (Forall (fun v => F64.isna v = true) (firstn (S (i - 12)) vals) ->
          y = F64.NaN)).
Proof.
  intros [Hcols Hidx] Hlen.
  destruct df as [cols l]. simpl in *. subst cols.
  unfold cpi_yoy_from_index, Pd.empty. cbn [columns rows].
  destruct l as [|r0 l]; [simpl in Hlen; lia|].
  rewrite (infer_freq_monthly _ Hidx)
    by (unfold Pd.index; rewrite List.length_map; exact Hlen).
  cbn [rbind]. unfold Pd.getitem. cbn [columns rows Pd.position String.eqb].
  change (String.eqb "value" "value") with true. cbn [rbind].
  set (col := mkSeries "value" (map (fun r => (fst r, Pd.cell 0 r)) (r0 :: l))).
  assert (Hvals : Pd.values col = Pd.column_at 0 (r0 :: l)).
  { unfold Pd.values, col, Pd.column_at. cbn [obs]. now rewrite List.map_map. }
  assert (Hix : Pd.index (obs col) = Pd.index (r0 :: l)).
  { unfold Pd.index, col. cbn [obs]. now rewrite List.map_map. }
  exists (mkSeries "CPI_YoY" (obs (Pd.mul_scalar (Pd.pct_change 12 col) F64.f100))).
  split; [reflexivity|]. split; [reflexivity|]. cbn [obs].
  split; [now rewrite index_yoy|].
  assert (Hout : Pd.values (mkSeries "CPI_YoY"
                    (obs (Pd.mul_scalar (Pd.pct_change 12 col) F64.f100))) =
                 map (fun v => PrimFloat.mul v F64.f100)
                     (Pd.pct_change_values 12 (Pd.column_at 0 (r0 :: l)))).
  { rewrite <- Hvals, <- values_yoy. reflexivity. }
  intros i Hi. cbv zeta. rewrite Hout.
  assert (Hi' : (i < length (Pd.column_at 0 (r0 :: l)))%nat)
    by (unfold Pd.column_at; rewrite List.length_map; exact Hi).
  rewrite (nth_yoy _ _ Hi'). split.
  - intros Hlt. destruct (Nat.ltb_spec i 12) as [_|]; [|lia].
    apply percent_change_NaN.
  - intros Hge. destruct (Nat.ltb_spec i 12) as [|_]; [lia|].
    split; [reflexivity|]. split.
    + intros Hv Hv'. unfold Pd.ffill.
      rewrite !nth_ffill_from_valid by (assumption || lia). reflexivity.
    + intros Hall. unfold Pd.ffill at 2.
      rewrite (nth_ffill_from_missing _ _ (i - 12)) by (assumption || lia).
      apply percent_change_NaN.
Qed.

Lemma cpi_yoy_from_index_witness :
  exists out,
    cpi_yoy_from_index Ex.cpi_with_gap = Ok out /\
    name out = "CPI_YoY" /\
    Pd.index (obs out) = Pd.index (rows Ex.cpi_with_gap) /\
    let vals := Pd.column_at 0 (rows Ex.cpi_with_gap) in
    let padded := Pd.ffill vals in
    forall i, (i < length (rows Ex.cpi_with_gap))%nat ->
      let y := nth i (Pd.values out) F64.NaN in
      ((i < 12)%nat -> y = F64.NaN) /\
      ((12 <= i)%nat ->
         y = Spec.percent_change (nth i padded F64.NaN) (nth (i - 12) padded F64.NaN) /\
         (F64.isna (nth i vals F64.NaN) = false ->
          F64.isna (nth (i - 12) vals F64.NaN) = false ->
          y = Spec.percent_change (nth i vals F64.NaN) (nth (i - 12) vals F64.NaN)) /\
         (Forall (fun v => F64.isna v = true) (firstn (S (i - 12)) vals) ->
          y = F64.NaN)).
Proof.
  apply (cpi_yoy_from_index_spec Ex.cpi_with_gap).
  - split; reflexivity.
  - vm_compute. lia.
Defined.

(** C1 as stated fails: the value of February 2001 (row 13) is missing,
    yet the year-over-year entry of that row is present, computed from
    the padded value. *)
Lemma cpi_yoy_pads_missing_values :
  Spec.is_monthly_series Ex.cpi_with_gap /\
  F64.isna (nth 13 (Pd.column_at 0 (rows Ex.cpi_with_gap)) F64.NaN) = true /\
  exists out,
    cpi_yoy_from_index Ex.cpi_with_gap = Ok out /\
    F64.isna (nth 13 (Pd.values out) F64.NaN) = false.
Proof.
  split; [split; reflexivity|]. split; [reflexivity|].
  eexists. split; [vm_compute; reflexivity|]. reflexivity.
Qed.

(** Fewer than three dates: the frequency cannot be inferred and the
    calculator raises. *)
Lemma cpi_yoy_needs_three_dates :
  Spec.is_monthly_series
    (mkFrame ["value"] [(mkTs 2000 1 31, [Ex.f 100]); (mkTs 2000 2 29, [Ex.f 101])]) /\
  cpi_yoy_from_index
    (mkFrame ["value"] [(mkTs 2000 1 31, [Ex.f 100]); (mkTs 2000 2 29, [Ex.f 101])])
  = Raise (ValueError "Need at least 3 dates to infer frequency").
Proof. split; [split|]; reflexivity. Qed.

End YearOverYear.

(* ===================================================================== *)
(** * Sorting by date *)
(* ===================================================================== *)

Section Sorting.

Lemma leb_total a b : Cal.leb a b = false -> Cal.leb b a = true.
Proof.
  unfold Cal.leb. destruct (Cal.compare a b) eqn:E; try discriminate. intros _.
  apply compare_gt_iff in E. now rewrite E.
Qed.

Lemma in_insert_row {A : Type} (r x : Timestamp * A) l :
  In x (Pd.insert_row r l) <-> x = r \/ In x l.
Proof.
  induction l as [|h l IH]; simpl; [intuition|].
  destruct (Cal.leb (fst r) (fst h)); simpl; [intuition|].
  rewrite IH. intuition.
Qed.

Lemma insert_row_perm {A : Type} (r : Timestamp * A) l :
  Permutation (Pd.insert_row r l) (r :: l).
Proof.
  induction l as [|h l IH]; simpl; [reflexivity|].
  destruct (Cal.leb (fst r) (fst h)); [reflexivity|].
  rewrite IH. apply perm_swap.
Qed.

Lemma sort_rows_perm {A : Type} (l : list (Timestamp * A)) :
  Permutation (Pd.sort_rows l) l.
Proof.
  induction l as [|r l IH]; simpl; [reflexivity|].
  rewrite insert_row_perm. now constructor.
Qed.

Lemma ascending_cons a l :
  Spec.ascending (a :: l) = true <->
  Spec.ascending l = true /\
  match l with [] => True | b :: _ => Cal.leb a b = true end.
Proof.
  destruct l as [|b l]; [simpl; tauto|].
  change (Spec.ascending (a :: b :: l)) with (Cal.leb a b && Spec.ascending (b :: l)).
  rewrite andb_true_iff. tauto.
Qed.

Lemma insert_row_ascending {A : Type} (r : Timestamp * A) l :
  Spec.ascending (Pd.index l) = true ->
  Spec.ascending (Pd.index (Pd.insert_row r l)) = true.
Proof.
  induction l as [|h l IH]; intros Hl; [reflexivity|].
  cbn [Pd.insert_row]. destruct (Cal.leb (fst r) (fst h)) eqn:E.
  - change (Pd.index (r :: h :: l)) with (fst r :: Pd.index (h :: l)).
    apply ascending_cons. split; [exact Hl | exact E].
  - change (Pd.index (h :: Pd.insert_row r l))
      with (fst h :: Pd.index (Pd.insert_row r l)).
    change (Pd.index (h :: l)) with (fst h :: Pd.index l) in Hl.
    apply ascending_cons in Hl as [Hl Hh].
    apply ascending_cons. split; [now apply IH|].
    destruct l as [|b l]; cbn [Pd.insert_row Pd.index map].
    + now apply leb_total.
    + destruct (Cal.leb (fst r) (fst b)); cbn [map]; [now apply leb_total | exact Hh].
Qed.

Lemma sort_rows_ascending {A : Type} (l : list (Timestamp * A)) :
  Spec.ascending (Pd.index (Pd.sort_rows l)) = true.
Proof.
  induction l as [|r l IH]; [reflexivity|]. simpl. now apply insert_row_ascending.
Qed.

Lemma leb_refl a : Cal.leb a a = true.
Proof.
  unfold Cal.leb. replace (Cal.compare a a) with Eq; [reflexivity|].
  symmetry. now apply compare_eq_iff.
Qed.

Lemma leb_iff a b : Cal.leb a b = true <-> a = b \/ Cal.ltb a b = true.
Proof.
  unfold Cal.leb, Cal.ltb. destruct (Cal.compare a b) eqn:E.
  - apply compare_eq_iff in E. tauto.
  - tauto.
  - split; [discriminate|]. intros [->|H]; [|discriminate].
    assert (Cal.compare b b = Eq) by now apply compare_eq_iff. congruence.
Qed.

Lemma leb_trans a b c :
  Cal.leb a b = true -> Cal.leb b c = true -> Cal.leb a c = true.
Proof.
  rewrite !leb_iff. intros [->|Hab] [->|Hbc]; auto.
  right. eapply ltb_trans; eassumption.
Qed.

End Sorting.

(* ===================================================================== *)
(** * Panel Assembler *)
(* ===================================================================== *)

Section PanelAssembler.

(** ** Unique labels *)

Lemma has_label_spec t l : Pd.has_label t l = true <-> In t l.
Proof.
  unfold Pd.has_label. rewrite List.existsb_exists. split.
  - intros (u & Hu & Heq). apply bool_decide_eq_true in Heq. now subst.
  - intros Hin. exists t. split; [exact Hin | now apply bool_decide_eq_true].
Qed.

Lemma NoDup_is_unique l : List.NoDup l -> Pd.is_unique l = true.
Proof.
  induction 1 as [|h t Hh _ IH]; [reflexivity|].
  cbn [Pd.is_unique]. rewrite IH, andb_true_r. apply negb_true_iff.
  destruct (existsb (fun u => bool_decide (u = h)) t) eqn:E; [|reflexivity].
  apply List.existsb_exists in E as (u & Hu & Heq).
  apply bool_decide_eq_true in Heq. subst. contradiction.
Qed.

Lemma is_unique_NoDup l : Pd.is_unique l = true -> List.NoDup l.
Proof.
  induction l as [|h t IH]; intros H; [constructor|].
  cbn [Pd.is_unique] in H. apply andb_true_iff in H as [Hh Ht].
  constructor; [|now apply IH].
  intros Hin. apply negb_true_iff in Hh.
  apply (proj2 (has_label_spec h t)) in Hin. unfold Pd.has_label in Hin. congruence.
Qed.

Lemma strictly_increasing_intro a l :
  Pd.strictly_increasing l = true ->
  match l with [] => True | b :: _ => Cal.ltb a b = true end ->
  Pd.strictly_increasing (a :: l) = true.
Proof.
  destruct l as [|b l]; [reflexivity|]. intros Hl Hab.
  change (Cal.ltb a b && Pd.strictly_increasing (b :: l) = true).
  now rewrite Hab, Hl.
Qed.

Lemma strictly_increasing_NoDup l :
  Pd.strictly_increasing l = true -> List.NoDup l.
Proof.
  induction l as [|a l IH]; intros H; [constructor|].
  destruct (strictly_increasing_cons _ _ H) as [Hl Hall].
  constructor; [|now apply IH].
  intros Hin. rewrite List.Forall_forall in Hall.
  specialize (Hall a Hin). now rewrite ltb_irrefl in Hall.
Qed.

(** ** Sorted labels *)

Lemma sort_labels_perm l : Permutation (Pd.sort_labels l) l.
Proof.
  unfold Pd.sort_labels, Pd.index.
  rewrite (sort_rows_perm (map (fun t => (t, tt)) l)), List.map_map. cbn [fst].
  now rewrite List.map_id.
Qed.

Lemma sort_labels_ascending l : Spec.ascending (Pd.sort_labels l) = true.
Proof. unfold Pd.sort_labels. apply sort_rows_ascending. Qed.

Lemma ascending_NoDup_increasing l :
  Spec.ascending l = true -> List.NoDup l -> Pd.strictly_increasing l = true.
Proof.
  induction l as [|a l IH]; intros Ha Hn; [reflexivity|].
  apply ascending_cons in Ha as [Hl Hab]. inversion Hn as [|? ? Hnot Hn']; subst.
  apply strictly_increasing_intro; [now apply IH|].
  destruct l as [|b l]; [exact I|].
  apply leb_iff in Hab as [->|Hlt]; [|exact Hlt].
  exfalso. apply Hnot. now left.
Qed.

Lemma sort_labels_increasing l :
  List.NoDup l -> Pd.strictly_increasing (Pd.sort_labels l) = true.
Proof.
  intros Hn. apply ascending_NoDup_increasing; [apply sort_labels_ascending|].
  eapply Permutation_NoDup; [symmetry; apply sort_labels_perm | exact Hn].
Qed.

(** ** The union of two indexes without repeated labels *)

Lemma union_values_unique a b :
  List.NoDup a -> List.NoDup b ->
  (forall t, In t (Pd.union_values a b) <-> In t a \/ In t b) /\
  List.NoDup (Pd.union_values a b).
Proof.
  intros Ha Hb. unfold Pd.union_values. rewrite (NoDup_is_unique b Hb). split.
  - intros t. rewrite List.in_app_iff, List.filter_In, negb_true_iff.
    destruct (Pd.has_label t a) eqn:E.
    + apply has_label_spec in E. intuition congruence.
    + intuition.
  - apply List.NoDup_app; [exact Ha | now apply List.NoDup_filter |].
    intros t Hta [_ Htb]%List.filter_In.
    apply negb_true_iff in Htb. apply (proj2 (has_label_spec t a)) in Hta. congruence.
Qed.

Lemma index_union_unique sort a b :
  List.NoDup a -> List.NoDup b ->
  (forall t, In t (Pd.index_union sort a b) <-> In t a \/ In t b) /\
  List.NoDup (Pd.index_union sort a b).
Proof.
  intros Ha Hb. unfold Pd.index_union.
  destruct a as [|ha ta], b as [|hb tb];
    try (split; [intros t; simpl; tauto | assumption]).
  destruct (bool_decide_reflect (ha :: ta = hb :: tb)) as [E|_].
  - rewrite <- E. split; [tauto | exact Ha].
  - destruct (union_values_unique _ _ Ha Hb) as [Hin Hnd].
    destruct sort; [|split; assumption]. split.
    + intros t. rewrite <- Hin. split; apply Permutation_in;
        [apply sort_labels_perm | symmetry; apply sort_labels_perm].
    + eapply Permutation_NoDup; [symmetry; apply sort_labels_perm | exact Hnd].
Qed.

Lemma index_union_sorted a b :
  a <> [] -> b <> [] ->
  Pd.strictly_increasing a = true -> Pd.strictly_increasing b = true ->
  Pd.index_union true a b <> [] /\
  Pd.strictly_increasing (Pd.index_union true a b) = true.
Proof.
  intros Hna Hnb Ha Hb.
  pose proof (strictly_increasing_NoDup _ Ha) as Nda.
  pose proof (strictly_increasing_NoDup _ Hb) as Ndb.
  destruct (index_union_unique true a b Nda Ndb) as [Hin Hnd].
  split.
  - destruct a as [|ha ta]; [congruence|]. intros E.
    specialize (Hin ha). rewrite E in Hin. simpl in Hin. tauto.
  - unfold Pd.index_union.
    destruct a as [|ha ta], b as [|hb tb]; try congruence.
    destruct (bool_decide (ha :: ta = hb :: tb)); [exact Ha|].
    apply sort_labels_increasing. now apply union_values_unique.
Qed.

(** ** The union of the indexes *)

Lemma fold_index_union_unique sort others :
  forall acc,
    List.NoDup acc -> Forall (@List.NoDup Timestamp) others ->
    (forall t, In t (fold_left (Pd.index_union sort) others acc) <->
               In t acc \/ exists idx, In idx others /\ In t idx) /\
    List.NoDup (fold_left (Pd.index_union sort) others acc).
Proof.
  induction others as [|b others IH]; intros acc Hacc Hall; cbn [fold_left].
  - split; [|exact Hacc]. intros t. split; [auto|]. intros [H|(? & [] & _)]; exact H.
  - inversion Hall as [|? ? Hb Hrest]; subst.
    destruct (index_union_unique sort acc b Hacc Hb) as [Hin Hnd].
    destruct (IH _ Hnd Hrest) as [Hin' Hnd']. split; [|exact Hnd'].
    intros t. rewrite Hin', Hin. split.
    + intros [[H|H]|(idx & Hi & Ht)].
      * now left.
      * right. exists b. split; [now left | exact H].
      * right. exists idx. split; [now right | exact Ht].
    + intros [H|(idx & [<-|Hi] & Ht)].
      * left. now left.
      * left. now right.
      * right. now exists idx.
Qed.

(** Without repeated labels in the inputs, the union holds exactly the
    labels of the inputs, each once. *)
Lemma union_indexes_unique idxs :
  Forall (@List.NoDup Timestamp) idxs ->
  (forall t, In t (Pd.union_indexes idxs) <-> exists idx, In idx idxs /\ In t idx) /\
  List.NoDup (Pd.union_indexes idxs).
Proof.
  intros Hall. unfold Pd.union_indexes. destruct idxs as [|first others].
  - split; [|constructor]. intros t. split; [intros [] | intros (? & [] & _)].
  - inversion Hall as [|? ? Hf Ho]; subst. cbv zeta.
    destruct (fold_index_union_unique
                (forallb (fun idx => negb (bool_decide (idx = []))) (first :: others))
                others first Hf Ho) as [Hin Hnd].
    split; [|exact Hnd]. intros t. rewrite Hin. split.
    + intros [H|(idx & Hi & Ht)]; [exists first; split; [now left | exact H]|].
      exists idx. split; [now right | exact Ht].
    + intros (idx & [<-|Hi] & Ht); [now left | right; now exists idx].
Qed.

Lemma fold_index_union_sorted others :
  forall acc,
    acc <> [] -> Pd.strictly_increasing acc = true ->
    Forall (fun idx => idx <> [] /\ Pd.strictly_increasing idx = true) others ->
    Pd.strictly_increasing (fold_left (Pd.index_union true) others acc) = true.
Proof.
  induction others as [|b others IH]; intros acc Hne Hacc Hall; cbn [fold_left];
    [exact Hacc|].
  inversion Hall as [|? ? [Hnb Hb] Hrest]; subst.
  destruct (index_union_sorted acc b Hne Hnb Hacc Hb) as [Hne' Hs'].
  now apply IH.
Qed.

(** When every input has rows and ascends, the union ascends. *)
Lemma union_indexes_sorted idxs :
  Forall (fun idx => idx <> [] /\ Pd.strictly_increasing idx = true) idxs ->
  Pd.strictly_increasing (Pd.union_indexes idxs) = true.
Proof.
  intros Hall. unfold Pd.union_indexes. destruct idxs as [|first others]; [reflexivity|].
  cbv zeta.
  replace (forallb (fun idx => negb (bool_decide (idx = []))) (first :: others)) with true.
  - inversion Hall as [|? ? [Hnf Hf] Ho]; subst. now apply fold_index_union_sorted.
  - symmetry. apply List.forallb_forall. intros idx Hidx.
    rewrite List.Forall_forall in Hall. destruct (Hall idx Hidx) as [Hne _].
    apply negb_true_iff. now apply bool_decide_eq_false.
Qed.

(** ** Reading a Series at a label *)

Lemma lookup_label_present t l :
  F64.isna (Pd.lookup_label t l) = false -> In t (Pd.index l).
Proof.
  unfold Pd.lookup_label. destruct (List.find _ l) as [r|] eqn:E.
  - intros _. apply List.find_some in E as [Hin Ht].
    apply bool_decide_eq_true in Ht. subst. now apply in_map.
  - discriminate.
Qed.

Lemma lookup_label_absent t l :
  ~ In t (Pd.index l) -> Pd.lookup_label t l = F64.NaN.
Proof.
  intros Hnot. unfold Pd.lookup_label.
  destruct (List.find _ l) as [r|] eqn:E; [|reflexivity].
  exfalso. apply List.find_some in E as [Hin Ht].
  apply bool_decide_eq_true in Ht. subst. apply Hnot. now apply in_map.
Qed.

(** Where the labels are not repeated, the value read at a label is the
    value of the entry with that label. *)
Lemma lookup_label_entry t v l :
  List.NoDup (Pd.index l) -> In (t, v) l -> Pd.lookup_label t l = v.
Proof.
  induction l as [|[t0 v0] l IH]; intros Hnd Hin; [destruct Hin|].
  cbn [Pd.index map fst] in Hnd. inversion Hnd as [|? ? Hnot Hnd']; subst.
  unfold Pd.lookup_label. cbn [List.find fst].
  destruct (bool_decide_reflect (t0 = t)) as [->|Hne].
  - destruct Hin as [[= <-]|Hin]; [reflexivity|].
    exfalso. apply Hnot. change t with (fst (t, v)). now apply in_map.
  - destruct Hin as [[= ? ?]|Hin]; [congruence|]. now apply IH.
Qed.

Lemma values_lookup l :
  List.NoDup (Pd.index l) ->
  map (fun t => Pd.lookup_label t l) (Pd.index l) = map snd l.
Proof.
  intros Hnd. unfold Pd.index. rewrite List.map_map.
  apply List.map_ext_in. intros [t v] Hin. now apply lookup_label_entry.
Qed.

Lemma getitem_name df c s : Pd.getitem df c = Ok s -> name s = c.
Proof.
  unfold Pd.getitem. destruct (Pd.position c (columns df)); [|discriminate].
  intros [= <-]. reflexivity.
Qed.

(** ** The join *)

Lemma realign_unique labels s :
  Pd.is_unique (Pd.index (obs s)) = true ->
  Pd.realign labels s = Ok (map (fun t => Pd.lookup_label t (obs s)) labels).
Proof.
  intros Hu. unfold Pd.realign. rewrite Hu.
  destruct (bool_decide_reflect (Pd.index (obs s) = labels)) as [<-|_]; [|reflexivity].
  unfold Pd.values. now rewrite values_lookup by now apply is_unique_NoDup.
Qed.

Lemma collect_inv {A : Type} (rs : list (result A)) (xs : list A) :
  Pd.collect rs = Ok xs -> rs = map Ok xs.
Proof.
  revert xs. induction rs as [|r rs IH]; intros xs H; cbn [Pd.collect] in H.
  - injection H as <-. reflexivity.
  - destruct r as [a|e]; [|discriminate]. cbn [rbind] in H. unfold rmap in H.
    destruct (Pd.collect rs) as [ys|e]; [|discriminate]. cbn [rbind] in H.
    injection H as <-. cbn [map]. now rewrite (IH ys).
Qed.

Lemma collect_ok {A : Type} (xs : list A) : Pd.collect (map Ok xs) = Ok xs.
Proof.
  induction xs as [|x xs IH]; [reflexivity|].
  cbn [map Pd.collect rbind]. rewrite IH. reflexivity.
Qed.

Lemma map_nth_seq {A : Type} (l : list A) (d : A) :
  map (fun j => nth j l d) (seq 0 (length l)) = l.
Proof.
  induction l as [|x l IH]; [reflexivity|].
  cbn [length seq map nth]. f_equal.
  rewrite <- List.seq_shift, List.map_map. exact IH.
Qed.

(** The shape of a frame that the join returns. *)
Lemma concat_axis1_inv (ss : list Series) (joined : DataFrame) :
  Pd.concat_axis1 ss = Ok joined ->
  exists cols,
    map (Pd.realign (Pd.union_indexes (map (fun s => Pd.index (obs s)) ss))) ss
    = map Ok cols /\
    joined = mkFrame (map name ss)
               (map (fun j => (nth j (Pd.union_indexes
                                        (map (fun s => Pd.index (obs s)) ss)) (mkTs 0 0 0),
                               map (fun col => nth j col F64.NaN) cols))
                    (seq 0 (length (Pd.union_indexes
                                      (map (fun s => Pd.index (obs s)) ss))))).
Proof.
  unfold Pd.concat_axis1. cbv zeta.
  set (labels := Pd.union_indexes (map (fun s => Pd.index (obs s)) ss)). intros H.
  destruct (Pd.collect (map (Pd.realign labels) ss)) as [cols|e] eqn:E; [|discriminate].
  cbn [rbind] in H. injection H as <-.
  exists cols. split; [now apply collect_inv | reflexivity].
Qed.

(** Where the labels of a Series are not repeated, its cell in a row of
    the joined frame is its value at the label of the row. *)
Lemma concat_axis1_cell (ss : list Series) (joined : DataFrame) row k s :
  Pd.concat_axis1 ss = Ok joined ->
  In row (rows joined) ->
  nth_error ss k = Some s ->
  Pd.is_unique (Pd.index (obs s)) = true ->
  Pd.cell k row = Pd.lookup_label (fst row) (obs s).
Proof.
  intros Hj Hrow Hk Hu.
  destruct (concat_axis1_inv ss joined Hj) as (cols & Hcols & ->).
  cbn [rows] in Hrow. apply in_map_iff in Hrow as (j & <- & Hjin).
  apply List.in_seq in Hjin. cbn [fst]. unfold Pd.cell. cbn [snd].
  assert (Hcol : nth_error cols k =
                 Some (map (fun t => Pd.lookup_label t (obs s))
                           (Pd.union_indexes (map (fun s => Pd.index (obs s)) ss)))).
  { assert (H : nth_error (map Ok cols) k = Some (Pd.realign
                  (Pd.union_indexes (map (fun s => Pd.index (obs s)) ss)) s))
      by (rewrite <- Hcols; now apply List.map_nth_error).
    rewrite realign_unique in H by exact Hu.
    rewrite List.nth_error_map in H.
    destruct (nth_error cols k) as [col|]; [|discriminate]. now injection H as ->. }
  rewrite (List.nth_indep _ F64.NaN
             (nth j (map (fun t => Pd.lookup_label t (obs s))
                         (Pd.union_indexes (map (fun s => Pd.index (obs s)) ss))) F64.NaN)).
  - rewrite (List.map_nth (fun col => nth j col F64.NaN)).
    rewrite (List.nth_error_nth _ _ _ Hcol).
    rewrite (List.nth_indep _ F64.NaN (Pd.lookup_label (mkTs 0 0 0) (obs s)))
      by (rewrite List.length_map; lia).
    now rewrite (List.map_nth (fun t => Pd.lookup_label t (obs s))).
  - rewrite List.length_map. apply List.nth_error_Some. congruence.
Qed.

Lemma concat_axis1_columns (ss : list Series) (joined : DataFrame) :
  Pd.concat_axis1 ss = Ok joined ->
  columns joined = map name ss /\
  Forall (fun row => length (snd row) = length ss) (rows joined) /\
  Pd.index (rows joined) = Pd.union_indexes (map (fun s => Pd.index (obs s)) ss).
Proof.
  intros Hj. destruct (concat_axis1_inv ss joined Hj) as (cols & Hcols & ->).
  cbn [columns rows]. split; [reflexivity|]. split.
  - apply List.Forall_forall. intros row (j & <- & _)%in_map_iff. cbn [snd].
    rewrite List.length_map.
    rewrite <- (List.length_map Ok cols), <- Hcols. apply List.length_map.
  - unfold Pd.index. rewrite List.map_map. cbn [fst]. apply map_nth_seq.
Qed.

(** Without repeated labels in any input the join succeeds. *)
Lemma concat_axis1_unique (ss : list Series) :
  Forall (fun s => Pd.is_unique (Pd.index (obs s)) = true) ss ->
  exists joined, Pd.concat_axis1 ss = Ok joined.
Proof.
  intros Hu. unfold Pd.concat_axis1.
  set (labels := Pd.union_indexes _).
  assert (H : map (Pd.realign labels) ss =
              map Ok (map (fun s => map (fun t => Pd.lookup_label t (obs s)) labels) ss)).
  { rewrite List.map_map. apply List.map_ext_in. intros s Hs.
    rewrite List.Forall_forall in Hu. now apply realign_unique, Hu. }
  rewrite H, collect_ok. cbn [rbind]. eexists. reflexivity.
Qed.

Lemma unique_indexes (ss : list Series) :
  Forall (fun s => Pd.is_unique (Pd.index (obs s)) = true) ss ->
  Forall (@List.NoDup Timestamp) (map (fun s => Pd.index (obs s)) ss).
Proof.
  intros Hu. apply List.Forall_map. eapply List.Forall_impl; [|exact Hu].
  intros s Hs. now apply is_unique_NoDup.
Qed.

(** Without repeated labels in any input, the joined frame has one row
    per label of the union, holding the value of every Series at the
    label. *)
Lemma concat_axis1_rows (ss : list Series) :
  Forall (fun s => Pd.is_unique (Pd.index (obs s)) = true) ss ->
  Pd.concat_axis1 ss =
  Ok (mkFrame (map name ss)
        (map (fun t => (t, map (fun s => Pd.lookup_label t (obs s)) ss))
             (Pd.union_indexes (map (fun s => Pd.index (obs s)) ss)))).
Proof.
  intros Hu. unfold Pd.concat_axis1. cbv zeta.
  set (labels := Pd.union_indexes _).
  assert (H : map (Pd.realign labels) ss =
              map Ok (map (fun s => map (fun t => Pd.lookup_label t (obs s)) labels) ss)).
  { rewrite List.map_map. apply List.map_ext_in. intros s Hs.
    rewrite List.Forall_forall in Hu. now apply realign_unique, Hu. }
  rewrite H, collect_ok. cbn [rbind]. do 2 f_equal.
  rewrite <- (map_nth_seq labels (mkTs 0 0 0)) at 2. rewrite List.map_map.
  apply List.map_ext_in. intros j Hj%List.in_seq. f_equal.
  rewrite List.map_map. apply List.map_ext. intros s.
  rewrite (List.nth_indep _ F64.NaN (Pd.lookup_label (mkTs 0 0 0) (obs s)))
    by (rewrite List.length_map; lia).
  apply (List.map_nth (fun t => Pd.lookup_label t (obs s))).
Qed.

(** ** The join and the pruning *)

Lemma index_filter_rows (row : Timestamp -> Timestamp * list float)
      (keep : Timestamp * list float -> bool) (U : list Timestamp) :
  (forall t, fst (row t) = t) ->
  Pd.index (List.filter keep (map row U)) = List.filter (fun t => keep (row t)) U.
Proof.
  intros Hrow. unfold Pd.index. induction U as [|t U IH]; [reflexivity|].
  simpl. destruct (keep (row t)); simpl; now rewrite IH, ?Hrow.
Qed.

Lemma filter_sorted (p : Timestamp -> bool) l :
  Pd.strictly_increasing l = true ->
  Pd.strictly_increasing (List.filter p l) = true.
Proof.
  induction l as [|a l IH]; intros Hl; [reflexivity|].
  destruct (strictly_increasing_cons _ _ Hl) as [Hl' Hall].
  simpl. destruct (p a); [|now apply IH].
  apply strictly_increasing_intro; [now apply IH|].
  destruct (List.filter p l) as [|b l'] eqn:E; [exact I|].
  assert (Hb : In b (List.filter p l)) by (rewrite E; now left).
  apply List.filter_In in Hb as [Hb _].
  rewrite List.Forall_forall in Hall. now apply Hall.
Qed.

(** A label at which some Series holds a value that is not missing. *)
Lemma present_entry (ss : list Series) t :
  Forall (fun s => Pd.is_unique (Pd.index (obs s)) = true) ss ->
  (exists s, In s ss /\ F64.isna (Pd.lookup_label t (obs s)) = false) <->
  (exists s v, In s ss /\ In (t, v) (obs s) /\ F64.isna v = false).
Proof.
  intros Hu. rewrite List.Forall_forall in Hu. split.
  - intros (s & Hs & Hna). exists s, (Pd.lookup_label t (obs s)).
    split; [exact Hs|]. split; [|exact Hna].
    pose proof (lookup_label_present _ _ Hna) as Hin.
    apply in_map_iff in Hin as ([t' v] & Ht & Hin). cbn [fst] in Ht. subst t'.
    now rewrite (lookup_label_entry t v (obs s)) by (try apply is_unique_NoDup; auto).
  - intros (s & v & Hs & Hin & Hna). exists s. split; [exact Hs|].
    now rewrite (lookup_label_entry t v (obs s)) by (try apply is_unique_NoDup; auto).
Qed.

Lemma concat_dropna_spec (ss : list Series) :
  Forall (fun s => Pd.is_unique (Pd.index (obs s)) = true) ss ->
  exists joined,
    Pd.concat_axis1 ss = Ok joined /\
    columns (Pd.dropna_all joined) = map name ss /\
    List.NoDup (Pd.index (rows (Pd.dropna_all joined))) /\
    Pd.index (rows (Pd.dropna_all joined)) =
      List.filter (fun t => existsb (fun s => F64.notna (Pd.lookup_label t (obs s))) ss)
                  (Pd.union_indexes (map (fun s => Pd.index (obs s)) ss)) /\
    (forall t, In t (Pd.index (rows (Pd.dropna_all joined))) <->
               exists s v, In s ss /\ In (t, v) (obs s) /\ F64.isna v = false) /\
    (forall row, In row (rows (Pd.dropna_all joined)) ->
                 snd row = map (fun s => Pd.lookup_label (fst row) (obs s)) ss).
Proof.
  intros Huniq. eexists. split; [exact (concat_axis1_rows ss Huniq)|].
  cbn [Pd.dropna_all columns rows].
  set (U := Pd.union_indexes (map (fun s => Pd.index (obs s)) ss)).
  set (row := fun t => (t, map (fun s => Pd.lookup_label t (obs s)) ss)).
  set (keep := fun r : Timestamp * list float => existsb F64.notna (snd r)).
  destruct (union_indexes_unique _ (unique_indexes ss Huniq)) as [HinU HndU].
  fold U in HinU, HndU.
  assert (Hkeep : forall t, keep (row t) =
                            existsb (fun s => F64.notna (Pd.lookup_label t (obs s))) ss).
  { intros t. unfold keep, row. cbn [snd].
    generalize ss. intros l. induction l as [|s l IH]; [reflexivity|].
    cbn [map existsb]. now rewrite IH. }
  assert (Hidx : Pd.index (List.filter keep (map row U)) =
                 List.filter (fun t => keep (row t)) U)
    by (apply index_filter_rows; reflexivity).
  split; [reflexivity|]. rewrite Hidx.
  split; [now apply List.NoDup_filter|].
  split; [apply List.filter_ext; exact Hkeep|]. split.
  - intros t. rewrite <- (present_entry ss t Huniq).
    rewrite List.filter_In, HinU, Hkeep, List.existsb_exists. split.
    + intros [_ (s & Hs & Hna)]. exists s. split; [exact Hs|].
      unfold F64.notna in Hna. now apply negb_true_iff in Hna.
    + intros (s & Hs & Hna). split.
      * exists (Pd.index (obs s)). split; [apply in_map_iff; now exists s|].
        now apply lookup_label_present.
      * exists s. split; [exact Hs|]. unfold F64.notna. now rewrite Hna.
  - intros r [Hr _]%List.filter_In. apply in_map_iff in Hr as (t & <- & _).
    reflexivity.
Qed.

(** The cells of the row, by the entries of the Series. *)
Lemma lookup_cells (ss : list Series) (row : Timestamp * list float) :
  Forall (fun s => Pd.is_unique (Pd.index (obs s)) = true) ss ->
  snd row = map (fun s => Pd.lookup_label (fst row) (obs s)) ss ->
  length (snd row) = length ss /\
  forall k s, nth_error ss k = Some s ->
    (forall v, In (fst row, v) (obs s) -> Pd.cell k row = v) /\
    (~ In (fst row) (Pd.index (obs s)) -> F64.isna (Pd.cell k row) = true).
Proof.
  intros Hu Hrow. rewrite List.Forall_forall in Hu.
  split; [rewrite Hrow; apply List.length_map|].
  intros k s Hk.
  assert (Hcell : Pd.cell k row = Pd.lookup_label (fst row) (obs s)).
  { unfold Pd.cell. rewrite Hrow.
    apply List.nth_error_nth.
    exact (List.map_nth_error (fun s => Pd.lookup_label (fst row) (obs s)) k ss Hk). }
  rewrite Hcell. split.
  - intros v Hin. apply lookup_label_entry; [|exact Hin].
    apply is_unique_NoDup, Hu. eapply List.nth_error_In, Hk.
  - intros Hnot. now rewrite lookup_label_absent.
Qed.

(** C3. The panel built from four series without repeated dates has no
    date twice, and its dates are those of the union of the input dates
    at which some series holds a value that is not missing: such a row
    is kept whatever the other columns hold, and a date at which every
    series is missing or absent has no row. The cell of a row in a
    column is the value that the series of the column holds at the date
    of the row, and is missing when the series does not have the date. *)
Theorem combine_monthly_spec
        (cpi_m : DataFrame) (cpi_yoy : Series) (unrate_m real10_m : DataFrame)
        (c u r : Series) :
  Pd.getitem cpi_m "CPI" = Ok c ->
  Pd.getitem unrate_m "Unemployment" = Ok u ->
  Pd.getitem real10_m "Real10Y" = Ok r ->
  Forall (fun s => Pd.is_unique (Pd.index (obs s)) = true) [c; cpi_yoy; u; r] ->
  exists panel,
    combine_monthly cpi_m cpi_yoy unrate_m real10_m = Ok panel /\
    columns panel = ["CPI"; name cpi_yoy; "Unemployment"; "Real10Y"] /\
    List.NoDup (Pd.index (rows panel)) /\
    (forall t,
        In t (Pd.index (rows panel)) <->
        exists s v, In s [c; cpi_yoy; u; r] /\ In (t, v) (obs s) /\ F64.isna v = false) /\
    (forall row,
        In row (rows panel) ->
        length (snd row) = 4%nat /\
        forall k s, nth_error [c; cpi_yoy; u; r] k = Some s ->
          (forall v, In (fst row, v) (obs s) -> Pd.cell k row = v) /\
          (~ In (fst row) (Pd.index (obs s)) -> F64.isna (Pd.cell k row) = true)).
Proof.
  intros Hc Hu Hr Huniq. unfold combine_monthly.
  rewrite Hc, Hu, Hr. cbn [rbind].
  destruct (concat_dropna_spec _ Huniq)
    as (joined & -> & Hcols & Hnd & _ & Hin & Hrows).
  cbn [rbind]. eexists. split; [reflexivity|].
  split; [|split; [exact Hnd|split; [exact Hin|]]].
  - rewrite Hcols. cbn [map].
    now rewrite (getitem_name _ _ _ Hc), (getitem_name _ _ _ Hu), (getitem_name _ _ _ Hr).
  - intros row Hrow. exact (lookup_cells _ row Huniq (Hrows row Hrow)).
Qed.

Lemma combine_monthly_witness :
  exists panel,
    combine_monthly Ex.cpi_frame Ex.yoy_series Ex.unrate_frame Ex.real10_frame
      = Ok panel /\
    columns panel = ["CPI"; name Ex.yoy_series; "Unemployment"; "Real10Y"] /\
    List.NoDup (Pd.index (rows panel)) /\
    (forall t,
        In t (Pd.index (rows panel)) <->
        exists s v, In s [Ex.cpi_col; Ex.yoy_series; Ex.unrate_col; Ex.real10_col] /\
                    In (t, v) (obs s) /\ F64.isna v = false) /\
    (forall row,
        In row (rows panel) ->
        length (snd row) = 4%nat /\
        forall k s,
          nth_error [Ex.cpi_col; Ex.yoy_series; Ex.unrate_col; Ex.real10_col] k = Some s ->
          (forall v, In (fst row, v) (obs s) -> Pd.cell k row = v) /\
          (~ In (fst row) (Pd.index (obs s)) -> F64.isna (Pd.cell k row) = true)).
Proof.
  apply (combine_monthly_spec Ex.cpi_frame Ex.yoy_series Ex.unrate_frame
                              Ex.real10_frame Ex.cpi_col Ex.unrate_col Ex.real10_col);
    try reflexivity.
  repeat constructor.
Defined.

(** The panel of the example: January and February 2000 from the index
    and the rate, April from the yield; March, where the only value is
    missing, has no row. *)
Lemma combine_monthly_example :
  combine_monthly Ex.cpi_frame Ex.yoy_series Ex.unrate_frame Ex.real10_frame =
  Ok (mkFrame ["CPI"; "CPI_YoY"; "Unemployment"; "Real10Y"]
        [(mkTs 2000 1 31, [Ex.f 100; F64.NaN; F64.NaN; F64.NaN]);
         (mkTs 2000 2 29, [Ex.f 101; F64.NaN; Ex.f 4; F64.NaN]);
         (mkTs 2000 4 30, [F64.NaN; F64.NaN; F64.NaN; Ex.f 2])]).
Proof. vm_compute. reflexivity. Qed.

(** With an input without rows the labels are not sorted: they come in
    the order of their first appearance. *)
Lemma combine_monthly_keeps_first_appearance :
  combine_monthly (mkFrame ["CPI"] []) (mkSeries "CPI_YoY" [])
                  (mkFrame ["Unemployment"]
                           [(mkTs 2000 2 29, [Ex.f 4]); (mkTs 2000 3 31, [Ex.f 5])])
                  (mkFrame ["Real10Y"]
                           [(mkTs 2000 1 31, [Ex.f 1]); (mkTs 2000 2 29, [Ex.f 2]);
                            (mkTs 2000 3 31, [Ex.f 3])]) =
  Ok (mkFrame ["CPI"; "CPI_YoY"; "Unemployment"; "Real10Y"]
        [(mkTs 2000 2 29, [F64.NaN; F64.NaN; Ex.f 4; Ex.f 2]);
         (mkTs 2000 3 31, [F64.NaN; F64.NaN; Ex.f 5; Ex.f 3]);
         (mkTs 2000 1 31, [F64.NaN; F64.NaN; F64.NaN; Ex.f 1])]).
Proof. vm_compute. reflexivity. Qed.

(** A panel that is combined has the four columns of the script, in
    their order, when the year-over-year series carries its name. *)
Lemma combine_monthly_panel
      (cpi_m : DataFrame) (cpi_yoy : Series) (unrate_m real10_m panel : DataFrame) :
  name cpi_yoy = "CPI_YoY" ->
  combine_monthly cpi_m cpi_yoy unrate_m real10_m = Ok panel ->
  Spec.is_panel panel.
Proof.
  intros Hname. unfold combine_monthly.
  destruct (Pd.getitem cpi_m "CPI") as [c|] eqn:Hc; [|discriminate].
  destruct (Pd.getitem unrate_m "Unemployment") as [u|] eqn:Hu; [|discriminate].
  destruct (Pd.getitem real10_m "Real10Y") as [r|] eqn:Hr; [|discriminate].
  cbn [rbind].
  destruct (Pd.concat_axis1 [c; cpi_yoy; u; r]) as [joined|] eqn:Hj; [|discriminate].
  cbn [rbind]. intros [= <-].
  destruct (concat_axis1_columns _ _ Hj) as (Hcols & Hw & _).
  split; cbn [Pd.dropna_all columns rows].
  - rewrite Hcols. cbn [map].
    now rewrite (getitem_name _ _ _ Hc), (getitem_name _ _ _ Hu),
      (getitem_name _ _ _ Hr), Hname.
  - apply List.Forall_forall. intros row [Hrow _]%List.filter_In.
    rewrite List.Forall_forall in Hw. exact (Hw row Hrow).
Qed.

End PanelAssembler.

(* ===================================================================== *)
(** * Credential gate and empty inputs *)
(* ===================================================================== *)

Section Gate.

Variable to_datetime : string -> option Timestamp.
Variable to_numeric : string -> float.
Variable date_error : list string -> string.

(** With a secrets store that has no credential (no entry, or an empty
    one) the run stops after the page header and the warning: the store
    is untouched and no network call is made. *)
Lemma missing_credential_halts (w : World) (s : State) (store : gmap string string) :
  secrets w = Some store ->
  store !! "FRED_API_KEY" = None \/ store !! "FRED_API_KEY" = Some "" ->
  exists s',
    macro_dashboard to_datetime to_numeric date_error w s = (Stopped, s') /\
    log s' = (log s ++
              [EvPageConfig "Macro Dashboard (CPI, Unemployment, Real Rates)" "📈" "wide";
               EvTitle "📈 Macro Dashboard — CPI (YoY), Unemployment, Real Rates";
               EvCaption "Source: Federal Reserve Economic Data (FRED).";
               EvWarning no_key_warning])%list /\
    heap s' = heap s /\
    Spec.network_calls (log s') = Spec.network_calls (log s).
Proof.
  intros Hstore Hkey.
  assert (Hdef : default "" (store !! "FRED_API_KEY") = "")
    by (destruct Hkey as [-> | ->]; reflexivity).
  unfold macro_dashboard, page_setup, config_secrets, Run.bind, Run.emit, Run.ask.
  cbn [log heap next_ref]. rewrite Hstore, Hdef.
  change (String.eqb "" "") with true. cbv iota.
  unfold Run.bind, Run.emit, Run.stop. cbn [log heap next_ref].
  eexists. split; [reflexivity|]. cbn [log heap].
  rewrite <- !List.app_assoc. cbn [app].
  split; [reflexivity|]. split; [reflexivity|].
  unfold Spec.network_calls. rewrite List.filter_app. cbn.
  apply List.app_nil_r.
Qed.


End Gate.

Lemma missing_credential_example :
  exists s',
    macro_dashboard Api.iso_date Api.numeral Api.date_error Ex.no_key_world initial = (Stopped, s') /\
    log s' = (log initial ++
              [EvPageConfig "Macro Dashboard (CPI, Unemployment, Real Rates)" "📈" "wide";
               EvTitle "📈 Macro Dashboard — CPI (YoY), Unemployment, Real Rates";
               EvCaption "Source: Federal Reserve Economic Data (FRED).";
               EvWarning no_key_warning])%list /\
    heap s' = heap initial /\
    Spec.network_calls (log s') = Spec.network_calls (log initial).
Proof.
  apply (missing_credential_halts Api.iso_date Api.numeral Api.date_error Ex.no_key_world initial ∅).
  - reflexivity.
  - left. reflexivity.
Qed.

Section EmptyInputs.

Variable to_datetime : string -> option Timestamp.
Variable to_numeric : string -> float.
Variable date_error : list string -> string.

(** C9. Empty data is not an error: a response without observations
    gives the frame without rows, the normaliser returns a frame without
    rows as it is (in either mode), and the calculator maps it to the
    empty series. *)
Theorem empty_input_is_not_an_error :
  (forall (w : World) (s : State) (api_key series_id start : string)
          (code : Z) (o : option (list RawObs)),
      http w (fetch_request api_key series_id start) = Response code (JsonObject o) ->
      code < 400 \/ 600 <= code ->
      default [] o = [] ->
      fetch_fred to_datetime to_numeric date_error api_key series_id start w s =
      (Done (mkFrame ["value"] []),
       mkState (log s ++ [EvHttpGet (fetch_request api_key series_id start)])%list
               (heap s) (next_ref s))) /\
  (forall (df : DataFrame) (how : string),
      Pd.empty df = true -> monthlyize df how = Ok df) /\
  (forall df : DataFrame,
      Pd.empty df = true -> cpi_yoy_from_index df = Ok (mkSeries "CPI_YoY" [])) /\
  Pd.empty (mkFrame ["value"] []) = true.
Proof.
  split; [|split; [|split]].
  - intros w s api_key series_id start code o Hresp Hcode Hobs.
    unfold fetch_fred, Run.bind, Run.emit, Run.ask. cbn [log heap next_ref].
    rewrite Hresp.
    replace ((400 <=? code) && (code <? 600)) with false
      by (symmetry; apply andb_false_iff; rewrite Z.leb_gt, Z.ltb_ge; lia).
    rewrite Hobs. reflexivity.
  - intros df how H. unfold monthlyize. now rewrite H.
  - intros df H. unfold cpi_yoy_from_index. now rewrite H.
  - reflexivity.
Qed.

End EmptyInputs.

Lemma empty_input_witness :
  fetch_fred Api.iso_date Api.numeral Api.date_error "k" "UNRATE" "2000-01-01" Ex.empty_world initial =
  (Done (mkFrame ["value"] []),
   mkState [EvHttpGet (fetch_request "k" "UNRATE" "2000-01-01")] ∅ 0) /\
  monthlyize (mkFrame ["value"] []) "mean" = Ok (mkFrame ["value"] []) /\
  cpi_yoy_from_index (mkFrame ["value"] []) = Ok (mkSeries "CPI_YoY" []).
Proof.
  destruct (empty_input_is_not_an_error Api.iso_date Api.numeral Api.date_error) as (Hf & Hm & Hy & He).
  split; [|split].
  - apply (Hf Ex.empty_world initial "k" "UNRATE" "2000-01-01" 200 (Some []));
      [reflexivity | lia | reflexivity].
  - apply Hm, He.
  - apply Hy, He.
Defined.

(* ===================================================================== *)
(** * Display Transform *)
(* ===================================================================== *)

Section RollingMean.

(** ** The window of size 3 *)

Lemma nth_map_seq {A : Type} (g : nat -> A) n i d :
  (i < n)%nat -> nth i (map g (seq 0 n)) d = g i.
Proof.
  intros Hi. rewrite (List.nth_indep _ d (g 0%nat)) by (now rewrite List.length_map, List.length_seq).
  rewrite (List.map_nth g), List.seq_nth by exact Hi. reflexivity.
Qed.

(** ** The running state *)

Lemma length_roll_mean_from w minp values todo :
  forall i st, length (Pd.roll_mean_from w minp values i todo st) = length todo.
Proof.
  induction todo as [|v todo IH]; intros i st; [reflexivity|].
  cbn [Pd.roll_mean_from length]. now rewrite IH.
Qed.

Lemma length_prep_values l : length (Pd.prep_values l) = length l.
Proof. apply List.length_map. Qed.

Lemma nth_prep_values l j :
  nth j (Pd.prep_values l) F64.NaN =
  if PrimFloat.is_infinity (nth j l F64.NaN) then F64.NaN else nth j l F64.NaN.
Proof.
  unfold Pd.prep_values.
  exact (List.map_nth (fun v => if PrimFloat.is_infinity v then F64.NaN else v)
                      l F64.NaN j).
Qed.

(** The state after the rows [0 .. i + k], from the state before row [i]. *)
Lemma nth_roll_mean_from minp values :
  forall todo i st k,
    todo = skipn i values ->
    (k < length todo)%nat ->
    (match i with
     | O => st = Pd.mean_init (nth 0 values F64.NaN)
     | S j => st = Spec.running3 values j
     end) ->
    nth k (Pd.roll_mean_from 3 minp values i todo st) F64.NaN =
    Pd.calc_mean minp (Spec.running3 values (i + k)).
Proof.
  induction todo as [|v todo IH]; intros i st k Htodo Hk Hst; [simpl in Hk; lia|].
  assert (Hv : v = nth i values F64.NaN).
  { rewrite <- (Nat.add_0_r i), <- List.nth_skipn, <- Htodo. reflexivity. }
  assert (Hnext : Pd.mean_step 3 values i v st = Spec.running3 values i).
  { destruct i as [|j]; subst st v; reflexivity. }
  cbn [Pd.roll_mean_from]. destruct k as [|k].
  - cbn [nth]. now rewrite Hnext, Nat.add_0_r.
  - cbn [nth]. rewrite (IH (S i) _ k).
    + f_equal. f_equal. lia.
    + rewrite <- (List.skipn_skipn 1 i), <- Htodo. reflexivity.
    + simpl in Hk. lia.
    + exact Hnext.
Qed.

Lemma nth_roll_mean minp values i :
  (i < length values)%nat ->
  nth i (Pd.roll_mean 3 minp values) F64.NaN =
  Pd.calc_mean minp (Spec.running3 values i).
Proof.
  intros Hi. unfold Pd.roll_mean.
  destruct values as [|v0 rest] eqn:E; [simpl in Hi; lia|]. rewrite <- E in *.
  rewrite (nth_roll_mean_from minp values values 0 _ i); try reflexivity.
  - exact Hi.
  - now rewrite E.
Qed.

(** ** The number of observations in the window *)

Lemma nobs_add_mean v st :
  Pd.nobs (Pd.add_mean v st) =
  (Pd.nobs st + if F64.isna v then 0 else 1)%nat.
Proof. unfold Pd.add_mean. destruct (F64.isna v); cbn [Pd.nobs]; lia. Qed.

Lemma nobs_remove_mean v st :
  Pd.nobs (Pd.remove_mean v st) =
  (Pd.nobs st - if F64.isna v then 0 else 1)%nat.
Proof. unfold Pd.remove_mean. destruct (F64.isna v); cbn [Pd.nobs]; lia. Qed.

Lemma nobs_running3 vals i :
  Pd.nobs (Spec.running3 vals i) =
  ((if (2 <=? i)%nat then Spec.observed vals (i - 2) else 0) +
   (if (1 <=? i)%nat then Spec.observed vals (i - 1) else 0) +
   Spec.observed vals i)%nat.
Proof.
  induction i as [|i IH].
  - cbn [Spec.running3]. unfold Pd.mean_step. cbn [Nat.leb].
    rewrite nobs_add_mean. reflexivity.
  - cbn [Spec.running3]. unfold Pd.mean_step. rewrite nobs_add_mean.
    fold (Spec.observed vals (S i)).
    destruct (Nat.leb_spec 3 (S i)) as [H3|H3].
    + rewrite nobs_remove_mean, IH.
      fold (Spec.observed vals (S i - 3)).
      destruct (Nat.leb_spec 2 i); [|lia].
      destruct (Nat.leb_spec 1 i); [|lia].
      destruct (Nat.leb_spec 2 (S i)); [|lia].
      destruct (Nat.leb_spec 1 (S i)); [|lia].
      replace (S i - 3)%nat with (i - 2)%nat by lia.
      replace (S i - 2)%nat with (i - 1)%nat by lia.
      replace (S i - 1)%nat with i by lia.
      unfold Spec.observed. destruct (F64.isna (nth (i - 2) vals F64.NaN)); lia.
    + rewrite IH.
      destruct (Nat.leb_spec 2 i); [lia|].
      destruct (Nat.leb_spec 1 (S i)); [|lia].
      replace (S i - 1)%nat with i by lia.
      destruct i as [|[|i]]; [| |lia]; cbn [Nat.leb Nat.sub]; lia.
Qed.

Lemma calc_mean_few st : (Pd.nobs st < 3)%nat -> Pd.calc_mean 3 st = F64.NaN.
Proof.
  intros H. unfold Pd.calc_mean.
  destruct (Nat.leb_spec 3 (Pd.nobs st)); [lia | reflexivity].
Qed.

Lemma observed_le vals j : (Spec.observed vals j <= 1)%nat.
Proof. unfold Spec.observed. destruct (F64.isna _); lia. Qed.

Lemma observed_prep_missing col j :
  F64.isna (nth j col F64.NaN) || PrimFloat.is_infinity (nth j col F64.NaN) = true ->
  Spec.observed (Pd.prep_values col) j = 0%nat.
Proof.
  unfold Spec.observed. rewrite nth_prep_values.
  destruct (PrimFloat.is_infinity (nth j col F64.NaN)); [reflexivity|].
  rewrite orb_false_r. now intros ->.
Qed.

(** The rolling mean at a row is the trailing 3-row mean. *)
Lemma nth_rolling_mean (col : list float) i :
  (i < length col)%nat ->
  nth i (Pd.rolling_mean_values 3 col) F64.NaN = Spec.trailing_mean3 col i.
Proof.
  intros Hi. unfold Pd.rolling_mean_values.
  rewrite nth_roll_mean by (now rewrite length_prep_values).
  unfold Spec.trailing_mean3.
  pose proof (nobs_running3 (Pd.prep_values col) i) as Hn.
  pose proof (observed_le (Pd.prep_values col) (i - 2)).
  pose proof (observed_le (Pd.prep_values col) (i - 1)).
  pose proof (observed_le (Pd.prep_values col) i).
  destruct (Nat.ltb_spec i 2) as [Hlt|Hge].
  - apply calc_mean_few. rewrite Hn.
    destruct (Nat.leb_spec 2 i); [lia|]. destruct (1 <=? i)%nat; lia.
  - destruct (Nat.leb_spec 2 i); [|lia]. destruct (Nat.leb_spec 1 i); [|lia].
    pose proof (observed_prep_missing col (i - 2)) as Ha.
    pose proof (observed_prep_missing col (i - 1)) as Hb.
    pose proof (observed_prep_missing col i) as Hc.
    destruct (F64.isna (nth (i - 2) col F64.NaN)); [apply calc_mean_few; cbn in Ha; lia|].
    destruct (F64.isna (nth (i - 1) col F64.NaN)); [apply calc_mean_few; cbn in Hb; lia|].
    destruct (F64.isna (nth i col F64.NaN)); [apply calc_mean_few; cbn in Hc; lia|].
    cbn [orb] in *.
    destruct (PrimFloat.is_infinity (nth (i - 2) col F64.NaN));
      [apply calc_mean_few; lia|].
    destruct (PrimFloat.is_infinity (nth (i - 1) col F64.NaN));
      [apply calc_mean_few; lia|].
    destruct (PrimFloat.is_infinity (nth i col F64.NaN));
      [apply calc_mean_few; lia|].
    reflexivity.
Qed.

Lemma length_rolling_mean_values (col : list float) :
  length (Pd.rolling_mean_values 3 col) = length col.
Proof.
  unfold Pd.rolling_mean_values, Pd.roll_mean.
  rewrite <- (length_prep_values col).
  destruct (Pd.prep_values col) as [|v l] eqn:E; [reflexivity|].
  rewrite <- E. apply length_roll_mean_from.
Qed.


(** A missing value makes the means of the three windows that hold it
    missing. *)
Lemma trailing_mean3_missing (col : list float) i j :
  (j <= i <= j + 2)%nat ->
  F64.isna (nth j col F64.NaN) = true ->
  Spec.trailing_mean3 col i = F64.NaN.
Proof.
  intros Hij Hj. unfold Spec.trailing_mean3.
  destruct (i <? 2)%nat; [reflexivity|].
  assert (j = i - 2 \/ j = i - 1 \/ j = i)%nat as [-> | [-> | ->]] by lia;
    rewrite Hj, ?orb_true_r; reflexivity.
Qed.

End RollingMean.

Section SmoothingLoop.

(** ** Positions, labels and cells *)

Lemma position_lt c cols k : Pd.position c cols = Some k -> (k < length cols)%nat.
Proof.
  revert k. induction cols as [|h t IH]; intros k; simpl; [discriminate|].
  destruct (String.eqb c h).
  - intros [= <-]. lia.
  - destruct (Pd.position c t) as [k'|]; [|discriminate].
    intros [= <-]. specialize (IH k' eq_refl). lia.
Qed.

Lemma position_in c cols : In c cols -> Pd.position c cols <> None.
Proof.
  induction cols as [|h t IH]; simpl; [tauto|].
  intros [-> | Hin].
  - now rewrite String.eqb_refl.
  - destruct (String.eqb c h); [discriminate|].
    destruct (Pd.position c t); [discriminate | now apply IH].
Qed.

Lemma position_nth cols j :
  List.NoDup cols -> (j < length cols)%nat ->
  Pd.position (nth j cols "") cols = Some j.
Proof.
  revert j. induction cols as [|h t IH]; intros j Hnd Hj; simpl in Hj; [lia|].
  inversion Hnd as [|? ? Hnotin Hnd']; subst.
  destruct j as [|j]; simpl.
  - now rewrite String.eqb_refl.
  - destruct (String.eqb_spec (nth j t "") h) as [E|_].
    + exfalso. apply Hnotin. rewrite <- E. apply List.nth_In. lia.
    + rewrite IH by (assumption || lia). reflexivity.
Qed.

Lemma lookup_label_combine idx (vals : list float) i :
  List.NoDup idx -> length vals = length idx -> (i < length idx)%nat ->
  Pd.lookup_label (nth i idx (mkTs 0 0 0)) (combine idx vals) = nth i vals F64.NaN.
Proof.
  revert vals i. induction idx as [|t idx IH]; intros [|v vals] i Hnd Hlen Hi;
    simpl in *; try lia.
  inversion Hnd as [|? ? Hnotin Hnd']; subst.
  unfold Pd.lookup_label. destruct i as [|i]; simpl.
  - now rewrite bool_decide_eq_true_2.
  - rewrite bool_decide_eq_false_2.
    + apply IH; [assumption | lia | lia].
    + intros E. apply Hnotin. rewrite E. apply List.nth_In. lia.
Qed.

Lemma nth_list_insert (l : list float) j k v d :
  nth k (<[j := v]> l) d =
  if (k =? j)%nat && (j <? length l)%nat then v else nth k l d.
Proof.
  revert j k. induction l as [|x l IH]; intros j k.
  - destruct j, k; simpl; try reflexivity. now rewrite andb_false_r.
  - destruct j as [|j], k as [|k]; simpl; try reflexivity.
    rewrite IH. reflexivity.
Qed.

Lemma nth_map_in {A B : Type} (g : A -> B) (l : list A) i d d' :
  (i < length l)%nat -> nth i (map g l) d' = g (nth i l d).
Proof.
  intros Hi. rewrite (List.nth_indep _ d' (g d)) by (now rewrite List.length_map).
  apply List.map_nth.
Qed.

Lemma length_index {A : Type} (l : list (Timestamp * A)) :
  length (Pd.index l) = length l.
Proof. apply List.length_map. Qed.

(** ** One pass of the loop *)

Lemma smooth_step (d0 d : DataFrame) j :
  Spec.frame_wf d0 -> Spec.smoothed_upto d0 j d -> (j < length (columns d0))%nat ->
  exists s,
    Pd.getitem d (nth j (columns d0) "") = Ok s /\
    Spec.smoothed_upto d0 (S j)
      (Pd.setitem d (nth j (columns d0) "") (Pd.rolling_mean 3 s)).
Proof.
  intros (Hndc & Hndi & Hw0) (Hcols & Hidx & Hw & Hcells) Hj.
  assert (Hpos : Pd.position (nth j (columns d0) "") (columns d) = Some j)
    by (rewrite Hcols; now apply position_nth).
  assert (Hlen : length (rows d) = length (rows d0))
    by (rewrite <- !length_index; now rewrite Hidx).
  unfold Pd.getitem, Pd.setitem. rewrite Hpos. eexists. split; [reflexivity|].
  set (s := mkSeries (nth j (columns d0) "")
                     (map (fun r => (fst r, Pd.cell j r)) (rows d))).
  assert (Hvals : Pd.values s = Pd.column_at j (rows d0)).
  { unfold Pd.values, s. cbn [obs]. rewrite List.map_map. cbn [snd].
    apply (List.nth_ext _ _ F64.NaN F64.NaN).
    - unfold Pd.column_at. now rewrite !List.length_map.
    - intros i Hi. rewrite List.length_map in Hi. unfold Pd.column_at.
      rewrite (nth_map_in _ _ _ Spec.no_row) by exact Hi.
      rewrite (nth_map_in _ _ _ Spec.no_row) by lia.
      rewrite Hcells by lia. now rewrite Nat.ltb_irrefl. }
  assert (Hsidx : Pd.index (obs s) = Pd.index (rows d0)).
  { unfold Pd.index, s. cbn [obs]. rewrite List.map_map. exact Hidx. }
  assert (Hobs : obs (Pd.rolling_mean 3 s) =
                 combine (Pd.index (rows d0))
                         (Pd.rolling_mean_values 3 (Pd.column_at j (rows d0)))).
  { unfold Pd.rolling_mean, Pd.with_values. cbn [obs]. now rewrite Hsidx, Hvals. }
  rewrite Hobs.
  split; [exact Hcols|]. cbn [columns rows]. split; [|split].
  - rewrite <- Hidx. unfold Pd.index. now rewrite List.map_map.
  - apply List.Forall_forall. intros r (r' & <- & Hr')%in_map_iff. cbn [snd].
    rewrite length_insert. rewrite List.Forall_forall in Hw. now apply Hw.
  - intros i k Hi Hk.
    rewrite (nth_map_in _ _ _ Spec.no_row) by lia.
    unfold Pd.cell at 1. cbn [snd fst]. rewrite nth_list_insert.
    assert (Hwi : length (snd (nth i (rows d) Spec.no_row)) = length (columns d0)).
    { rewrite List.Forall_forall in Hw. apply Hw, List.nth_In. lia. }
    rewrite Hwi. destruct (Nat.ltb_spec j (length (columns d0))) as [_|]; [|lia].
    rewrite andb_true_r. destruct (Nat.eqb_spec k j) as [->|Hkj].
    + replace (j <? S j)%nat with true by (symmetry; apply Nat.ltb_lt; lia).
      replace (fst (nth i (rows d) Spec.no_row))
        with (nth i (Pd.index (rows d0)) (mkTs 0 0 0)).
      * rewrite lookup_label_combine;
          rewrite ?length_rolling_mean_values, ?length_index;
          unfold Pd.column_at; rewrite ?List.length_map; try assumption; try lia.
        fold (Pd.column_at j (rows d0)). apply nth_rolling_mean.
        unfold Pd.column_at. now rewrite List.length_map.
      * rewrite <- Hidx. unfold Pd.index.
        now rewrite (nth_map_in _ _ _ Spec.no_row) by lia.
    + fold (Pd.cell k (nth i (rows d) Spec.no_row)). rewrite Hcells by assumption.
      destruct (Nat.ltb_spec k j), (Nat.ltb_spec k (S j)); try reflexivity; lia.
Qed.

Lemma smooth_columns_upto (d0 : DataFrame) todo :
  Spec.frame_wf d0 ->
  forall done d,
    columns d0 = (done ++ todo)%list ->
    Spec.smoothed_upto d0 (length done) d ->
    Spec.smoothed_upto d0 (length (columns d0)) (Spec.smooth_columns d todo).
Proof.
  intros Hwf. induction todo as [|c todo IH]; intros done d Hsplit Hinv.
  - rewrite Hsplit, List.app_nil_r. exact Hinv.
  - assert (Hc : nth (length done) (columns d0) "" = c)
      by (rewrite Hsplit, List.app_nth2, Nat.sub_diag by lia; reflexivity).
    assert (Hlt : (length done < length (columns d0))%nat)
      by (rewrite Hsplit, List.length_app; simpl; lia).
    destruct (smooth_step d0 d (length done) Hwf Hinv Hlt) as (s & Hget & Hnext).
    rewrite Hc in Hget, Hnext.
    unfold Spec.smooth_columns. cbn [fold_left]. rewrite Hget.
    apply (IH (done ++ [c])%list).
    + now rewrite <- List.app_assoc.
    + rewrite List.length_app. cbn [length]. now rewrite Nat.add_1_r.
Qed.

(** The loop over all the columns of a well-formed frame leaves, in every
    cell, the trailing 3-row mean of the cell's column. *)
Lemma smooth_columns_cells (d0 : DataFrame) :
  Spec.frame_wf d0 ->
  let d := Spec.smooth_columns d0 (columns d0) in
  columns d = columns d0 /\
  Pd.index (rows d) = Pd.index (rows d0) /\
  forall i k, (i < length (rows d0))%nat -> (k < length (columns d0))%nat ->
    Pd.cell k (nth i (rows d) Spec.no_row) =
    Spec.trailing_mean3 (Pd.column_at k (rows d0)) i.
Proof.
  intros Hwf.
  assert (H0 : Spec.smoothed_upto d0 (length (@nil string)) d0).
  { destruct Hwf as (_ & _ & Hw). repeat split; auto. }
  destruct (smooth_columns_upto d0 (columns d0) Hwf [] d0 eq_refl H0)
    as (Hcols & Hidx & _ & Hcells).
  cbv zeta. split; [exact Hcols|]. split; [exact Hidx|].
  intros i k Hi Hk. rewrite Hcells by assumption.
  now destruct (Nat.ltb_spec k (length (columns d0))); [|lia].
Qed.

End SmoothingLoop.

Section DisplayCopy.

(** ** The loop on the store *)

Lemma state_eta (s : State) : mkState (log s) (heap s) (next_ref s) = s.
Proof. now destruct s. Qed.

Lemma setitem_columns d c s :
  Pd.position c (columns d) <> None -> columns (Pd.setitem d c s) = columns d.
Proof.
  unfold Pd.setitem. destruct (Pd.position c (columns d)); [reflexivity | congruence].
Qed.

Lemma smooth_columns_columns cols d :
  Forall (fun c => Pd.position c (columns d) <> None) cols ->
  columns (Spec.smooth_columns d cols) = columns d.
Proof.
  revert d. induction cols as [|c cols IH]; intros d Hall; [reflexivity|].
  inversion Hall as [|? ? Hc Hrest]; subst.
  unfold Spec.smooth_columns. cbn [fold_left].
  destruct (Pd.getitem d c) as [s|e] eqn:E.
  - fold (Spec.smooth_columns (Pd.setitem d c (Pd.rolling_mean 3 s)) cols).
    rewrite IH; rewrite setitem_columns by exact Hc; [reflexivity | exact Hrest].
  - fold (Spec.smooth_columns d cols). now apply IH.
Qed.

Lemma smooth_column_run (w : World) (r : ref) (c : string) (s : State)
      (d : DataFrame) (col : Series) :
  heap s !! r = Some d ->
  Pd.getitem d c = Ok col ->
  smooth_column r c w s =
  (Done tt,
   mkState (log s) (<[r := Pd.setitem d c (Pd.rolling_mean 3 col)]> (heap s))
           (next_ref s)).
Proof.
  intros Hr Hget. unfold smooth_column, Run.bind, Run.read, Run.modify.
  rewrite Hr, Hget. unfold Run.lift, Run.ret. now rewrite Hr.
Qed.

Lemma for_each_smooth (w : World) (r : ref) cols :
  forall (s : State) (d : DataFrame),
    heap s !! r = Some d ->
    Forall (fun c => Pd.position c (columns d) <> None) cols ->
    Run.for_each cols (smooth_column r) w s =
    (Done tt, mkState (log s) (<[r := Spec.smooth_columns d cols]> (heap s)) (next_ref s)).
Proof.
  induction cols as [|c cols IH]; intros s d Hr Hall.
  - cbn [Run.for_each Spec.smooth_columns fold_left]. unfold Run.ret.
    now rewrite insert_id, state_eta.
  - inversion Hall as [|? ? Hc Hrest]; subst.
    destruct (Pd.getitem d c) as [col|e] eqn:Hget.
    2:{ unfold Pd.getitem in Hget.
        destruct (Pd.position c (columns d)); [discriminate | congruence]. }
    cbn [Run.for_each]. unfold Run.bind.
    rewrite (smooth_column_run w r c s d col Hr Hget).
    rewrite (IH _ (Pd.setitem d c (Pd.rolling_mean 3 col))).
    + cbn [log heap next_ref]. rewrite insert_insert_eq.
      unfold Spec.smooth_columns at 2. cbn [fold_left]. now rewrite Hget.
    + cbn [heap]. apply lookup_insert_eq.
    + rewrite setitem_columns by exact Hc. exact Hrest.
Qed.

(** The display frame is a new object: the panel as it is, or the panel
    after the smoothing loop. *)
Lemma make_display_df_run (w : World) (s : State) (p : ref) (P : DataFrame) (b : bool) :
  heap s !! p = Some P ->
  make_display_df p b w s =
  (Done (next_ref s),
   mkState (log s)
           (<[next_ref s := if b then Spec.smooth_columns P (columns P) else P]> (heap s))
           (S (next_ref s))).
Proof.
  intros Hp. unfold make_display_df, Run.bind at 1, Run.read. rewrite Hp.
  unfold Run.bind at 1, Run.alloc. cbn [log heap next_ref].
  destruct b.
  - unfold Run.bind at 1. unfold Run.bind at 1, Run.read. cbn [heap].
    rewrite lookup_insert_eq.
    rewrite (for_each_smooth w (next_ref s) (columns P) _ P).
    + cbn [log heap next_ref]. unfold Run.ret. now rewrite insert_insert_eq.
    + cbn [heap]. apply lookup_insert_eq.
    + apply List.Forall_forall. intros c Hc. now apply position_in.
  - unfold Run.bind, Run.ret. reflexivity.
Qed.




(** Nor is it always the sum of the three values over 3: the running sum
    is compensated, and on 0.1, 0.2, 0.3 the last place differs. *)
Lemma smoothing_sum_is_compensated :
  nth 2 (Pd.rolling_mean_values 3 [Ex.tenth 1; Ex.tenth 2; Ex.tenth 3]) F64.NaN
  = 0x1.9999999999999p-3%float /\
  Spec.mean3 (Ex.tenth 1) (Ex.tenth 2) (Ex.tenth 3) = 0x1.999999999999bp-3%float.
Proof. split; vm_compute; reflexivity. Qed.

(** The frame level of the same example: the display column of the panel
    1, 2, 3, 4, 5. *)
Lemma display_of_one_to_five :
  exists s' D,
    make_display_df 0%nat true Ex.no_key_world (Ex.store_of Ex.one_to_five)
      = (Done 1%nat, s') /\
    heap s' !! 1%nat = Some D /\
    Pd.column_at 0 (rows D) = [F64.NaN; F64.NaN; Ex.f 2; Ex.f 3; Ex.f 4] /\
    heap s' !! 0%nat = Some Ex.one_to_five.
Proof.
  eexists. eexists. split; [vm_compute; reflexivity|].
  split; [vm_compute; reflexivity|]. split; reflexivity.
Qed.

(** C10. With the flag on, the smoothed cell of row [i] is missing when
    the column is missing at row [i], [i-1] or [i-2]: a missing value at
    row [j] makes rows [j], [j+1] and [j+2] of the smoothed column
    missing. *)
Theorem smoothed_cell_missing (w : World) (s : State) (p : ref) (P : DataFrame)
        (i j k : nat) :
  heap s !! p = Some P ->
  Spec.frame_wf P ->
  (i < length (rows P))%nat -> (k < length (columns P))%nat ->
  (j <= i <= j + 2)%nat ->
  F64.isna (Pd.cell k (nth j (rows P) Spec.no_row)) = true ->
  exists s' D,
    make_display_df p true w s = (Done (next_ref s), s') /\
    heap s' !! next_ref s = Some D /\
    F64.isna (Pd.cell k (nth i (rows D) Spec.no_row)) = true.
Proof.
  intros Hp Hwf Hi Hk Hij Hj.
  destruct (smooth_columns_cells P Hwf) as (_ & _ & Hcells).
  eexists. eexists. split; [exact (make_display_df_run w s p P true Hp)|]. cbn [heap].
  split; [apply lookup_insert_eq|].
  rewrite Hcells by assumption.
  rewrite (trailing_mean3_missing _ i j Hij); [reflexivity|].
  unfold Pd.column_at. rewrite (nth_map_in _ _ _ Spec.no_row) by lia. exact Hj.
Qed.

Lemma smoothed_cell_missing_witness :
  exists s' D,
    make_display_df 0%nat true Ex.no_key_world (Ex.store_of Ex.one_to_five_holed)
      = (Done 1%nat, s') /\
    heap s' !! 1%nat = Some D /\
    F64.isna (Pd.cell 0 (nth 3 (rows D) Spec.no_row)) = true.
Proof.
  apply (smoothed_cell_missing Ex.no_key_world (Ex.store_of Ex.one_to_five_holed)
                               0%nat Ex.one_to_five_holed 3 1 0).
  - reflexivity.
  - split; [|split]; repeat constructor; simpl; intuition discriminate.
  - simpl. lia.
  - simpl. lia.
  - lia.
  - reflexivity.
Defined.

End DisplayCopy.

(* ===================================================================== *)
(** * Export and the canonical panel *)
(* ===================================================================== *)

Section ExportFacts.

Variable to_datetime : string -> option Timestamp.
Variable to_numeric : string -> float.
Variable date_error : list string -> string.

(** ** What does not depend on the smoothing switch *)

Lemma flagless_bind {A B : Type} (m : M A) (k : A -> M B) :
  Spec.flagless m -> (forall a, Spec.flagless (k a)) -> Spec.flagless (Run.bind m k).
Proof.
  intros Hm Hk sec di h s. unfold Run.bind. rewrite Hm.
  destruct (m (mkWorld sec di false h) s) as [[a| |e] s']; [apply Hk| |]; reflexivity.
Qed.

Lemma flagless_const {A : Type} (m : M A) :
  (forall w w' s, m w s = m w' s) -> Spec.flagless m.
Proof. intros H sec di h s. apply H. Qed.

Lemma flagless_lift {A : Type} (r : result A) : Spec.flagless (Run.lift r).
Proof. apply flagless_const. now destruct r. Qed.

Lemma flagless_fetch_fred api_key series_id start :
  Spec.flagless (fetch_fred to_datetime to_numeric date_error api_key series_id start).
Proof.
  intros sec di h s. unfold fetch_fred, Run.bind, Run.emit, Run.ask. cbn [http].
  destruct (h _) as [|code js]; [reflexivity|].
  destruct ((400 <=? code) && (code <? 600)); [reflexivity|].
  destruct js as [|o]; [reflexivity|].
  now destruct (observations_frame to_datetime to_numeric date_error (default [] o)).
Qed.

Lemma flagless_fetch_data api_key start_date :
  Spec.flagless (fetch_data to_datetime to_numeric date_error api_key start_date).
Proof.
  unfold fetch_data.
  repeat first
    [ apply flagless_fetch_fred
    | apply flagless_lift
    | apply flagless_bind; [|intros ?]
    | apply flagless_const; reflexivity ].
Qed.

(** ** The store after the data are fetched *)

Lemma fetch_fred_store api_key series_id start w s o s' :
  fetch_fred to_datetime to_numeric date_error api_key series_id start w s = (o, s') ->
  heap s' = heap s /\ next_ref s' = next_ref s /\
  Spec.downloads (log s') = Spec.downloads (log s).
Proof.
  assert (Hlog : Spec.downloads
                   (log s ++ [EvHttpGet (fetch_request api_key series_id start)]) =
                 Spec.downloads (log s)).
  { unfold Spec.downloads. rewrite List.filter_app. apply List.app_nil_r. }
  unfold fetch_fred, Run.bind, Run.emit, Run.ask. cbn [log heap next_ref].
  destruct (http w _) as [|code js].
  - intros [= <- <-]. auto.
  - destruct ((400 <=? code) && (code <? 600)); [intros [= <- <-]; auto|].
    destruct js as [|obs]; [intros [= <- <-]; auto|].
    destruct (observations_frame to_datetime to_numeric date_error (default [] obs));
      intros [= <- <-]; auto.
Qed.

Lemma bind_done_inv {A B : Type} (m : M A) (k : A -> M B) w s b s' :
  Run.bind m k w s = (Done b, s') ->
  exists a s1, m w s = (Done a, s1) /\ k a w s1 = (Done b, s').
Proof.
  unfold Run.bind. destruct (m w s) as [[a| |e] s1]; try discriminate.
  intros H. now exists a, s1.
Qed.

Lemma lift_done_inv {A : Type} (r : result A) w s a s' :
  Run.lift r w s = (Done a, s') -> r = Ok a /\ s' = s.
Proof. destruct r; unfold Run.lift, Run.ret, Run.raise; now intros [= <- <-]. Qed.

Lemma read_done_inv r w s df s' :
  Run.read r w s = (Done df, s') -> heap s !! r = Some df /\ s' = s.
Proof.
  unfold Run.read. destruct (heap s !! r); [|discriminate]. now intros [= <- <-].
Qed.

Lemma fetch_data_store api_key start_date w s fr s1 :
  fetch_data to_datetime to_numeric date_error api_key start_date w s = (Done fr, s1) ->
  exists C U R P yoy,
    combine_monthly C yoy U R = Ok P /\
    fr = mkFrames (next_ref s) (S (next_ref s)) (S (S (next_ref s)))
                  (S (S (S (next_ref s)))) /\
    next_ref s1 = S (S (S (S (next_ref s)))) /\
    heap s1 = <[S (S (S (next_ref s))) := P]>
                (<[S (S (next_ref s)) := R]>
                   (<[S (next_ref s) := U]> (<[next_ref s := C]> (heap s)))) /\
    Spec.downloads (log s1) = Spec.downloads (log s).
Proof.
  unfold fetch_data. intros H.
  apply bind_done_inv in H as (? & s0 & [= <- <-] & H).
  apply bind_done_inv in H as (cpi_idx & sa & (Hha & Hna & Hla)%fetch_fred_store & H).
  apply bind_done_inv in H as (cpi_m0 & ? & [_ ->]%lift_done_inv & H).
  apply bind_done_inv in H as (r1 & ? & [= <- <-] & H).
  apply bind_done_inv in H as (cpi_yoy & ? & [_ ->]%lift_done_inv & H).
  apply bind_done_inv in H as (unrate & sb & (Hhb & Hnb & Hlb)%fetch_fred_store & H).
  apply bind_done_inv in H as (unrate_m0 & ? & [_ ->]%lift_done_inv & H).
  apply bind_done_inv in H as (r2 & ? & [= <- <-] & H).
  apply bind_done_inv in H as (real10 & sc & (Hhc & Hnc & Hlc)%fetch_fred_store & H).
  apply bind_done_inv in H as (real10_m0 & ? & [_ ->]%lift_done_inv & H).
  apply bind_done_inv in H as (r3 & ? & [= <- <-] & H).
  apply bind_done_inv in H as (c & ? & [Hc ->]%read_done_inv & H).
  apply bind_done_inv in H as (u & ? & [Hu ->]%read_done_inv & H).
  apply bind_done_inv in H as (r & ? & [Hr ->]%read_done_inv & H).
  apply bind_done_inv in H as (panel0 & ? & [Hpanel ->]%lift_done_inv & H).
  apply bind_done_inv in H as (r4 & ? & [= <- <-] & H).
  injection H as <- <-. cbn [log heap next_ref] in *.
  rewrite Hnc, Hhc, Hnb, Hhb, Hna, Hha in *. cbn [log heap next_ref] in *.
  rewrite lookup_insert_ne, lookup_insert_ne, lookup_insert_eq in Hc by lia.
  rewrite lookup_insert_ne, lookup_insert_eq in Hu by lia.
  rewrite lookup_insert_eq in Hr.
  injection Hc as <-. injection Hu as <-. injection Hr as <-.
  do 5 eexists. split; [exact Hpanel|]. do 3 (split; [reflexivity|]).
  rewrite Hlc, Hlb, Hla. unfold Spec.downloads. rewrite List.filter_app.
  apply List.app_nil_r.
Qed.

(** ** The sections after the data *)

Lemma kpi_row_run (P : DataFrame) :
  exists evs,
    Spec.downloads evs = [] /\
    forall (p : ref) (w : World) (s : State),
      heap s !! p = Some P ->
      kpi_row p w s = (Done tt, Spec.logged s evs).
Proof.
  destruct (Pd.iloc_last (Pd.dropna_any P)) as [last|] eqn:E.
  - eexists. split; [|intros p w s Hp; unfold kpi_row, Run.bind at 1, Run.read;
                      rewrite Hp, E;
                      unfold Run.bind, metric_card, Run.emit, Spec.logged;
                      cbn [log heap next_ref]; rewrite <- !List.app_assoc;
                      cbn [app]; reflexivity].
    reflexivity.
  - eexists. split; [|intros p w s Hp; unfold kpi_row, Run.bind at 1, Run.read;
                      rewrite Hp, E; unfold Run.emit, Spec.logged; reflexivity].
    reflexivity.
Qed.

Lemma chart_run (cols : list string) (heading col title : string) :
  exists o : Outcome unit,
    forall (D : DataFrame) (d : ref) (w : World) (s : State),
      columns D = cols -> heap s !! d = Some D ->
      exists evs,
        Spec.downloads evs = [] /\
        chart d heading col title w s = (o, Spec.logged s evs).
Proof.
  destruct (Pd.position col cols) as [k|] eqn:E.
  - exists (Done tt). intros D d w s HD Hd.
    unfold chart, Run.bind at 1, Run.emit. unfold Run.bind at 1, Run.read.
    cbn [log heap next_ref]. rewrite Hd.
    unfold Pd.getitem_list. rewrite HD, E. unfold Run.bind, Run.lift, Run.ret, line_chart.
    destruct (Pd.empty _ || _); unfold Run.emit, Spec.logged; cbn [log heap next_ref];
      rewrite <- List.app_assoc; eexists; (split; [|reflexivity]); reflexivity.
  - exists (Raised (KeyError col)). intros D d w s HD Hd.
    unfold chart, Run.bind at 1, Run.emit. unfold Run.bind at 1, Run.read.
    cbn [log heap next_ref]. rewrite Hd.
    unfold Pd.getitem_list. rewrite HD, E. unfold Run.bind, Run.lift, Run.raise.
    unfold Spec.logged. eexists. split; [|reflexivity]. reflexivity.
Qed.

Lemma downloads_logged s evs :
  Spec.downloads (log (Spec.logged s evs)) =
  (Spec.downloads (log s) ++ Spec.downloads evs)%list.
Proof. unfold Spec.downloads, Spec.logged. cbn [log]. apply List.filter_app. Qed.

Lemma logged_logged s evs evs' :
  Spec.logged (Spec.logged s evs) evs' = Spec.logged s (evs ++ evs')%list.
Proof. unfold Spec.logged. cbn [log heap next_ref]. now rewrite List.app_assoc. Qed.

Lemma charts_run (cols : list string) :
  exists o : Outcome unit,
    forall (D : DataFrame) (d : ref) (w : World) (s : State),
      columns D = cols -> heap s !! d = Some D ->
      exists evs,
        Spec.downloads evs = [] /\
        charts d w s = (o, Spec.logged s evs).
Proof.
  destruct (chart_run cols "CPI — Year‑over‑Year (%)" "CPI_YoY"
                      "CPI YoY (computed from CPIAUCSL)") as [o1 H1].
  destruct (chart_run cols "Unemployment Rate (%)" "Unemployment"
                      "Unemployment Rate (UNRATE)") as [o2 H2].
  destruct (chart_run cols "Real Rates — 10Y TIPS Real Yield (%)" "Real10Y"
                      "10‑Year Real Yield (DFII10 monthly average)") as [o3 H3].
  exists (match o1 with
          | Done _ => match o2 with Done _ => o3 | x => x end
          | x => x
          end).
  intros D d w s HD Hd. unfold charts.
  destruct (H1 D d w s HD Hd) as (e1 & Hn1 & R1).
  unfold Run.bind at 1. rewrite R1.
  destruct o1 as [[]| |e]; try (exists e1; split; [exact Hn1 | reflexivity]).
  destruct (H2 D d w (Spec.logged s e1) HD Hd) as (e2 & Hn2 & R2).
  unfold Run.bind at 1. rewrite R2, logged_logged.
  assert (Hn12 : Spec.downloads (e1 ++ e2) = []).
  { unfold Spec.downloads in *. now rewrite List.filter_app, Hn1, Hn2. }
  destruct o2 as [[]| |e]; try (exists (e1 ++ e2)%list; split; [exact Hn12 | reflexivity]).
  destruct (H3 D d w (Spec.logged s (e1 ++ e2)) HD Hd) as (e3 & Hn3 & R3).
  rewrite R3, logged_logged.
  exists ((e1 ++ e2) ++ e3)%list. split; [|reflexivity].
  unfold Spec.downloads in *. now rewrite List.filter_app, Hn12, Hn3.
Qed.

Lemma download_run (fr : Frames) (w : World) (s : State) (P C U R : DataFrame) :
  heap s !! panel fr = Some P -> heap s !! cpi_m fr = Some C ->
  heap s !! unrate_m fr = Some U -> heap s !! real10_m fr = Some R ->
  download fr w s =
  (Done tt,
   Spec.logged s
     [EvMarkdown "### Download data";
      EvCaption "Monthly series; CPI YoY computed; Real10Y is monthly mean of DFII10.";
      Spec.export_of P C U R]).
Proof.
  intros HP HC HU HR.
  unfold download, Run.bind, Run.emit, Run.read. cbn [log heap next_ref].
  rewrite HP. cbn [log heap next_ref]. rewrite HC. cbn [log heap next_ref].
  rewrite HU. cbn [log heap next_ref]. rewrite HR.
  unfold Spec.logged. cbn [log heap next_ref].
  now rewrite <- !List.app_assoc.
Qed.

Lemma display_columns (P : DataFrame) (b : bool) :
  columns (if b then Spec.smooth_columns P (columns P) else P) = columns P.
Proof.
  destruct b; [|reflexivity]. apply smooth_columns_columns.
  apply List.Forall_forall. intros c Hc. now apply position_in.
Qed.

(** Whatever the switch, the sections after the data end the same way,
    export the same workbook and leave the panel as it was. *)
Lemma present_run (fr : Frames) (s : State) (P C U R : DataFrame) :
  heap s !! panel fr = Some P -> heap s !! cpi_m fr = Some C ->
  heap s !! unrate_m fr = Some U -> heap s !! real10_m fr = Some R ->
  panel fr <> next_ref s -> cpi_m fr <> next_ref s ->
  unrate_m fr <> next_ref s -> real10_m fr <> next_ref s ->
  exists (o : Outcome unit) (dl : list Event),
    (o = Done tt -> dl = [Spec.export_of P C U R]) /\
    forall (b : bool) (w : World),
      exists s',
        present fr b w s = (o, s') /\
        Spec.downloads (log s') = (Spec.downloads (log s) ++ dl)%list /\
        heap s' !! panel fr = Some P.
Proof.
  intros HP HC HU HR FP FC FU FR.
  destruct (kpi_row_run P) as (ek & Hnk & Hk).
  destruct (charts_run (columns P)) as (oc & Hc).
  exists (match oc with Done _ => Done tt | x => x end).
  exists (match oc with Done _ => [Spec.export_of P C U R] | _ => [] end).
  split; [destruct oc; (reflexivity || discriminate)|].
  intros b w. unfold present. unfold Run.bind at 1.
  rewrite (make_display_df_run w s (panel fr) P b HP).
  set (D := if b then Spec.smooth_columns P (columns P) else P).
  set (s1 := mkState (log s) (<[next_ref s := D]> (heap s)) (S (next_ref s))).
  assert (H1 : forall r df, r <> next_ref s -> heap s !! r = Some df ->
                            heap s1 !! r = Some df).
  { intros r df Hr Hdf. unfold s1. cbn [heap]. now rewrite lookup_insert_ne. }
  unfold Run.bind at 1. rewrite (Hk (panel fr) w s1 (H1 _ _ FP HP)).
  destruct (Hc D (next_ref s) w (Spec.logged s1 ek)) as (ec & Hnc & Rc).
  { apply display_columns. }
  { unfold s1, Spec.logged. cbn [heap]. apply lookup_insert_eq. }
  unfold Run.bind at 1. rewrite Rc, logged_logged.
  destruct oc as [[]| |e].
  - rewrite (download_run fr w _ P C U R);
      try (unfold Spec.logged; cbn [heap]; auto; fail).
    eexists. split; [reflexivity|]. split.
    + rewrite logged_logged, downloads_logged.
      unfold s1 at 1. cbn [log]. f_equal.
      unfold Spec.downloads in *. rewrite !List.filter_app, Hnk, Hnc. reflexivity.
    + unfold Spec.logged. cbn [heap]. auto.
  - eexists. split; [reflexivity|]. split.
    + rewrite downloads_logged. unfold s1 at 1. cbn [log]. f_equal.
      unfold Spec.downloads in *. now rewrite List.filter_app, Hnk, Hnc.
    + unfold Spec.logged. cbn [heap]. auto.
  - eexists. split; [reflexivity|]. split.
    + rewrite downloads_logged. unfold s1 at 1. cbn [log]. f_equal.
      unfold Spec.downloads in *. now rewrite List.filter_app, Hnk, Hnc.
    + unfold Spec.logged. cbn [heap]. auto.
Qed.

(** ** The whole run *)

Lemma macro_dashboard_unfold sec di b h :
  let w := mkWorld sec di b h in
  let api_key := default "" (sec !! "FRED_API_KEY") in
  let s0 := Spec.logged initial
              [EvPageConfig "Macro Dashboard (CPI, Unemployment, Real Rates)" "📈" "wide";
               EvTitle "📈 Macro Dashboard — CPI (YoY), Unemployment, Real Rates";
               EvCaption "Source: Federal Reserve Economic Data (FRED)."] in
  let s2 := Spec.logged s0
              [EvSidebarHeader "Settings";
               EvSidebarCaption
                 "Series: CPIAUCSL (CPI index), UNRATE (U‑3), DFII10 (10‑year TIPS real yield)."] in
  macro_dashboard to_datetime to_numeric date_error w initial =
  if bool_decide (sec = None) then (Raised StreamlitSecretNotFoundError, s0)
  else if String.eqb api_key "" then (Stopped, Spec.logged s0 [EvWarning no_key_warning])
  else match fetch_data to_datetime to_numeric date_error api_key (Fmt.strftime_ymd di) w s2 with
       | (Done fr, s3) => present fr b w s3
       | (Stopped, s3) => (Stopped, s3)
       | (Raised e, s3) => (Raised e, s3)
       end.
Proof.
  cbv zeta.
  unfold macro_dashboard, page_setup, config_secrets, sidebar,
    Run.bind, Run.emit, Run.ask, Run.ret, Run.stop, Run.raise, Spec.logged.
  cbn [log heap next_ref secrets date_input checkbox initial app fst snd].
  destruct sec as [store|]; [|reflexivity].
  change (bool_decide (Some store = None)) with false. cbv iota.
  change (Some store !! "FRED_API_KEY") with (store !! "FRED_API_KEY").
  destruct (String.eqb (default "" (store !! "FRED_API_KEY")) ""); reflexivity.
Qed.

(** From the fetched data on: both settings of the switch end the same
    way and export the same workbook, whose first sheet is the panel as
    it was combined. *)
Lemma dashboard_after_data api_key start_date w0 s fr s3 :
  next_ref s = 0%nat -> Spec.downloads (log s) = [] ->
  fetch_data to_datetime to_numeric date_error api_key start_date w0 s = (Done fr, s3) ->
  exists C U R P yoy (o : Outcome unit) (dl : list Event),
    combine_monthly C yoy U R = Ok P /\
    (o = Done tt -> dl = [Spec.export_of P C U R]) /\
    forall (b : bool) (w : World),
      exists s',
        present fr b w s3 = (o, s') /\
        Spec.downloads (log s') = dl /\
        heap s' !! 3%nat = Some P.
Proof.
  intros Hn Hl Hfetch.
  destruct (fetch_data_store _ _ _ _ _ _ Hfetch)
    as (C & U & R & P & yoy & Hcomb & -> & Hn3 & Hh3 & Hl3).
  rewrite Hn in *.
  destruct (present_run (mkFrames 0%nat 1%nat 2%nat 3%nat) s3 P C U R) as (o & dl & Hdl & Hrun);
    cbn [panel cpi_m unrate_m real10_m]; rewrite ?Hh3, ?Hn3;
    try (by simplify_map_eq); try lia.
  exists C, U, R, P, yoy, o, dl. split; [exact Hcomb|]. split; [exact Hdl|].
  intros b w. destruct (Hrun b w) as (s' & Hp & Hd & Hh).
  exists s'. split; [exact Hp|]. split; [|exact Hh].
  now rewrite Hd, Hl3, Hl.
Qed.

(** C7. The display transform writes to a new object and leaves the
    panel as it is; the run ends the same way and exports the same
    workbook whether the smoothing switch is on or off; and the first
    sheet of the workbook of a completed run is the panel as it was
    combined, which is still the panel of the store. *)
Theorem export_ignores_smoothing :
  (forall (w : World) (s : State) (p : ref) (P : DataFrame) (b : bool),
      heap s !! p = Some P -> p <> next_ref s ->
      exists s',
        make_display_df p b w s = (Done (next_ref s), s') /\
        heap s' !! p = Some P) /\
  (forall sec di h,
      let run b := macro_dashboard to_datetime to_numeric date_error (mkWorld sec di b h) initial in
      fst (run true) = fst (run false) /\
      Spec.downloads (log (snd (run true))) = Spec.downloads (log (snd (run false)))) /\
  (forall (w : World) (s' : State),
      macro_dashboard to_datetime to_numeric date_error w initial = (Done tt, s') ->
      exists C U R P yoy,
        combine_monthly C yoy U R = Ok P /\
        heap s' !! 3%nat = Some P /\
        Spec.downloads (log s') = [Spec.export_of P C U R]).
Proof.
  split; [|split].
  - intros w s p P b Hp Hfresh. eexists.
    split; [exact (make_display_df_run w s p P b Hp)|].
    cbn [heap]. now rewrite lookup_insert_ne.
  - intros sec di h run. unfold run.
    rewrite !macro_dashboard_unfold.
    destruct (bool_decide (sec = None)); [split; reflexivity|].
    destruct (String.eqb (default "" (sec !! "FRED_API_KEY")) ""); [split; reflexivity|].
    rewrite flagless_fetch_data.
    destruct (fetch_data _ _ _ _ _ _ _) as [[fr| |e] s3] eqn:Hfetch;
      [|split; reflexivity|split; reflexivity].
    pose proof (fun H1 H2 => dashboard_after_data _ _ _ _ _ _ H1 H2 Hfetch) as HD.
    destruct (HD eq_refl eq_refl) as (C & U & R & P & yoy & o & dl & _ & _ & Hrun).
    destruct (Hrun true (mkWorld sec di true h)) as (st & -> & Hdt & _).
    destruct (Hrun false (mkWorld sec di false h)) as (sf & -> & Hdf & _).
    cbn [fst snd]. split; [reflexivity | now rewrite Hdt, Hdf].
  - intros [sec di b h] s' Hrun.
    rewrite macro_dashboard_unfold in Hrun.
    destruct (bool_decide (sec = None)); [discriminate|].
    destruct (String.eqb (default "" (sec !! "FRED_API_KEY")) ""); [discriminate|].
    destruct (fetch_data _ _ _ _ _ _ _) as [[fr| |e] s3] eqn:Hfetch; try discriminate.
    pose proof (fun H1 H2 => dashboard_after_data _ _ _ _ _ _ H1 H2 Hfetch) as HD.
    destruct (HD eq_refl eq_refl) as (C & U & R & P & yoy & o & dl & Hcomb & Hdl & Hp).
    destruct (Hp b (mkWorld sec di b h)) as (s'' & Hpres & Hd & Hh).
    rewrite Hpres in Hrun. injection Hrun as -> ->.
    exists C, U, R, P, yoy. split; [exact Hcomb|]. split; [exact Hh|].
    now rewrite Hd, Hdl.
Qed.

End ExportFacts.

Lemma export_ignores_smoothing_witness :
  (exists s',
      make_display_df 0%nat true Ex.no_key_world (Ex.store_of Ex.one_to_five)
        = (Done 1%nat, s') /\
      heap s' !! 0%nat = Some Ex.one_to_five) /\
  (exists C U R P yoy,
      combine_monthly C yoy U R = Ok P /\
      heap (snd (macro_dashboard Api.iso_date Api.numeral Api.date_error Ex.empty_world initial))
        !! 3%nat = Some P /\
      Spec.downloads
        (log (snd (macro_dashboard Api.iso_date Api.numeral Api.date_error Ex.empty_world initial)))
      = [Spec.export_of P C U R]).
Proof.
  destruct (export_ignores_smoothing Api.iso_date Api.numeral Api.date_error) as (Ha & _ & Hc).
  split.
  - apply (Ha Ex.no_key_world (Ex.store_of Ex.one_to_five) 0%nat Ex.one_to_five true);
      [reflexivity | discriminate].
  - apply (Hc Ex.empty_world). vm_compute. reflexivity.
Defined.

(* ===================================================================== *)
(** * KPI row *)
(* ===================================================================== *)

Section KpiRow.

(** ** Formatting *)

Lemma finite_Prim2SF (x : float) :
  PrimFloat.is_finite x = true ->
  (exists s, Prim2SF x = S754_zero s) \/ (exists s m e, Prim2SF x = S754_finite s m e).
Proof.
  intros Hfin.
  destruct (Prim2SF x) as [s|s| |s m e] eqn:E.
  - left. now exists s.
  - exfalso. rewrite <- (SF2Prim_Prim2SF x), E in Hfin. destruct s; discriminate Hfin.
  - exfalso. rewrite <- (SF2Prim_Prim2SF x), E in Hfin. discriminate Hfin.
  - right. now exists s, m, e.
Qed.

Lemma round_half_even_nonneg num den :
  0 <= num -> 0 < den -> 0 <= Fmt.round_half_even num den.
Proof.
  intros Hn Hd. unfold Fmt.round_half_even.
  assert (0 <= num / den) by (apply Z.div_pos; lia).
  destruct (2 * (num mod den) ?= den); [destruct (Z.even _)| |]; lia.
Qed.

(** The rounding is to a nearest integer: twice the distance between
    [num] and [den] times the result is at most [den]. *)
Lemma round_half_even_nearest num den :
  0 < den ->
  2 * Z.abs (num - den * Fmt.round_half_even num den) <= den.
Proof.
  intros Hd. unfold Fmt.round_half_even.
  pose proof (Z.div_mod num den ltac:(lia)) as Hdm.
  pose proof (Z.mod_pos_bound num den Hd) as Hr.
  destruct (Z.compare_spec (2 * (num mod den)) den) as [E|E|E];
    [destruct (Z.even _)| |]; nia.
Qed.

Lemma hundredths_nonneg m e : 0 <= Fmt.hundredths m e.
Proof.
  unfold Fmt.hundredths. destruct (0 <=? e) eqn:E.
  - apply Z.leb_le in E. assert (0 < 2 ^ e) by (apply Z.pow_pos_nonneg; lia). nia.
  - apply round_half_even_nonneg; [lia|]. apply Z.pow_pos_nonneg; lia.
Qed.

(** A finite value is shown with a sign, grouped integer digits, a point
    and two decimals. *)
Lemma format_finite (x : float) :
  PrimFloat.is_finite x = true ->
  exists (sgn : bool) (n : Z),
    0 <= n /\
    Fmt.format_comma_2f x =
      Fmt.sign sgn ++ Fmt.grouped (n / 100) ++ "." ++ Fmt.two_decimals n /\
    String.length (Fmt.two_decimals n) = 2%nat.
Proof.
  intros [[s E] | (s & m & e & E)]%finite_Prim2SF; unfold Fmt.format_comma_2f; rewrite E.
  - exists s, 0. split; [lia|]. split; reflexivity.
  - exists s, (Fmt.hundredths m e). split; [apply hundredths_nonneg|].
    split; reflexivity.
Qed.

(** ** The latest complete row *)

Lemma last_map_some {A : Type} (l : list A) (x : A) :
  List.last (map Some (l ++ [x])) None = Some x.
Proof. rewrite List.map_app. cbn [map]. apply List.last_last. Qed.

Lemma filter_none {A : Type} (p : A -> bool) (l : list A) :
  Forall (fun a => p a = false) l -> List.filter p l = [].
Proof.
  induction 1 as [|a l Ha _ IH]; [reflexivity|]. simpl. now rewrite Ha.
Qed.

Lemma complete_cell (r : Timestamp * list float) k :
  Spec.complete r = true -> (k < length (snd r))%nat ->
  F64.isna (Pd.cell k r) = false.
Proof.
  unfold Spec.complete, Pd.cell. intros Hall Hk.
  rewrite List.forallb_forall in Hall.
  specialize (Hall (nth k (snd r) F64.NaN) (List.nth_In _ _ Hk)).
  unfold F64.notna in Hall. now apply negb_true_iff in Hall.
Qed.

(** C4 (as amended). The three metrics come from the last row of the
    panel that has no missing cell: the YoY change, the rate and the
    yield of that row, each with two decimals and the suffix " %" (for a
    finite value). When the panel has no such row, no metric is shown
    but a notice. The placeholder "-" is what a metric card shows for a
    missing value. *)
Theorem kpi_row_spec (w : World) (s : State) (p : ref) (P : DataFrame) :
  heap s !! p = Some P ->
  Spec.is_panel P ->
  (Forall (fun r => Spec.complete r = false) (rows P) ->
   kpi_row p w s =
   (Done tt, Spec.logged s [EvInfo "No data available yet for the selected period."])) /\
  (forall pre last post,
      rows P = (pre ++ last :: post)%list ->
      Spec.complete last = true ->
      Forall (fun r => Spec.complete r = false) post ->
      kpi_row p w s =
      (Done tt,
       Spec.logged s
         [EvColumns 3;
          EvMetric "CPI YoY" (Fmt.format_comma_2f (Pd.cell 1 last) ++ " %");
          EvMetric "Unemployment" (Fmt.format_comma_2f (Pd.cell 2 last) ++ " %");
          EvMetric "Real 10Y Yield" (Fmt.format_comma_2f (Pd.cell 3 last) ++ " %")])) /\
  (forall x : float,
      PrimFloat.is_finite x = true ->
      exists (sgn : bool) (n : Z),
        0 <= n /\
        Fmt.format_comma_2f x =
          Fmt.sign sgn ++ Fmt.grouped (n / 100) ++ "." ++ Fmt.two_decimals n /\
        String.length (Fmt.two_decimals n) = 2%nat) /\
  (forall suffix, metric_shown F64.NaN suffix = "-").
Proof.
  intros Hp [Hcols Hwidth]. split; [|split; [|split]].
  - intros Hnone. unfold kpi_row, Run.bind, Run.read. rewrite Hp.
    unfold Pd.iloc_last, Pd.dropna_any. cbn [rows].
    change (fun r : Timestamp * list float => forallb F64.notna (snd r))
      with Spec.complete.
    rewrite (filter_none _ _ Hnone). reflexivity.
  - intros pre last post Hrows Hlast Hpost.
    unfold kpi_row, Run.bind at 1, Run.read. rewrite Hp.
    unfold Pd.iloc_last, Pd.dropna_any. cbn [rows columns].
    change (fun r : Timestamp * list float => forallb F64.notna (snd r))
      with Spec.complete.
    rewrite Hrows, List.filter_app. cbn [List.filter]. rewrite Hlast.
    rewrite (filter_none _ _ Hpost), last_map_some, Hcols.
    assert (Hw : length (snd last) = 4%nat).
    { rewrite List.Forall_forall in Hwidth. apply Hwidth. rewrite Hrows.
      apply in_or_app. right. now left. }
    unfold Pd.row_get. cbn [Pd.position String.eqb Ascii.eqb Bool.eqb].
    unfold metric_card, metric_shown.
    fold (Pd.cell 1 last) (Pd.cell 2 last) (Pd.cell 3 last).
    rewrite !complete_cell by (assumption || lia).
    unfold Run.bind, Run.emit, Spec.logged. cbn [log heap next_ref].
    now rewrite <- !List.app_assoc.
  - apply format_finite.
  - reflexivity.
Qed.

Lemma kpi_row_witness :
  kpi_row 0%nat Ex.no_key_world (Ex.store_of Ex.kpi_panel) =
  (Done tt,
   Spec.logged (Ex.store_of Ex.kpi_panel)
     [EvColumns 3;
      EvMetric "CPI YoY" "12.50 %";
      EvMetric "Unemployment" "5.00 %";
      EvMetric "Real 10Y Yield" "1,234.00 %"]).
Proof.
  destruct (kpi_row_spec Ex.no_key_world (Ex.store_of Ex.kpi_panel) 0%nat Ex.kpi_panel)
    as (_ & Hlast & _).
  - reflexivity.
  - split; [reflexivity | repeat constructor].
  - apply (Hlast [(mkTs 2001 1 31, [Ex.f 112; Ex.f 12; Ex.f 4; Ex.f 2])]
                 (mkTs 2001 2 28, [Ex.f 113; PrimFloat.div (Ex.f 25) (Ex.f 2);
                                   Ex.f 5; Ex.f 1234])
                 [(mkTs 2001 3 31, [Ex.f 114; Ex.f 13; F64.NaN; Ex.f 3])]);
      [reflexivity | reflexivity | repeat constructor].
Defined.

(** C4 as stated fails: with three months of data the last row of the
    panel has the rate and the yield but no YoY change; the run shows a
    notice and no metric at all, not a placeholder beside two values. *)
Lemma kpi_row_without_metrics :
  exists s P,
    macro_dashboard Api.iso_date Api.numeral Api.date_error Ex.young_world initial = (Done tt, s) /\
    heap s !! 3%nat = Some P /\
    List.last (rows P) Spec.no_row =
      (mkTs 2000 3 31, [Ex.f 102; F64.NaN; Ex.f 6; Ex.f 2]) /\
    In (EvInfo "No data available yet for the selected period.") (log s) /\
    List.filter Spec.is_metric (log s) = [].
Proof.
  eexists. eexists. split; [vm_compute; reflexivity|].
  split; [vm_compute; reflexivity|]. split; [reflexivity|].
  split; [|reflexivity]. cbn. tauto.
Qed.

End KpiRow.

(* ===================================================================== *)
(** * The keys of the panel *)
(* ===================================================================== *)

(** C2 (the code departs from it). The API dates monthly observations on
    the first of the month; such an index is inferred as "MS", so the
    calculator does not move it to month ends, while the other columns
    are. With thirteen months of data the panel has two rows for
    January 2001, the first keyed on a date that is not a month end, and
    the KPI row finds no complete row. *)
Theorem panel_rows_of_january_2001 :
  exists s P,
    macro_dashboard Api.iso_date Api.numeral Api.date_error Ex.fred_world initial = (Done tt, s) /\
    heap s !! 3%nat = Some P /\
    List.filter (fun r => Cal.month_ord (fst r) =? Cal.month_ord (mkTs 2001 1 1))
                (rows P) =
      [(mkTs 2001 1 1,
        [F64.NaN; Spec.percent_change (Ex.f 112) (Ex.f 100); F64.NaN; F64.NaN]);
       (mkTs 2001 1 31, [Ex.f 112; F64.NaN; Ex.f 16; Ex.f 4])] /\
    Cal.is_month_end (mkTs 2001 1 1) = false /\
    List.filter Spec.is_metric (log s) = [].
Proof.
  eexists. eexists. split; [vm_compute; reflexivity|].
  split; [vm_compute; reflexivity|]. repeat split.
Qed.

(** The path that the calculator takes on such an index. *)
Lemma month_start_index_is_kept :
  Pd.infer_freq [mkTs 2000 1 1; mkTs 2000 2 1; mkTs 2000 3 1] = Ok Pd.Inf_MS /\
  rmap (fun s => Pd.index (obs s))
       (cpi_yoy_from_index
          (mkFrame ["value"]
             [(mkTs 2000 1 1, [Ex.f 100]); (mkTs 2000 2 1, [Ex.f 101]);
              (mkTs 2000 3 1, [Ex.f 102])]))
  = Ok [mkTs 2000 1 1; mkTs 2000 2 1; mkTs 2000 3 1] /\
  rmap (fun d => Pd.index (rows d))
       (monthlyize
          (mkFrame ["value"]
             [(mkTs 2000 1 1, [Ex.f 100]); (mkTs 2000 2 1, [Ex.f 101]);
              (mkTs 2000 3 1, [Ex.f 102])]) "last")
  = Ok [mkTs 2000 1 31; mkTs 2000 2 29; mkTs 2000 3 31].
Proof. repeat split. Qed.

(* ===================================================================== *)
(** * Series Fetcher *)
(* ===================================================================== *)

Section Fetcher.

Variable to_datetime : string -> option Timestamp.
Variable to_numeric : string -> float.
Variable date_error : list string -> string.

(** ** Parsing the records *)

Lemma map_result_ok (text : string) obs :
  Forall (fun o => to_datetime (date o) <> None) obs ->
  Run.map_result
    (fun o => match to_datetime (date o) with
              | Some t => Ok (t, [to_numeric (value o)])
              | None => Raise (ValueError text)
              end) obs
  = Ok (map (Spec.parsed_row to_datetime to_numeric) obs).
Proof.
  induction 1 as [|o obs Ho _ IH]; [reflexivity|].
  cbn [Run.map_result map]. unfold Spec.parsed_row at 1.
  destruct (to_datetime (date o)) as [t|]; [|congruence].
  cbn [rbind]. rewrite IH. reflexivity.
Qed.

Lemma map_result_bad (text : string) obs :
  Exists (fun o => to_datetime (date o) = None) obs ->
  Run.map_result
    (fun o => match to_datetime (date o) with
              | Some t => Ok (t, [to_numeric (value o)])
              | None => Raise (ValueError text)
              end) obs
  = Raise (ValueError text).
Proof.
  induction obs as [|o obs IH]; intros H; [inversion H|].
  cbn [Run.map_result].
  destruct (to_datetime (date o)) as [t|] eqn:E; [|reflexivity].
  cbn [rbind]. rewrite IH; [reflexivity|].
  inversion H as [? ? Ho|? ? Hrest]; subst; [congruence | exact Hrest].
Qed.

Lemma observations_frame_cons o obs :
  observations_frame to_datetime to_numeric date_error (o :: obs) =
  rbind (Run.map_result
           (fun r => match to_datetime (date r) with
                     | Some t => Ok (t, [to_numeric (value r)])
                     | None => Raise (ValueError (date_error (map date (o :: obs))))
                     end) (o :: obs))
        (fun rs => Ok (Pd.sort_index (mkFrame ["value"] rs))).
Proof. reflexivity. Qed.

(** X1. A successful fetch with observations returns the column 'value'
    over the parsed dates in ascending order: the rows are the parsed
    records, rearranged, none lost and none added. One request is made
    and the store is left as it is. *)
Theorem fetch_fred_sorted (w : World) (s : State) (api_key series_id start : string)
        (code : Z) (obs : list RawObs) :
  http w (fetch_request api_key series_id start)
    = Response code (JsonObject (Some obs)) ->
  code < 400 \/ 600 <= code ->
  obs <> [] ->
  Forall (fun o => to_datetime (date o) <> None) obs ->
  exists df,
    fetch_fred to_datetime to_numeric date_error api_key series_id start w s =
      (Done df, Spec.logged s [EvHttpGet (fetch_request api_key series_id start)]) /\
    columns df = ["value"] /\
    Spec.ascending (Pd.index (rows df)) = true /\
    Permutation (rows df) (map (Spec.parsed_row to_datetime to_numeric) obs).
Proof.
  intros Hresp Hcode Hne Hdates.
  unfold fetch_fred, Run.bind, Run.emit, Run.ask. cbn [log heap next_ref].
  rewrite Hresp.
  replace ((400 <=? code) && (code <? 600)) with false
    by (symmetry; apply andb_false_iff; rewrite Z.leb_gt, Z.ltb_ge; lia).
  destruct obs as [|o obs]; [congruence|].
  change (default [] (Some (o :: obs))) with (o :: obs).
  rewrite observations_frame_cons, (map_result_ok _ _ Hdates).
  cbn [rbind Run.lift]. unfold Run.ret.
  eexists. split; [reflexivity|]. cbn [Pd.sort_index columns rows].
  split; [reflexivity|]. split; [apply sort_rows_ascending | apply sort_rows_perm].
Qed.

(** X2. A fetch fails as a whole, after its one request and without
    touching the store: no response, a status from 400 to 599 (whatever
    the body), a body that is not JSON, or a date that cannot be read. *)
Theorem fetch_fred_failures (w : World) (s : State) (api_key series_id start : string) :
  let req := fetch_request api_key series_id start in
  let failed e :=
    fetch_fred to_datetime to_numeric date_error api_key series_id start w s =
    (Raised e, Spec.logged s [EvHttpGet req]) in
  (http w req = NoResponse -> failed RequestException) /\
  (forall code js, http w req = Response code js -> 400 <= code < 600 ->
                   failed (HTTPError code)) /\
  (forall code, http w req = Response code NotJson -> code < 400 \/ 600 <= code ->
                failed JSONDecodeError) /\
  (forall code obs, http w req = Response code (JsonObject (Some obs)) ->
                    code < 400 \/ 600 <= code ->
                    Exists (fun o => to_datetime (date o) = None) obs ->
                    failed (ValueError (date_error (map date obs)))).
Proof.
  cbv zeta. unfold fetch_fred, Run.bind, Run.emit, Run.ask. cbn [log heap next_ref].
  split; [|split; [|split]].
  - intros ->. reflexivity.
  - intros code js -> Hcode.
    replace ((400 <=? code) && (code <? 600)) with true
      by (symmetry; apply andb_true_iff; rewrite Z.leb_le, Z.ltb_lt; lia).
    reflexivity.
  - intros code -> Hcode.
    replace ((400 <=? code) && (code <? 600)) with false
      by (symmetry; apply andb_false_iff; rewrite Z.leb_gt, Z.ltb_ge; lia).
    reflexivity.
  - intros code obs -> Hcode Hbad.
    replace ((400 <=? code) && (code <? 600)) with false
      by (symmetry; apply andb_false_iff; rewrite Z.leb_gt, Z.ltb_ge; lia).
    destruct obs as [|o obs]; [inversion Hbad|].
    change (default [] (Some (o :: obs))) with (o :: obs).
    rewrite observations_frame_cons, (map_result_bad _ _ Hbad). reflexivity.
Qed.

End Fetcher.

Lemma fetch_fred_sorted_witness :
  exists df,
    fetch_fred Api.iso_date Api.numeral Api.date_error "k" "UNRATE" "2000-01-01"
               Ex.unsorted_world initial =
      (Done df, Spec.logged initial [EvHttpGet (fetch_request "k" "UNRATE" "2000-01-01")]) /\
    columns df = ["value"] /\
    Spec.ascending (Pd.index (rows df)) = true /\
    Permutation (rows df) (map (Spec.parsed_row Api.iso_date Api.numeral) Ex.unsorted_obs).
Proof.
  apply (fetch_fred_sorted Api.iso_date Api.numeral Api.date_error Ex.unsorted_world initial
                           "k" "UNRATE" "2000-01-01" 200 Ex.unsorted_obs).
  - reflexivity.
  - lia.
  - discriminate.
  - repeat constructor; intros H; vm_compute in H; discriminate H.
Defined.

Lemma fetch_fred_failures_witness :
  fetch_fred Api.iso_date Api.numeral Api.date_error "k" "UNRATE" "2000-01-01" Ex.down_world initial =
  (Raised (HTTPError 503),
   Spec.logged initial [EvHttpGet (fetch_request "k" "UNRATE" "2000-01-01")]).
Proof.
  destruct (fetch_fred_failures Api.iso_date Api.numeral Api.date_error Ex.down_world initial
                                "k" "UNRATE" "2000-01-01") as (_ & Hstatus & _).
  apply (Hstatus 503 (JsonObject (Some Ex.unsorted_obs))); [reflexivity | lia].
Defined.

(* ===================================================================== *)
(** * Frequency Normalizer: the monthly index *)
(* ===================================================================== *)

Section MonthlyIndex.

Lemma ascending_head a l :
  Spec.ascending (a :: l) = true -> Forall (fun b => Cal.leb a b = true) (a :: l).
Proof.
  revert a. induction l as [|b l IH]; intros a H.
  - repeat constructor. apply leb_refl.
  - apply ascending_cons in H as [Hl Hab]. specialize (IH b Hl).
    constructor; [apply leb_refl|].
    eapply List.Forall_impl; [|exact IH].
    intros c Hbc. simpl in Hbc. eapply leb_trans; eassumption.
Qed.

Lemma ascending_last a l d :
  Spec.ascending (a :: l) = true ->
  Forall (fun b => Cal.leb b (List.last (a :: l) d) = true) (a :: l).
Proof.
  revert a. induction l as [|b l IH]; intros a H.
  - repeat constructor. apply leb_refl.
  - apply ascending_cons in H as [Hl Hab]. specialize (IH b Hl).
    change (List.last (a :: b :: l) d) with (List.last (b :: l) d).
    constructor; [|exact IH].
    inversion IH as [|? ? Hb _]; subst. eapply leb_trans; eassumption.
Qed.

(** ** The bins *)

Lemma valid_month_end o : Cal.valid (Cal.month_end o) = true.
Proof.
  unfold Cal.valid, Cal.month_end. cbn [year month day].
  pose proof (Z.mod_pos_bound o 12 ltac:(lia)).
  pose proof (days_in_month_pos (o / 12) (o mod 12 + 1)).
  rewrite !andb_true_iff, !Z.leb_le. lia.
Qed.

Lemma consecutive_month_range first n a :
  Spec.consecutive_month_ends
    (map (fun k => Cal.month_end (first + Z.of_nat k)) (seq a n)) = true.
Proof.
  revert a. induction n as [|n IH]; intros a; [reflexivity|].
  cbn [seq map]. specialize (IH (S a)).
  cbn [Spec.consecutive_month_ends].
  rewrite valid_month_end, month_end_is_month_end. cbn [andb].
  destruct n as [|n]; [reflexivity|].
  cbn [seq map] in *. rewrite IH, andb_true_r.
  rewrite !month_ord_month_end. apply Z.eqb_eq. lia.
Qed.

Lemma filter_nil_iff {A : Type} (p : A -> bool) (l : list A) :
  List.filter p l = [] <-> forall x, In x l -> p x = false.
Proof.
  induction l as [|a l IH]; simpl; [intuition|].
  destruct (p a) eqn:E.
  - split; [discriminate|]. intros H. specialize (H a (or_introl eq_refl)). congruence.
  - rewrite IH. split.
    + intros H x [<-|Hx]; auto.
    + intros H x Hx. apply H. now right.
Qed.

(** What [resample("M")] returns on a frame with rows, for either
    aggregate. *)
Lemma resample_M_rows (agg : list float -> float) (df : DataFrame) :
  rows df <> [] ->
  Forall (fun r => Cal.valid (fst r) = true) (rows df) ->
  exists lo hi,
    (exists r, In r (rows df) /\ Cal.month_ord (fst r) = lo) /\
    (exists r, In r (rows df) /\ Cal.month_ord (fst r) = hi) /\
    (forall r, In r (rows df) -> lo <= Cal.month_ord (fst r) <= hi) /\
    Pd.resample_M agg df =
    Ok (mkFrame (columns df)
          (map (fun o =>
                  (Cal.month_end o,
                   map (fun k => agg (Pd.column_at k
                                        (List.filter (Pd.in_month o)
                                                     (Pd.sort_rows (rows df)))))
                       (seq 0 (length (columns df)))))
               (Pd.month_range lo hi))).
Proof.
  intros Hne Hvalid. unfold Pd.resample_M.
  pose proof (sort_rows_perm (rows df)) as Hperm.
  pose proof (sort_rows_ascending (rows df)) as Hasc.
  destruct (Pd.sort_rows (rows df)) as [|r0 l] eqn:E.
  { apply Permutation_nil in Hperm. congruence. }
  assert (Hin : forall r, In r (r0 :: l) <-> In r (rows df))
    by (intros r; split; apply Permutation_in; [exact Hperm | now symmetry]).
  assert (Hv : forall r, In r (r0 :: l) -> Cal.valid (fst r) = true).
  { intros r Hr. rewrite List.Forall_forall in Hvalid. now apply Hvalid, Hin. }
  assert (Hlast : In (List.last (r0 :: l) r0) (r0 :: l)).
  { destruct (exists_last (l := r0 :: l)) as (l' & x & E'); [discriminate|].
    rewrite E', last_last. apply in_or_app. right. now left. }
  exists (Cal.month_ord (fst r0)), (Cal.month_ord (fst (List.last (r0 :: l) r0))).
  split; [exists r0; split; [apply Hin; now left | reflexivity]|].
  split; [exists (List.last (r0 :: l) r0); split; [now apply Hin | reflexivity]|].
  split; [|reflexivity].
  intros r Hr%Hin.
  change (Pd.index (r0 :: l)) with (fst r0 :: Pd.index l) in Hasc.
  pose proof (ascending_head _ _ Hasc) as Hh.
  pose proof (ascending_last _ _ (fst r0) Hasc) as Hl.
  rewrite List.Forall_forall in Hh, Hl.
  change (fst r0 :: Pd.index l) with (map fst (r0 :: l)) in Hh, Hl.
  rewrite (last_of_map fst) in Hl.
  split.
  - apply month_ord_mono; [apply Hv; now left | now apply Hv |].
    apply Hh, in_map, Hr.
  - apply month_ord_mono; [now apply Hv | now apply Hv |].
    apply Hl, in_map, Hr.
Qed.

Lemma map_const_seq {A : Type} (c : A) a n :
  map (fun _ : nat => c) (seq a n) = repeat c n.
Proof.
  revert a. induction n as [|n IH]; intros a; [reflexivity|].
  cbn [seq map repeat]. now rewrite IH.
Qed.

(** X3. In either mode the normaliser turns a frame with rows into a
    Monthly Series: its index is the run of month ends from the month of
    the earliest date to the month of the latest, every month once and
    none left out, its columns are those of the input, and a month
    without observations is a row of missing values. *)
Theorem monthlyize_monthly_index (df : DataFrame) (how : string) :
  Pd.empty df = false ->
  Forall (fun r => Cal.valid (fst r) = true) (rows df) ->
  exists out lo hi,
    monthlyize df how = Ok out /\
    columns out = columns df /\
    (exists r, In r (rows df) /\ Cal.month_ord (fst r) = lo) /\
    (exists r, In r (rows df) /\ Cal.month_ord (fst r) = hi) /\
    (forall r, In r (rows df) -> lo <= Cal.month_ord (fst r) <= hi) /\
    Pd.index (rows out) = map Cal.month_end (Pd.month_range lo hi) /\
    Spec.consecutive_month_ends (Pd.index (rows out)) = true /\
    Forall (fun r => length (snd r) = length (columns df)) (rows out) /\
    (forall o, lo <= o <= hi ->
               (forall r, In r (rows df) -> Cal.month_ord (fst r) <> o) ->
               In (Cal.month_end o, repeat F64.NaN (length (columns df))) (rows out)).
Proof.
  intros Hempty Hvalid.
  assert (Hne : rows df <> []).
  { unfold Pd.empty in Hempty. destruct (columns df), (rows df); congruence. }
  assert (Hagg : exists agg,
             agg [] = F64.NaN /\ monthlyize df how = Pd.resample_M agg df).
  { unfold monthlyize. rewrite Hempty. destruct (String.eqb how "mean").
    - now exists Pd.agg_mean.
    - now exists Pd.agg_last. }
  destruct Hagg as (agg & Hnil & ->).
  destruct (resample_M_rows agg df Hne Hvalid) as (lo & hi & Hlo & Hhi & Hrange & ->).
  eexists. exists lo, hi. split; [reflexivity|]. cbn [columns rows].
  split; [reflexivity|]. do 3 (split; [assumption|]).
  rewrite index_map. cbn [fst].
  split; [reflexivity|]. split; [|split].
  - unfold Pd.month_range. rewrite List.map_map. apply consecutive_month_range.
  - apply List.Forall_forall. intros r (o & <- & _)%in_map_iff. cbn [snd].
    now rewrite List.length_map, List.length_seq.
  - intros o Ho Hnone. apply in_map_iff. exists o.
    split; [|now apply elem_of_month_range].
    f_equal.
    assert (Hfil : List.filter (Pd.in_month o) (Pd.sort_rows (rows df)) = []).
    { apply filter_nil_iff. intros r Hr.
      apply (Permutation_in _ (sort_rows_perm (rows df))) in Hr.
      unfold Pd.in_month. apply Z.eqb_neq. now apply Hnone. }
    rewrite Hfil. cbn [Pd.column_at map]. rewrite Hnil. apply map_const_seq.
Qed.

Lemma monthlyize_monthly_index_witness :
  exists out lo hi,
    monthlyize Ex.daily_frame "mean" = Ok out /\
    columns out = columns Ex.daily_frame /\
    (exists r, In r (rows Ex.daily_frame) /\ Cal.month_ord (fst r) = lo) /\
    (exists r, In r (rows Ex.daily_frame) /\ Cal.month_ord (fst r) = hi) /\
    (forall r, In r (rows Ex.daily_frame) -> lo <= Cal.month_ord (fst r) <= hi) /\
    Pd.index (rows out) = map Cal.month_end (Pd.month_range lo hi) /\
    Spec.consecutive_month_ends (Pd.index (rows out)) = true /\
    Forall (fun r => length (snd r) = length (columns Ex.daily_frame)) (rows out) /\
    (forall o, lo <= o <= hi ->
               (forall r, In r (rows Ex.daily_frame) -> Cal.month_ord (fst r) <> o) ->
               In (Cal.month_end o, repeat F64.NaN (length (columns Ex.daily_frame)))
                  (rows out)).
Proof.
  apply (monthlyize_monthly_index Ex.daily_frame "mean"); [reflexivity|].
  repeat constructor.
Defined.

(** The normalised example: the mean of January leaves out the day
    without data, February and March are missing rows. *)
Lemma monthlyize_mean_example :
  monthlyize Ex.daily_frame "mean" =
  Ok (mkFrame ["value"]
        [(mkTs 2000 1 31, [Ex.f 4]); (mkTs 2000 2 29, [F64.NaN]);
         (mkTs 2000 3 31, [F64.NaN]); (mkTs 2000 4 30, [Ex.f 7])]).
Proof. vm_compute. reflexivity. Qed.

End MonthlyIndex.

Section Renormalise.

(** ** A Monthly Series under mode [last] *)

Lemma consecutive_month_ords t :
  forall a,
    Spec.consecutive_month_ends (a :: t) = true ->
    map Cal.month_ord (a :: t) =
    map (fun k => Cal.month_ord a + Z.of_nat k) (seq 0 (S (length t))).
Proof.
  induction t as [|b t IH]; intros a H.
  - cbn. f_equal. lia.
  - destruct (consecutive_step _ _ _ H) as (_ & _ & Hord).
    specialize (IH b (consecutive_tail _ _ H)).
    change (map Cal.month_ord (a :: b :: t))
      with (Cal.month_ord a :: map Cal.month_ord (b :: t)).
    rewrite IH. change (length (b :: t)) with (S (length t)).
    change (seq 0 (S (S (length t)))) with (0%nat :: seq 1 (S (length t))).
    rewrite <- List.seq_shift. cbn [map]. rewrite List.map_map.
    f_equal; [lia|]. apply List.map_ext. intros k. lia.
Qed.

Lemma month_range_of_consecutive (l : list (Timestamp * list float)) r0 :
  Spec.consecutive_month_ends (Pd.index (r0 :: l)) = true ->
  Pd.month_range (Cal.month_ord (fst r0))
                 (Cal.month_ord (fst (List.last (r0 :: l) r0))) =
  map Cal.month_ord (Pd.index (r0 :: l)).
Proof.
  change (Pd.index (r0 :: l)) with (fst r0 :: Pd.index l).
  intros H. pose proof (consecutive_month_ords _ _ H) as Hm.
  rewrite length_index in Hm.
  assert (Hlast : Cal.month_ord (fst (List.last (r0 :: l) r0)) =
                  Cal.month_ord (fst r0) + Z.of_nat (length l)).
  { rewrite <- (last_of_map fst), <- (last_of_map Cal.month_ord).
    change (map fst (r0 :: l)) with (fst r0 :: Pd.index l). rewrite Hm.
    rewrite List.seq_S, List.map_app. cbn [map]. rewrite List.last_last.
    reflexivity. }
  rewrite Hm, Hlast. unfold Pd.month_range. f_equal. f_equal. lia.
Qed.

Lemma consecutive_valid idx :
  Spec.consecutive_month_ends idx = true -> forallb Cal.valid idx = true.
Proof.
  induction idx as [|a t IH]; [reflexivity|]. intros H.
  simpl. rewrite (IH (consecutive_tail _ _ H)).
  simpl in H. rewrite !andb_true_iff in H. destruct H as [[-> _] _]. reflexivity.
Qed.

Lemma consecutive_months_NoDup (l : list (Timestamp * list float)) :
  Spec.consecutive_month_ends (Pd.index l) = true ->
  List.NoDup (map (fun r => Cal.month_ord (fst r)) l).
Proof.
  intros H. rewrite <- (List.map_map fst Cal.month_ord). fold (Pd.index l).
  destruct l as [|r0 l]; [constructor|].
  change (Pd.index (r0 :: l)) with (fst r0 :: Pd.index l) in *.
  rewrite (consecutive_month_ords _ _ H).
  apply Finite.Injective_map_NoDup; [|apply seq_NoDup].
  intros x y. lia.
Qed.

Lemma filter_in_month_unique (l : list (Timestamp * list float)) r :
  List.NoDup (map (fun r => Cal.month_ord (fst r)) l) ->
  In r l ->
  List.filter (Pd.in_month (Cal.month_ord (fst r))) l = [r].
Proof.
  induction l as [|a l IH]; intros Hnd Hin; [destruct Hin|].
  cbn [map] in Hnd. inversion Hnd as [|? ? Hnotin Hnd']; subst.
  cbn [List.filter]. unfold Pd.in_month at 1.
  destruct Hin as [<- | Hin].
  - rewrite Z.eqb_refl. f_equal. apply filter_nil_iff. intros x Hx.
    unfold Pd.in_month. apply Z.eqb_neq. intros E. apply Hnotin.
    rewrite <- E. now apply (in_map (fun r => Cal.month_ord (fst r))).
  - destruct (Z.eqb_spec (Cal.month_ord (fst a)) (Cal.month_ord (fst r))) as [E|_].
    + exfalso. apply Hnotin. rewrite E.
      now apply (in_map (fun r => Cal.month_ord (fst r))).
    + now apply IH.
Qed.

Lemma agg_last_single v : Pd.agg_last [v] = v.
Proof.
  unfold Pd.agg_last. cbn [fold_left].
  destruct (F64.isna v) eqn:E; [|reflexivity].
  symmetry. now apply isna_spec.
Qed.

(** A Monthly Series goes through mode [last] unchanged. *)
Lemma monthlyize_last_fixpoint (m : DataFrame) :
  Spec.is_monthly_series m ->
  Forall (fun r => length (snd r) = 1%nat) (rows m) ->
  monthlyize m "last" = Ok m.
Proof.
  destruct m as [cols l]. intros [Hcols Hidx] Hw. cbn [columns rows] in *. subst cols.
  unfold monthlyize, Pd.empty. cbn [columns rows].
  destruct l as [|r0 l]; [reflexivity|].
  change (String.eqb "last" "mean") with false. cbv iota.
  unfold Pd.resample_M. cbn [columns rows].
  rewrite (sort_rows_sorted _ (consecutive_increasing _ Hidx)).
  cbn [length seq map]. rewrite (month_range_of_consecutive _ _ Hidx).
  unfold Pd.index. rewrite !List.map_map. do 2 f_equal.
  etransitivity; [|apply List.map_id].
  apply List.map_ext_in. intros r Hr.
  rewrite (filter_in_month_unique _ r (consecutive_months_NoDup _ Hidx) Hr).
  cbn [Pd.column_at map]. rewrite agg_last_single.
  pose proof (consecutive_valid _ Hidx) as Hv.
  pose proof (consecutive_month_ends_all _ Hidx) as He.
  rewrite List.forallb_forall in Hv, He.
  specialize (Hv (fst r) (in_map fst _ _ Hr)).
  specialize (He (fst r) (in_map fst _ _ Hr)).
  rewrite List.Forall_forall in Hw. specialize (Hw r Hr).
  destruct r as [t cells]. cbn [fst snd] in *.
  destruct cells as [|v [|? ?]]; try discriminate Hw.
  rewrite (month_end_of_month_ord _ Hv). unfold Cal.is_month_end in He.
  apply Z.eqb_eq in He. rewrite <- He. now destruct t.
Qed.

(** X4. Mode [last] is idempotent on a one-column frame: normalising
    what it has returned returns the same frame. *)
Theorem monthlyize_last_idempotent (df out : DataFrame) :
  columns df = ["value"] ->
  Forall (fun r => Cal.valid (fst r) = true) (rows df) ->
  Forall (fun r => length (snd r) = 1%nat) (rows df) ->
  monthlyize df "last" = Ok out ->
  monthlyize out "last" = Ok out.
Proof.
  intros Hcols Hvalid Hw Hout.
  destruct (Pd.empty df) eqn:Hempty.
  - unfold monthlyize in Hout. rewrite Hempty in Hout. injection Hout as <-.
    unfold monthlyize. now rewrite Hempty.
  - assert (Hne : rows df <> []).
    { unfold Pd.empty in Hempty. destruct (columns df), (rows df); congruence. }
    unfold monthlyize in Hout. rewrite Hempty in Hout.
    change (String.eqb "last" "mean") with false in Hout. cbv iota in Hout.
    destruct (resample_M_rows Pd.agg_last df Hne Hvalid) as (lo & hi & _ & _ & _ & Hres).
    rewrite Hres in Hout. injection Hout as <-.
    apply monthlyize_last_fixpoint.
    + split; [exact Hcols|]. cbn [rows]. rewrite index_map. cbn [fst].
      unfold Pd.month_range. rewrite List.map_map. apply consecutive_month_range.
    + cbn [rows]. apply List.Forall_forall. intros r (o & <- & _)%in_map_iff.
      cbn [snd]. now rewrite List.length_map, List.length_seq, Hcols.
Qed.

Lemma monthlyize_last_idempotent_witness :
  monthlyize
    (mkFrame ["value"]
       [(mkTs 2000 1 31, [Ex.f 5]); (mkTs 2000 2 29, [F64.NaN]);
        (mkTs 2000 3 31, [F64.NaN]); (mkTs 2000 4 30, [Ex.f 7])]) "last"
  = Ok (mkFrame ["value"]
          [(mkTs 2000 1 31, [Ex.f 5]); (mkTs 2000 2 29, [F64.NaN]);
           (mkTs 2000 3 31, [F64.NaN]); (mkTs 2000 4 30, [Ex.f 7])]).
Proof.
  apply (monthlyize_last_idempotent Ex.daily_frame).
  - reflexivity.
  - repeat constructor.
  - repeat constructor.
  - vm_compute. reflexivity.
Defined.

End Renormalise.

(* ===================================================================== *)
(** * Derived Metric Calculator: every path *)
(* ===================================================================== *)

Section YoYPaths.

(** The series computed from a frame that has the column 'value'. *)
Lemma yoy_of_frame (base : DataFrame) :
  columns base = ["value"] ->
  exists out,
    rbind (Pd.getitem base "value")
          (fun col => Ok (mkSeries "CPI_YoY"
                            (obs (Pd.mul_scalar (Pd.pct_change 12 col) F64.f100))))
      = Ok out /\
    name out = "CPI_YoY" /\
    Pd.index (obs out) = Pd.index (rows base) /\
    forall i, (i < length (rows base))%nat ->
      nth i (Pd.values out) F64.NaN =
      Spec.percent_change
        (nth i (Pd.ffill (Pd.column_at 0 (rows base))) F64.NaN)
        (if (i <? 12)%nat then F64.NaN
         else nth (i - 12) (Pd.ffill (Pd.column_at 0 (rows base))) F64.NaN).
Proof.
  intros Hcols. unfold Pd.getitem. rewrite Hcols.
  cbn [Pd.position]. change (String.eqb "value" "value") with true. cbn [rbind].
  set (col := mkSeries "value" (map (fun r => (fst r, Pd.cell 0 r)) (rows base))).
  assert (Hvals : Pd.values col = Pd.column_at 0 (rows base)).
  { unfold Pd.values, col, Pd.column_at. cbn [obs]. now rewrite List.map_map. }
  assert (Hix : Pd.index (obs col) = Pd.index (rows base)).
  { unfold Pd.index, col. cbn [obs]. now rewrite List.map_map. }
  exists (mkSeries "CPI_YoY" (obs (Pd.mul_scalar (Pd.pct_change 12 col) F64.f100))).
  split; [reflexivity|]. split; [reflexivity|]. cbn [obs].
  split; [now rewrite index_yoy|].
  intros i Hi.
  change (Pd.values (mkSeries "CPI_YoY"
                       (obs (Pd.mul_scalar (Pd.pct_change 12 col) F64.f100))))
    with (Pd.values (Pd.mul_scalar (Pd.pct_change 12 col) F64.f100)).
  rewrite values_yoy, Hvals. apply nth_yoy.
  unfold Pd.column_at. now rewrite List.length_map.
Qed.

Lemma resample_M_columns agg df m :
  Pd.resample_M agg df = Ok m -> columns m = columns df.
Proof.
  unfold Pd.resample_M. destruct (Pd.sort_rows (rows df)); [discriminate|].
  now intros [= <-].
Qed.

(** X5. Whatever path the calculator takes, a result is named CPI_YoY,
    is keyed like the frame it was computed from (the input when its
    index is inferred as monthly, else the input normalised by mode
    [last]), and holds at every row the percent change between the padded
    value of the row and the padded value twelve rows earlier; so its
    first twelve entries are missing. *)
Theorem cpi_yoy_from_index_paths (df : DataFrame) (out : Series) :
  columns df = ["value"] ->
  cpi_yoy_from_index df = Ok out ->
  name out = "CPI_YoY" /\
  (forall i, (i < 12)%nat -> nth i (Pd.values out) F64.NaN = F64.NaN) /\
  exists base,
    (rows df = [] /\ base = df
     \/ (Pd.infer_freq (Pd.index (rows df)) = Ok Pd.Inf_M
         \/ Pd.infer_freq (Pd.index (rows df)) = Ok Pd.Inf_MS) /\ base = df
     \/ Pd.infer_freq (Pd.index (rows df)) = Ok Pd.Inf_other /\
        monthlyize df "last" = Ok base) /\
    Pd.index (obs out) = Pd.index (rows base) /\
    forall i, (i < length (rows base))%nat ->
      nth i (Pd.values out) F64.NaN =
      Spec.percent_change
        (nth i (Pd.ffill (Pd.column_at 0 (rows base))) F64.NaN)
        (if (i <? 12)%nat then F64.NaN
         else nth (i - 12) (Pd.ffill (Pd.column_at 0 (rows base))) F64.NaN).
Proof.
  intros Hcols Hout.
  assert (Hfinish : forall base,
             columns base = ["value"] ->
             rbind (Pd.getitem base "value")
                   (fun col => Ok (mkSeries "CPI_YoY"
                                     (obs (Pd.mul_scalar (Pd.pct_change 12 col) F64.f100))))
               = Ok out ->
             name out = "CPI_YoY" /\
             (forall i, (i < 12)%nat -> nth i (Pd.values out) F64.NaN = F64.NaN) /\
             Pd.index (obs out) = Pd.index (rows base) /\
             forall i, (i < length (rows base))%nat ->
               nth i (Pd.values out) F64.NaN =
               Spec.percent_change
                 (nth i (Pd.ffill (Pd.column_at 0 (rows base))) F64.NaN)
                 (if (i <? 12)%nat then F64.NaN
                  else nth (i - 12) (Pd.ffill (Pd.column_at 0 (rows base))) F64.NaN)).
  { intros base Hb Hyoy.
    destruct (yoy_of_frame base Hb) as (out' & Hout' & Hname & Hidx & Hval).
    rewrite Hyoy in Hout'. injection Hout' as <-.
    split; [exact Hname|]. split; [|split; assumption].
    intros i Hi.
    destruct (Nat.lt_ge_cases i (length (rows base))) as [Hlt|Hge].
    - rewrite (Hval i Hlt). destruct (Nat.ltb_spec i 12); [|lia].
      apply percent_change_NaN.
    - apply List.nth_overflow. unfold Pd.values. rewrite List.length_map.
      rewrite <- (length_index (obs out)), Hidx, length_index. exact Hge. }
  unfold cpi_yoy_from_index in Hout.
  destruct (Pd.empty df) eqn:Hempty.
  - injection Hout as <-.
    assert (Hrows : rows df = []).
    { unfold Pd.empty in Hempty. rewrite Hcols in Hempty.
      destruct (rows df); [reflexivity | discriminate]. }
    split; [reflexivity|]. split; [intros i _; now destruct i|].
    exists df. split; [now left|]. rewrite Hrows. split; [reflexivity|].
    intros i Hi. simpl in Hi. lia.
  - destruct (Pd.infer_freq (Pd.index (rows df))) as [[| |]|e] eqn:Hfreq;
      cbn [rbind] in Hout; try discriminate.
    + destruct (Hfinish df Hcols Hout) as (H1 & H2 & H3 & H4).
      split; [exact H1|]. split; [exact H2|]. exists df. split; [|auto].
      right. left. auto.
    + destruct (Hfinish df Hcols Hout) as (H1 & H2 & H3 & H4).
      split; [exact H1|]. split; [exact H2|]. exists df. split; [|auto].
      right. left. auto.
    + destruct (Pd.resample_M Pd.agg_last df) as [m|e] eqn:Hm;
        cbn [rbind] in Hout; try discriminate.
      assert (Hmc : columns m = ["value"])
        by (rewrite (resample_M_columns _ _ _ Hm); exact Hcols).
      destruct (Hfinish m Hmc Hout) as (H1 & H2 & H3 & H4).
      split; [exact H1|]. split; [exact H2|]. exists m. split; [|auto].
      right. right. split; [reflexivity|].
      unfold monthlyize. rewrite Hempty.
      change (String.eqb "last" "mean") with false. exact Hm.
Qed.

Lemma cpi_yoy_from_index_paths_witness :
  exists out,
    cpi_yoy_from_index Ex.daily_frame = Ok out /\
    name out = "CPI_YoY" /\
    (forall i, (i < 12)%nat -> nth i (Pd.values out) F64.NaN = F64.NaN) /\
    Pd.index (obs out) =
      [mkTs 2000 1 31; mkTs 2000 2 29; mkTs 2000 3 31; mkTs 2000 4 30].
Proof.
  destruct (cpi_yoy_from_index Ex.daily_frame) as [out|e] eqn:E;
    [|vm_compute in E; discriminate E].
  destruct (cpi_yoy_from_index_paths Ex.daily_frame out eq_refl E) as (Hn & H12 & _).
  exists out. split; [reflexivity|]. split; [exact Hn|]. split; [exact H12|].
  vm_compute in E. injection E as <-. reflexivity.
Defined.

End YoYPaths.

(* ===================================================================== *)
(** * Month-start dates and the KPI row *)
(* ===================================================================== *)

Section MonthStarts.

Lemma starts_tail a t :
  Spec.consecutive_month_starts (a :: t) = true ->
  Spec.consecutive_month_starts t = true.
Proof.
  simpl. destruct t as [|b t]; [reflexivity|].
  rewrite !andb_true_iff. tauto.
Qed.

Lemma starts_head a t :
  Spec.consecutive_month_starts (a :: t) = true ->
  Cal.valid a = true /\ day a = 1.
Proof.
  simpl. rewrite !andb_true_iff. unfold Cal.is_month_start.
  intros [[Hv Hd] _]. apply Z.eqb_eq in Hd. auto.
Qed.

Lemma starts_step a b t :
  Spec.consecutive_month_starts (a :: b :: t) = true ->
  Cal.valid a = true /\ Cal.valid b = true /\
  Cal.month_ord b = Cal.month_ord a + 1.
Proof.
  intros H. destruct (starts_head _ _ H) as [Ha _].
  destruct (starts_head _ _ (starts_tail _ _ H)) as [Hb _].
  simpl in H. rewrite !andb_true_iff in H.
  destruct H as [_ [Hord _]]. apply Z.eqb_eq in Hord. auto.
Qed.

Lemma starts_all idx :
  Spec.consecutive_month_starts idx = true ->
  Forall (fun t => Cal.valid t = true /\ day t = 1) idx.
Proof.
  induction idx as [|a t IH]; intros H; constructor.
  - exact (starts_head _ _ H).
  - exact (IH (starts_tail _ _ H)).
Qed.

Lemma starts_increasing idx :
  Spec.consecutive_month_starts idx = true -> Pd.strictly_increasing idx = true.
Proof.
  induction idx as [|a t IH]; [reflexivity|]. intros H.
  destruct t as [|b t]; [reflexivity|].
  destruct (starts_step _ _ _ H) as (Ha & Hb & Hord).
  change (Cal.ltb a b && Pd.strictly_increasing (b :: t) = true).
  rewrite (proj1 (next_month_later a b Ha Hb Hord)).
  apply IH. exact (starts_tail _ _ H).
Qed.

Lemma starts_deltas idx :
  Spec.consecutive_month_starts idx = true ->
  forallb (Z.eqb 1) (Pd.deltas (map Cal.month_ord idx)) = true.
Proof.
  induction idx as [|a t IH]; [reflexivity|]. intros H.
  destruct t as [|b t]; [reflexivity|].
  destruct (starts_step _ _ _ H) as (_ & _ & Hord).
  change (Pd.deltas (map Cal.month_ord (a :: b :: t)))
    with ((Cal.month_ord b - Cal.month_ord a) :: Pd.deltas (map Cal.month_ord (b :: t))).
  cbn [forallb]. rewrite (IH (starts_tail _ _ H)), andb_true_r.
  apply Z.eqb_eq. lia.
Qed.

Lemma month_start_not_end t :
  Cal.valid t = true -> day t = 1 -> Cal.is_month_end t = false.
Proof.
  intros _ Hd. unfold Cal.is_month_end. apply Z.eqb_neq.
  pose proof (days_in_month_pos (year t) (month t)). lia.
Qed.

(** A run of three month starts or more is recognised as "MS". *)
Lemma infer_freq_month_starts idx :
  Spec.consecutive_month_starts idx = true -> (3 <= length idx)%nat ->
  Pd.infer_freq idx = Ok Pd.Inf_MS.
Proof.
  intros H Hlen. unfold Pd.infer_freq.
  destruct (Nat.ltb_spec (length idx) 3) as [Hc|_]; [lia|].
  rewrite (starts_increasing _ H). cbn [orb negb].
  pose proof (starts_all _ H) as Hall.
  destruct idx as [|a [|b t]]; try (simpl in Hlen; lia).
  destruct (starts_step _ _ _ H) as (Ha & Hb & Hord).
  unfold Pd.month_position_check.
  assert (He : forallb Cal.is_month_end (a :: b :: t) = false).
  { cbn [forallb]. inversion Hall as [|? ? [Hv Hd] _]; subst.
    now rewrite (month_start_not_end a Hv Hd). }
  assert (Hs : forallb Cal.is_month_start (a :: b :: t) = true).
  { apply List.forallb_forall. intros x Hx. rewrite List.Forall_forall in Hall.
    destruct (Hall x Hx) as [_ Hd]. unfold Cal.is_month_start. now apply Z.eqb_eq. }
  rewrite He, Hs.
  assert (Hsame : Pd.all_same_month (a :: b :: t) = false).
  { simpl. destruct (Z.eqb_spec (month b) (month a)) as [E|_]; [|reflexivity].
    now destruct (next_month_later a b Ha Hb Hord). }
  assert (Hm : Pd.single_delta (map Cal.month_ord (a :: b :: t)) = Some 1).
  { pose proof (starts_deltas _ H) as Hd. unfold Pd.single_delta.
    change (Pd.deltas (map Cal.month_ord (a :: b :: t)))
      with ((Cal.month_ord b - Cal.month_ord a)
              :: Pd.deltas (map Cal.month_ord (b :: t))) in *.
    replace (Cal.month_ord b - Cal.month_ord a) with 1 in * by lia.
    cbn [forallb] in Hd. apply andb_true_iff in Hd as [_ Hd].
    cbv iota. now rewrite Hd. }
  rewrite Hm, Hsame.
  destruct (Pd.single_delta (map year (a :: b :: t))); reflexivity.
Qed.

Lemma getitem_index df c s :
  Pd.getitem df c = Ok s -> Pd.index (obs s) = Pd.index (rows df).
Proof.
  unfold Pd.getitem. destruct (Pd.position c (columns df)); [|discriminate].
  intros [= <-]. unfold Pd.index. cbn [obs]. now rewrite List.map_map.
Qed.

(** X6. When the index series is dated on the first of every month, as
    the API dates it, the year-over-year column stays on those dates
    while the index column moves to the month ends. No row of the panel
    then holds both, whatever the other two series are, and the KPI row
    shows the notice instead of the metrics. *)
Theorem month_start_cpi_hides_kpi
        (cpi_idx cpi_m0 unrate_m real10_m panel : DataFrame) (cpi_yoy : Series) :
  columns cpi_idx = ["value"] ->
  Spec.consecutive_month_starts (Pd.index (rows cpi_idx)) = true ->
  (3 <= length (rows cpi_idx))%nat ->
  monthlyize cpi_idx "last" = Ok cpi_m0 ->
  cpi_yoy_from_index cpi_idx = Ok cpi_yoy ->
  combine_monthly (Pd.rename cpi_m0 "value" "CPI") cpi_yoy unrate_m real10_m = Ok panel ->
  Pd.index (obs cpi_yoy) = Pd.index (rows cpi_idx) /\
  Forall (fun t => Cal.is_month_end t = true) (Pd.index (rows cpi_m0)) /\
  Forall (fun r => Spec.complete r = false) (rows panel) /\
  forall (w : World) (s : State) (p : ref),
    heap s !! p = Some panel ->
    kpi_row p w s =
    (Done tt, Spec.logged s [EvInfo "No data available yet for the selected period."]).
Proof.
  intros Hcols Hstarts Hlen Hm Hyoy Hpanel.
  assert (Hne : rows cpi_idx <> []) by (destruct (rows cpi_idx); [simpl in Hlen; lia | discriminate]).
  assert (Hempty : Pd.empty cpi_idx = false).
  { unfold Pd.empty. rewrite Hcols. destruct (rows cpi_idx); congruence. }
  assert (Hvalid : Forall (fun r => Cal.valid (fst r) = true) (rows cpi_idx)).
  { pose proof (starts_all _ Hstarts) as Hall. rewrite List.Forall_forall in *.
    intros r Hr. apply (Hall (fst r)), in_map, Hr. }
  (* the year-over-year keys *)
  assert (Hyidx : Pd.index (obs cpi_yoy) = Pd.index (rows cpi_idx)).
  { unfold cpi_yoy_from_index in Hyoy. rewrite Hempty in Hyoy.
    rewrite (infer_freq_month_starts _ Hstarts) in Hyoy
      by (rewrite length_index; exact Hlen).
    cbn [rbind] in Hyoy.
    destruct (yoy_of_frame cpi_idx Hcols) as (out' & Hout' & _ & Hidx & _).
    rewrite Hyoy in Hout'. injection Hout' as <-. exact Hidx. }
  (* the index keys *)
  assert (Hmidx : Forall (fun t => Cal.is_month_end t = true) (Pd.index (rows cpi_m0))).
  { unfold monthlyize in Hm. rewrite Hempty in Hm.
    change (String.eqb "last" "mean") with false in Hm. cbv iota in Hm.
    destruct (resample_M_rows Pd.agg_last cpi_idx Hne Hvalid)
      as (lo & hi & _ & _ & _ & Hres).
    rewrite Hres in Hm. injection Hm as <-. cbn [rows]. rewrite index_map.
    apply List.Forall_forall. intros t (o & <- & _)%in_map_iff.
    apply month_end_is_month_end. }
  (* the rows of the panel *)
  assert (Hrows : Forall (fun r => Spec.complete r = false) (rows panel)).
  { unfold combine_monthly in Hpanel.
    destruct (Pd.getitem (Pd.rename cpi_m0 "value" "CPI") "CPI") as [c|] eqn:Hc;
      [|discriminate].
    destruct (Pd.getitem unrate_m "Unemployment") as [u|] eqn:Hu; [|discriminate].
    destruct (Pd.getitem real10_m "Real10Y") as [r|] eqn:Hr; [|discriminate].
    cbn [rbind] in Hpanel.
    destruct (Pd.concat_axis1 [c; cpi_yoy; u; r]) as [joined|] eqn:Hj; [|discriminate].
    cbn [rbind] in Hpanel. injection Hpanel as <-.
    pose proof (getitem_index _ _ _ Hc) as Hcidx. cbn [Pd.rename rows] in Hcidx.
    assert (Hcu : Pd.is_unique (Pd.index (obs c)) = true).
    { apply NoDup_is_unique. rewrite Hcidx.
      unfold monthlyize in Hm. rewrite Hempty in Hm.
      change (String.eqb "last" "mean") with false in Hm. cbv iota in Hm.
      destruct (resample_M_rows Pd.agg_last cpi_idx Hne Hvalid)
        as (lo & hi & _ & _ & _ & Hres).
      rewrite Hres in Hm. injection Hm as <-. cbn [rows]. rewrite index_map.
      apply Finite.Injective_map_NoDup; [|apply NoDup_month_range].
      intros x y. apply month_end_inj. }
    assert (Hyu : Pd.is_unique (Pd.index (obs cpi_yoy)) = true).
    { apply NoDup_is_unique. rewrite Hyidx.
      apply strictly_increasing_NoDup, starts_increasing, Hstarts. }
    destruct (concat_axis1_columns _ _ Hj) as (_ & Hw & _).
    apply List.Forall_forall. intros row [Hrow _]%List.filter_In.
    pose proof (concat_axis1_cell _ _ row 0 c Hj Hrow eq_refl Hcu) as H0.
    pose proof (concat_axis1_cell _ _ row 1 cpi_yoy Hj Hrow eq_refl Hyu) as H1.
    rewrite List.Forall_forall in Hw. specialize (Hw row Hrow).
    destruct row as [t cells]. cbn [fst snd length] in *.
    destruct cells as [|x0 [|x1 cells]]; try discriminate Hw.
    unfold Pd.cell in H0, H1. cbn [snd nth] in H0, H1. subst x0 x1.
    unfold Spec.complete. cbn [snd forallb].
    destruct (Cal.is_month_end t) eqn:Hend.
    - rewrite (lookup_label_absent t (obs cpi_yoy)).
      + cbn. apply andb_false_r.
      + rewrite Hyidx. intros Hin.
        pose proof (starts_all _ Hstarts) as Hall. rewrite List.Forall_forall in Hall.
        destruct (Hall _ Hin) as [Hv Hd].
        rewrite (month_start_not_end _ Hv Hd) in Hend. discriminate.
    - rewrite (lookup_label_absent t (obs c)); [reflexivity|].
      rewrite Hcidx. intros Hin. rewrite List.Forall_forall in Hmidx.
      rewrite (Hmidx _ Hin) in Hend. discriminate. }
  split; [exact Hyidx|]. split; [exact Hmidx|]. split; [exact Hrows|].
  intros w s p Hp. unfold kpi_row, Run.bind, Run.read. rewrite Hp.
  unfold Pd.iloc_last, Pd.dropna_any. cbn [rows].
  change (fun r : Timestamp * list float => forallb F64.notna (snd r))
    with Spec.complete.
  rewrite (filter_none _ _ Hrows). reflexivity.
Qed.

Lemma month_start_cpi_hides_kpi_witness :
  exists cpi_m0 cpi_yoy panel,
    monthlyize Ex.cpi_month_starts "last" = Ok cpi_m0 /\
    cpi_yoy_from_index Ex.cpi_month_starts = Ok cpi_yoy /\
    combine_monthly (Pd.rename cpi_m0 "value" "CPI") cpi_yoy
                    Ex.unrate_frame Ex.real10_frame = Ok panel /\
    Forall (fun r => Spec.complete r = false) (rows panel) /\
    kpi_row 0%nat Ex.no_key_world (Ex.store_of panel) =
    (Done tt,
     Spec.logged (Ex.store_of panel)
                 [EvInfo "No data available yet for the selected period."]).
Proof.
  destruct (monthlyize Ex.cpi_month_starts "last") as [m|e] eqn:Em;
    [|vm_compute in Em; discriminate Em].
  destruct (cpi_yoy_from_index Ex.cpi_month_starts) as [y|e] eqn:Ey;
    [|vm_compute in Ey; discriminate Ey].
  destruct (combine_monthly (Pd.rename m "value" "CPI") y Ex.unrate_frame Ex.real10_frame)
    as [p|e] eqn:Ep.
  2:{ vm_compute in Em. injection Em as <-. vm_compute in Ey. injection Ey as <-.
      vm_compute in Ep. discriminate Ep. }
  destruct (month_start_cpi_hides_kpi Ex.cpi_month_starts m Ex.unrate_frame
              Ex.real10_frame p y eq_refl eq_refl ltac:(vm_compute; lia) Em Ey Ep)
    as (_ & _ & Hrows & Hkpi).
  exists m, y, p. repeat split; try assumption.
  apply Hkpi. unfold Ex.store_of. cbn [heap]. apply lookup_singleton_eq.
Defined.

End MonthStarts.

(* ===================================================================== *)
(** * Metric cards: the number shown *)
(* ===================================================================== *)

Section Rounding.

Lemma round_half_even_tie num den :
  0 < den ->
  2 * Z.abs (num - den * Fmt.round_half_even num den) = den ->
  Z.even (Fmt.round_half_even num den) = true.
Proof.
  intros Hd. unfold Fmt.round_half_even.
  pose proof (Z.div_mod num den ltac:(lia)) as Hdm.
  pose proof (Z.mod_pos_bound num den Hd) as Hr.
  destruct (Z.compare_spec (2 * (num mod den)) den) as [E|E|E].
  - destruct (Z.even (num / den)) eqn:Ev; intros _.
    + exact Ev.
    + rewrite Z.even_add, Ev. reflexivity.
  - intros H. exfalso. nia.
  - intros H. exfalso. nia.
Qed.

(** X7. The number on a metric card is the value in hundredths, rounded
    to the nearest integer and, half-way between two, to the even one:
    for a finite value [m * 2^e] the text is the hundredths [n] written
    with its sign, separators and two decimals, and [n] is within one
    half of [100 * m * 2^e]. *)
Theorem format_nearest_hundredth (x : float) (s : bool) (m : positive) (e : Z) :
  Prim2SF x = S754_finite s m e ->
  let n := Fmt.hundredths m e in
  Fmt.format_comma_2f x = Fmt.fixed2 s n /\
  0 <= n /\
  (0 <= e -> n = Z.pos m * 2 ^ e * 100) /\
  (e < 0 -> 2 * Z.abs (Z.pos m * 100 - 2 ^ (- e) * n) <= 2 ^ (- e)) /\
  (e < 0 -> 2 * Z.abs (Z.pos m * 100 - 2 ^ (- e) * n) = 2 ^ (- e) -> Z.even n = true).
Proof.
  intros Hx n. unfold Fmt.format_comma_2f. rewrite Hx.
  split; [reflexivity|]. split; [apply hundredths_nonneg|].
  unfold n, Fmt.hundredths. split; [|split].
  - intros He. now destruct (Z.leb_spec 0 e); [|lia].
  - intros He. destruct (Z.leb_spec 0 e); [lia|].
    apply round_half_even_nearest. apply Z.pow_pos_nonneg; lia.
  - intros He. destruct (Z.leb_spec 0 e); [lia|].
    apply round_half_even_tie. apply Z.pow_pos_nonneg; lia.
Qed.

Lemma format_nearest_hundredth_witness :
  Fmt.format_comma_2f (0.125)%float = "0.12" /\
  Fmt.format_comma_2f (0.375)%float = "0.38".
Proof.
  split.
  - destruct (format_nearest_hundredth (0.125)%float false 4503599627370496 (-55) eq_refl)
      as (H & _).
    exact H.
  - destruct (format_nearest_hundredth (0.375)%float false 6755399441055744 (-54) eq_refl)
      as (H & _).
    exact H.
Defined.

End Rounding.

(* ===================================================================== *)
(** * Network calls of a run *)
(* ===================================================================== *)

Section NetworkCalls.

Variable to_datetime : string -> option Timestamp.
Variable to_numeric : string -> float.
Variable date_error : list string -> string.

(** ** Computations that add no event of a kind *)

Lemma silent_bind {A B : Type} kind (m : M A) (k : A -> M B) :
  Spec.silent kind m -> (forall a, Spec.silent kind (k a)) ->
  Spec.silent kind (Run.bind m k).
Proof.
  intros Hm Hk w s o s'. unfold Run.bind.
  destruct (m w s) as [[a| |e] s1] eqn:E.
  - intros H. rewrite (Hk a _ _ _ _ H). exact (Hm _ _ _ _ E).
  - intros [= <- <-]. exact (Hm _ _ _ _ E).
  - intros [= <- <-]. exact (Hm _ _ _ _ E).
Qed.

Lemma silent_emit kind e : kind e = false -> Spec.silent kind (Run.emit e).
Proof.
  intros He w s o s' [= <- <-]. cbn [log].
  rewrite List.filter_app. cbn [List.filter]. rewrite He. apply List.app_nil_r.
Qed.

Lemma silent_ret {A : Type} kind (a : A) : Spec.silent kind (Run.ret a).
Proof. now intros w s o s' [= <- <-]. Qed.

Lemma silent_lift {A : Type} kind (r : result A) : Spec.silent kind (Run.lift r).
Proof. destruct r; now intros w s o s' [= <- <-]. Qed.

Lemma silent_read kind r : Spec.silent kind (Run.read r).
Proof.
  intros w s o s'. unfold Run.read. destruct (heap s !! r); now intros [= <- <-].
Qed.

Lemma silent_alloc kind df : Spec.silent kind (Run.alloc df).
Proof. now intros w s o s' [= <- <-]. Qed.

Lemma silent_modify kind r g : Spec.silent kind (Run.modify r g).
Proof.
  intros w s o s'. unfold Run.modify. destruct (heap s !! r); now intros [= <- <-].
Qed.

Lemma silent_for_each {A : Type} kind (l : list A) (body : A -> M unit) :
  (forall a, Spec.silent kind (body a)) -> Spec.silent kind (Run.for_each l body).
Proof.
  intros Hb. induction l as [|a l IH]; cbn [Run.for_each].
  - apply silent_ret.
  - apply silent_bind; [apply Hb | intros _; exact IH].
Qed.

Ltac silent_steps :=
  repeat first
    [ apply silent_ret
    | apply silent_lift
    | apply silent_read
    | apply silent_alloc
    | apply silent_modify
    | apply silent_emit; reflexivity
    | apply silent_bind; [|intros ?]
    | apply silent_for_each; intros ? ].

(** The sections after the data make no network call. *)
Lemma present_makes_no_call fr b :
  Spec.silent Spec.is_network_call (present fr b).
Proof.
  unfold present, make_display_df, smooth_column, kpi_row, charts, chart,
    download, metric_card, line_chart.
  silent_steps.
  - destruct b; silent_steps.
  - destruct (Pd.iloc_last _); silent_steps.
  - destruct (Pd.empty _ || _); silent_steps.
  - destruct (Pd.empty _ || _); silent_steps.
  - destruct (Pd.empty _ || _); silent_steps.
Qed.

(** ** The requests of the data section *)

Lemma fetch_fred_log api_key series_id start w s o s' :
  fetch_fred to_datetime to_numeric date_error api_key series_id start w s = (o, s') ->
  log s' = (log s ++ [EvHttpGet (fetch_request api_key series_id start)])%list.
Proof.
  unfold fetch_fred, Run.bind, Run.emit, Run.ask. cbn [log heap next_ref].
  destruct (http w _) as [|code js]; [now intros [= <- <-]|].
  destruct ((400 <=? code) && (code <? 600)); [now intros [= <- <-]|].
  destruct js as [|obs]; [now intros [= <- <-]|].
  destruct (observations_frame to_datetime to_numeric date_error (default [] obs));
    now intros [= <- <-].
Qed.

Lemma fetch_data_log api_key start_date w s fr s1 :
  fetch_data to_datetime to_numeric date_error api_key start_date w s = (Done fr, s1) ->
  log s1 = (log s ++ [EvSpinner "Fetching data from FRED…";
                      EvHttpGet (fetch_request api_key "CPIAUCSL" start_date);
                      EvHttpGet (fetch_request api_key "UNRATE" start_date);
                      EvHttpGet (fetch_request api_key "DFII10" start_date)])%list.
Proof.
  unfold fetch_data. intros H.
  apply bind_done_inv in H as (? & s0 & [= <- <-] & H).
  apply bind_done_inv in H as (cpi_idx & sa & Hla%fetch_fred_log & H).
  apply bind_done_inv in H as (cpi_m0 & ? & [_ ->]%lift_done_inv & H).
  apply bind_done_inv in H as (r1 & ? & [= <- <-] & H).
  apply bind_done_inv in H as (cpi_yoy & ? & [_ ->]%lift_done_inv & H).
  apply bind_done_inv in H as (unrate & sb & Hlb%fetch_fred_log & H).
  apply bind_done_inv in H as (unrate_m0 & ? & [_ ->]%lift_done_inv & H).
  apply bind_done_inv in H as (r2 & ? & [= <- <-] & H).
  apply bind_done_inv in H as (real10 & sc & Hlc%fetch_fred_log & H).
  apply bind_done_inv in H as (real10_m0 & ? & [_ ->]%lift_done_inv & H).
  apply bind_done_inv in H as (r3 & ? & [= <- <-] & H).
  apply bind_done_inv in H as (c & ? & [_ ->]%read_done_inv & H).
  apply bind_done_inv in H as (u & ? & [_ ->]%read_done_inv & H).
  apply bind_done_inv in H as (r & ? & [_ ->]%read_done_inv & H).
  apply bind_done_inv in H as (panel0 & ? & [_ ->]%lift_done_inv & H).
  apply bind_done_inv in H as (r4 & ? & [= <- <-] & H).
  injection H as <- <-. cbn [log heap next_ref] in *.
  rewrite Hlc, Hlb, Hla. now rewrite <- !List.app_assoc.
Qed.

(** X8. A completed run has made exactly three requests, in this order:
    the index, the rate and the yield series, each to the observations
    endpoint with the credential, JSON as the format, the start date of
    the sidebar and a timeout of 30. *)
Theorem completed_run_requests (w : World) (s' : State) :
  macro_dashboard to_datetime to_numeric date_error w initial = (Done tt, s') ->
  let api_key := default "" (secrets w !! "FRED_API_KEY") in
  let start := Fmt.strftime_ymd (date_input w) in
  let get series_id :=
    EvHttpGet (mkRequest "https://api.stlouisfed.org/fred/series/observations"
                         [("series_id", series_id); ("api_key", api_key);
                          ("file_type", "json"); ("observation_start", start)]
                         30) in
  api_key <> "" /\
  Spec.network_calls (log s') = [get "CPIAUCSL"; get "UNRATE"; get "DFII10"].
Proof.
  destruct w as [sec di b h]. cbn [secrets date_input]. intros Hrun.
  rewrite macro_dashboard_unfold in Hrun.
  destruct (bool_decide (sec = None)); [discriminate|].
  destruct (String.eqb_spec (default "" (sec !! "FRED_API_KEY")) "") as [|Hkey];
    [discriminate|].
  destruct (fetch_data _ _ _ _ _ _ _) as [[fr| |e] s3] eqn:Hfetch; try discriminate.
  split; [exact Hkey|].
  unfold Spec.network_calls.
  rewrite (present_makes_no_call fr b _ _ _ _ Hrun).
  rewrite (fetch_data_log _ _ _ _ _ _ Hfetch). reflexivity.
Qed.

(** X9. When the API answers the first request with a status from 400
    to 599, the run ends there with that error: one request was made,
    nothing is kept in the store, no metric is shown and nothing is
    exported. *)
Theorem failed_fetch_aborts_run (w : World) (key : string) (code : Z) (js : Payload) :
  secrets w !! "FRED_API_KEY" = Some key ->
  key <> "" ->
  http w (fetch_request key "CPIAUCSL" (Fmt.strftime_ymd (date_input w)))
    = Response code js ->
  400 <= code < 600 ->
  exists s',
    macro_dashboard to_datetime to_numeric date_error w initial = (Raised (HTTPError code), s') /\
    Spec.network_calls (log s') =
      [EvHttpGet (fetch_request key "CPIAUCSL" (Fmt.strftime_ymd (date_input w)))] /\
    heap s' = ∅ /\
    List.filter Spec.is_metric (log s') = [] /\
    Spec.downloads (log s') = [].
Proof.
  destruct w as [sec di b h]. cbn [secrets date_input http].
  intros Hsec Hkey Hresp Hcode.
  destruct sec as [store|]; [|discriminate Hsec].
  rewrite macro_dashboard_unfold, Hsec. cbn [default from_option id].
  change (bool_decide (Some store = None)) with false. cbv iota.
  destruct (String.eqb_spec key "") as [|_]; [contradiction|].
  unfold fetch_data. unfold Run.bind at 1, Run.emit at 1.
  unfold Run.bind at 1. unfold fetch_fred at 1.
  unfold Run.bind at 1 2, Run.emit at 1, Run.ask at 1.
  cbn [log heap next_ref http]. rewrite Hresp.
  replace ((400 <=? code) && (code <? 600)) with true
    by (symmetry; apply andb_true_iff; rewrite Z.leb_le, Z.ltb_lt; lia).
  unfold Run.raise. eexists. split; [reflexivity|]. cbn [log heap].
  repeat split.
Qed.

End NetworkCalls.

Lemma completed_run_requests_witness :
  Spec.network_calls
    (log (snd (macro_dashboard Api.iso_date Api.numeral Api.date_error Ex.young_world initial))) =
  [EvHttpGet (fetch_request "k" "CPIAUCSL" "2000-01-01");
   EvHttpGet (fetch_request "k" "UNRATE" "2000-01-01");
   EvHttpGet (fetch_request "k" "DFII10" "2000-01-01")].
Proof.
  destruct (completed_run_requests Api.iso_date Api.numeral Api.date_error Ex.young_world
              (snd (macro_dashboard Api.iso_date Api.numeral Api.date_error Ex.young_world initial)))
    as [_ H].
  - vm_compute. reflexivity.
  - exact H.
Defined.

Lemma failed_fetch_aborts_run_witness :
  exists s',
    macro_dashboard Api.iso_date Api.numeral Api.date_error Ex.down_world initial
      = (Raised (HTTPError 503), s') /\
    Spec.network_calls (log s') =
      [EvHttpGet (fetch_request "k" "CPIAUCSL" "2000-01-01")] /\
    heap s' = ∅ /\
    List.filter Spec.is_metric (log s') = [] /\
    Spec.downloads (log s') = [].
Proof.
  apply (failed_fetch_aborts_run Api.iso_date Api.numeral Api.date_error Ex.down_world "k" 503
                                 (JsonObject (Some Ex.unsorted_obs)));
    [reflexivity | discriminate | reflexivity | lia].
Defined.

(* ===================================================================== *)
(** * The panel as a data structure *)
(* ===================================================================== *)

Section PanelInvariants.

Lemma in_index_filter {A : Type} (p : Timestamp * A -> bool) l t :
  In t (Pd.index (List.filter p l)) -> In t (Pd.index l).
Proof.
  unfold Pd.index. intros (r & <- & [Hr _]%List.filter_In)%in_map_iff. now apply in_map.
Qed.

Lemma NoDup_index_filter {A : Type} (p : Timestamp * A -> bool) l :
  List.NoDup (Pd.index l) -> List.NoDup (Pd.index (List.filter p l)).
Proof.
  induction l as [|r l IH]; intros Hnd; [constructor|].
  cbn [Pd.index map] in Hnd. inversion Hnd as [|? ? Hnot Hnd']; subst.
  cbn [List.filter]. destruct (p r); [|now apply IH].
  cbn [Pd.index map]. constructor; [|now apply IH].
  intros Hin. apply Hnot. exact (in_index_filter p l _ Hin).
Qed.

Lemma increasing_index_filter {A : Type} (p : Timestamp * A -> bool) l :
  Pd.strictly_increasing (Pd.index l) = true ->
  Pd.strictly_increasing (Pd.index (List.filter p l)) = true.
Proof.
  induction l as [|r l IH]; intros Hl; [reflexivity|].
  change (Pd.index (r :: l)) with (fst r :: Pd.index l) in Hl.
  destruct (strictly_increasing_cons _ _ Hl) as [Hl' Hall].
  cbn [List.filter]. destruct (p r); [|now apply IH].
  change (Pd.strictly_increasing (fst r :: Pd.index (List.filter p l)) = true).
  apply strictly_increasing_intro; [now apply IH|].
  destruct (Pd.index (List.filter p l)) as [|b rest] eqn:E; [exact I|].
  assert (Hb : In b (Pd.index (List.filter p l))) by (rewrite E; now left).
  apply in_index_filter in Hb. rewrite List.Forall_forall in Hall. now apply Hall.
Qed.

(** X10. A panel that is combined has the four columns of the script in
    their order, four cells in every row, and in every row at least one
    cell that is not missing. When no input repeats a date, the panel
    repeats none; when every input has rows and ascending dates, the
    dates of the panel ascend. (With an input without rows the dates
    keep the order of their first appearance.) *)
Theorem combine_monthly_invariants
        (cpi_m : DataFrame) (cpi_yoy : Series) (unrate_m real10_m panel : DataFrame) :
  name cpi_yoy = "CPI_YoY" ->
  combine_monthly cpi_m cpi_yoy unrate_m real10_m = Ok panel ->
  let inputs := [Pd.index (rows cpi_m); Pd.index (obs cpi_yoy);
                 Pd.index (rows unrate_m); Pd.index (rows real10_m)] in
  columns panel = ["CPI"; "CPI_YoY"; "Unemployment"; "Real10Y"] /\
  Forall (fun r => length (snd r) = 4%nat) (rows panel) /\
  Forall (fun r => existsb F64.notna (snd r) = true) (rows panel) /\
  (Forall (@List.NoDup Timestamp) inputs -> List.NoDup (Pd.index (rows panel))) /\
  (Forall (fun idx => idx <> [] /\ Pd.strictly_increasing idx = true) inputs ->
   Pd.strictly_increasing (Pd.index (rows panel)) = true).
Proof.
  intros Hname Hpanel inputs.
  destruct (combine_monthly_panel _ _ _ _ _ Hname Hpanel) as [Hcols Hw].
  split; [exact Hcols|]. split; [exact Hw|].
  unfold combine_monthly in Hpanel.
  destruct (Pd.getitem cpi_m "CPI") as [c|] eqn:Hc; [|discriminate].
  destruct (Pd.getitem unrate_m "Unemployment") as [u|] eqn:Hu; [|discriminate].
  destruct (Pd.getitem real10_m "Real10Y") as [r|] eqn:Hr; [|discriminate].
  cbn [rbind] in Hpanel.
  destruct (Pd.concat_axis1 _) as [joined|] eqn:Hj; [|discriminate].
  cbn [rbind] in Hpanel. injection Hpanel as <-.
  destruct (concat_axis1_columns _ _ Hj) as (_ & _ & Hidx).
  cbn [map] in Hidx.
  rewrite (getitem_index _ _ _ Hc), (getitem_index _ _ _ Hu), (getitem_index _ _ _ Hr)
    in Hidx. fold inputs in Hidx.
  unfold Pd.dropna_all. cbn [rows]. split; [|split].
  - apply List.Forall_forall. intros row Hrow. now apply List.filter_In in Hrow.
  - intros Hnd. apply NoDup_index_filter. rewrite Hidx.
    now apply union_indexes_unique.
  - intros Hs. apply increasing_index_filter. rewrite Hidx.
    now apply union_indexes_sorted.
Qed.

Lemma combine_monthly_invariants_witness :
  exists panel,
    combine_monthly Ex.cpi_frame Ex.yoy_series Ex.unrate_frame Ex.real10_frame
      = Ok panel /\
    columns panel = ["CPI"; "CPI_YoY"; "Unemployment"; "Real10Y"] /\
    Forall (fun r => length (snd r) = 4%nat) (rows panel) /\
    Forall (fun r => existsb F64.notna (snd r) = true) (rows panel) /\
    List.NoDup (Pd.index (rows panel)) /\
    Pd.strictly_increasing (Pd.index (rows panel)) = true.
Proof.
  destruct (combine_monthly Ex.cpi_frame Ex.yoy_series Ex.unrate_frame Ex.real10_frame)
    as [p|e] eqn:E; [|vm_compute in E; discriminate E].
  exists p. split; [reflexivity|].
  destruct (combine_monthly_invariants _ Ex.yoy_series _ _ _ eq_refl E)
    as (Hc & Hw & Hp & Hn & Hs).
  split; [exact Hc|]. split; [exact Hw|]. split; [exact Hp|]. split.
  - apply Hn. repeat constructor; simpl; intuition discriminate.
  - apply Hs. repeat constructor; discriminate.
Defined.

(** ** Charts of a short panel *)

Lemma chart_of_missing_column (D : DataFrame) (d : ref) (w : World) (s : State)
      (heading col title : string) (k : nat) :
  heap s !! d = Some D ->
  Pd.position col (columns D) = Some k ->
  Forall (fun r => F64.isna (Pd.cell k r) = true) (rows D) ->
  chart d heading col title w s =
  (Done tt,
   Spec.logged s [EvSubheader heading;
                  EvInfo ("No data to display for **" ++ title ++ "**.")]).
Proof.
  intros Hd Hpos Hmiss.
  unfold chart, Run.bind at 1, Run.emit. unfold Run.bind at 1, Run.read.
  cbn [log heap next_ref]. rewrite Hd.
  unfold Pd.getitem_list. rewrite Hpos. unfold Run.bind, Run.lift, Run.ret.
  unfold line_chart, Pd.dropna_any. cbn [columns rows].
  assert (Hnone : List.filter (fun r : Timestamp * list float => forallb F64.notna (snd r))
                              (map (fun r => (fst r, [Pd.cell k r])) (rows D)) = []).
  { apply filter_nil_iff. intros r (r' & <- & Hr')%in_map_iff. cbn [snd forallb].
    rewrite List.Forall_forall in Hmiss. unfold F64.notna.
    now rewrite (Hmiss r' Hr'). }
  rewrite Hnone. cbn [Pd.empty columns rows orb].
  unfold Run.emit, Spec.logged. cbn [log heap next_ref].
  now rewrite <- List.app_assoc.
Qed.

(** X11. A chart section writes its heading and then either the plot or
    the notice. The plot holds exactly the rows of the displayed frame
    whose value in the charted column is not missing, in their order,
    with that one column; the notice is shown when no row has a value. *)
Theorem chart_plots_present_values (D : DataFrame) (d : ref) (w : World) (s : State)
        (heading col title : string) (k : nat) :
  heap s !! d = Some D ->
  Pd.position col (columns D) = Some k ->
  let present := List.filter (fun r => F64.notna (Pd.cell k r)) (rows D) in
  chart d heading col title w s =
  (Done tt,
   Spec.logged s
     [EvSubheader heading;
      match present with
      | [] => EvInfo ("No data to display for **" ++ title ++ "**.")
      | _ => EvPlotly title "%" col
                      (mkFrame [col] (map (fun r => (fst r, [Pd.cell k r])) present))
      end]).
Proof.
  intros Hd Hpos present.
  unfold chart, Run.bind at 1, Run.emit. unfold Run.bind at 1, Run.read.
  cbn [log heap next_ref]. rewrite Hd.
  unfold Pd.getitem_list. rewrite Hpos. unfold Run.bind, Run.lift, Run.ret.
  unfold line_chart, Pd.dropna_any. cbn [columns rows].
  assert (Hf : List.filter (fun r : Timestamp * list float => forallb F64.notna (snd r))
                           (map (fun r => (fst r, [Pd.cell k r])) (rows D)) =
               map (fun r => (fst r, [Pd.cell k r])) present).
  { unfold present. induction (rows D) as [|r rs IH]; [reflexivity|].
    cbn [map List.filter snd forallb]. rewrite Bool.andb_true_r.
    destruct (F64.notna (Pd.cell k r)); cbn [map]; now rewrite IH. }
  rewrite Hf.
  assert (Hin : bool_decide (col ∈ [col]) = true)
    by (apply bool_decide_eq_true; apply list_elem_of_singleton; reflexivity).
  rewrite Hin. cbn [negb].
  destruct present as [|r rs]; cbn [map Pd.empty columns rows orb];
    unfold Run.emit, Spec.logged; cbn [log heap next_ref];
    now rewrite <- List.app_assoc.
Qed.

Lemma chart_plots_present_values_witness :
  let D := mkFrame ["CPI"; "CPI_YoY"]
                   [(mkTs 2000 1 31, [Ex.f 1; F64.NaN]); (mkTs 2000 2 29, [Ex.f 2; Ex.f 3])] in
  chart 0%nat "h" "CPI_YoY" "t" Ex.young_world (mkState [] {[ 0%nat := D ]} 1%nat) =
  (Done tt,
   mkState [EvSubheader "h";
            EvPlotly "t" "%" "CPI_YoY" (mkFrame ["CPI_YoY"] [(mkTs 2000 2 29, [Ex.f 3])])]
           {[ 0%nat := D ]} 1%nat).
Proof.
  intros D.
  exact (chart_plots_present_values D 0%nat Ex.young_world
           (mkState [] {[ 0%nat := D ]} 1%nat) "h" "CPI_YoY" "t" 1%nat
           (lookup_singleton_eq _ _) eq_refl).
Defined.

(** X12. With smoothing on, a panel of fewer than three rows gives no
    chart: every smoothed cell is missing, and each of the three chart
    sections shows the notice that there is no data. *)
Theorem short_panel_has_no_smoothed_chart (w : World) (s : State) (p : ref)
        (P : DataFrame) :
  heap s !! p = Some P ->
  Spec.frame_wf P -> Spec.is_panel P ->
  (length (rows P) < 3)%nat ->
  exists s1,
    make_display_df p true w s = (Done (next_ref s), s1) /\
    charts (next_ref s) w s1 =
    (Done tt,
     Spec.logged s1
       [EvSubheader "CPI — Year‑over‑Year (%)";
        EvInfo "No data to display for **CPI YoY (computed from CPIAUCSL)**.";
        EvSubheader "Unemployment Rate (%)";
        EvInfo "No data to display for **Unemployment Rate (UNRATE)**.";
        EvSubheader "Real Rates — 10Y TIPS Real Yield (%)";
        EvInfo "No data to display for **10‑Year Real Yield (DFII10 monthly average)**."]).
Proof.
  intros Hp Hwf [Hcols Hw] Hshort.
  destruct (smooth_columns_cells P Hwf) as (HDcols & HDidx & Hcells).
  set (D := Spec.smooth_columns P (columns P)) in *.
  eexists. split; [exact (make_display_df_run w s p P true Hp)|].
  cbv iota. fold D.
  set (s1 := mkState _ _ _).
  assert (Hd : forall evs, heap (Spec.logged s1 evs) !! next_ref s = Some D).
  { intros evs. unfold Spec.logged, s1. cbn [heap]. apply lookup_insert_eq. }
  assert (Hd0 : heap s1 !! next_ref s = Some D)
    by (unfold s1; cbn [heap]; apply lookup_insert_eq).
  assert (Hlen : length (rows D) = length (rows P))
    by (rewrite <- !length_index; now rewrite HDidx).
  assert (Hmiss : forall k, (k < 4)%nat ->
                            Forall (fun r => F64.isna (Pd.cell k r) = true) (rows D)).
  { intros k Hk. apply List.Forall_forall. intros r Hr.
    destruct (List.In_nth _ _ Spec.no_row Hr) as (i & Hi & <-).
    rewrite Hcells by (rewrite ?Hcols; simpl; lia).
    unfold Spec.trailing_mean3.
    destruct (Nat.ltb_spec i 2); [reflexivity | lia]. }
  assert (P1 : Pd.position "CPI_YoY" (columns D) = Some 1%nat)
    by (now rewrite HDcols, Hcols).
  assert (P2 : Pd.position "Unemployment" (columns D) = Some 2%nat)
    by (now rewrite HDcols, Hcols).
  assert (P3 : Pd.position "Real10Y" (columns D) = Some 3%nat)
    by (now rewrite HDcols, Hcols).
  assert (M1 := Hmiss 1%nat ltac:(lia)).
  assert (M2 := Hmiss 2%nat ltac:(lia)).
  assert (M3 := Hmiss 3%nat ltac:(lia)).
  unfold charts. unfold Run.bind at 1.
  rewrite (chart_of_missing_column D _ w s1 _ _ _ _ Hd0 P1 M1).
  unfold Run.bind at 1.
  rewrite (chart_of_missing_column D _ w _ _ _ _ _ (Hd _) P2 M2).
  rewrite logged_logged.
  rewrite (chart_of_missing_column D _ w _ _ _ _ _ (Hd _) P3 M3).
  now rewrite !logged_logged.
Qed.

End PanelInvariants.

Lemma short_panel_has_no_smoothed_chart_witness :
  let P := mkFrame (columns Ex.kpi_panel) (firstn 2 (rows Ex.kpi_panel)) in
  exists s1,
    make_display_df 0%nat true Ex.young_world (Ex.store_of P) = (Done 1%nat, s1) /\
    charts 1%nat Ex.young_world s1 =
    (Done tt,
     Spec.logged s1
       [EvSubheader "CPI — Year‑over‑Year (%)";
        EvInfo "No data to display for **CPI YoY (computed from CPIAUCSL)**.";
        EvSubheader "Unemployment Rate (%)";
        EvInfo "No data to display for **Unemployment Rate (UNRATE)**.";
        EvSubheader "Real Rates — 10Y TIPS Real Yield (%)";
        EvInfo "No data to display for **10‑Year Real Yield (DFII10 monthly average)**."]).
Proof.
  intros P.
  apply (short_panel_has_no_smoothed_chart Ex.young_world (Ex.store_of P) 0%nat P).
  - reflexivity.
  - split; [|split]; repeat constructor; simpl; intuition discriminate.
  - split; [reflexivity|]. repeat constructor.
  - simpl. lia.
Defined.

(* ===================================================================== *)
(** * Which runs complete *)
(* ===================================================================== *)

Section Completion.

Variable to_datetime : string -> option Timestamp.
Variable to_numeric : string -> float.
Variable date_error : list string -> string.

Lemma bind_done {A B : Type} (m : M A) (k : A -> M B) w s a s1 :
  m w s = (Done a, s1) -> Run.bind m k w s = k a w s1.
Proof. intros H. unfold Run.bind. now rewrite H. Qed.

Lemma read_ok r w s df :
  heap s !! r = Some df -> Run.read r w s = (Done df, s).
Proof. intros H. unfold Run.read. now rewrite H. Qed.

(** ** Unique labels *)

Lemma strictly_decreasing_cons a l :
  Pd.strictly_decreasing (a :: l) = true ->
  Pd.strictly_decreasing l = true /\ Forall (fun b => Cal.ltb b a = true) l.
Proof.
  revert a. induction l as [|b l IH]; intros a H.
  - split; [reflexivity | constructor].
  - simpl in H. apply andb_true_iff in H as [Hab Hl].
    split; [exact Hl|]. constructor; [exact Hab|].
    destruct (IH b Hl) as [_ Hall].
    eapply List.Forall_impl; [|exact Hall].
    intros c Hc. cbv beta in *. now apply (ltb_trans c b a).
Qed.

Lemma strictly_decreasing_NoDup l :
  Pd.strictly_decreasing l = true -> List.NoDup l.
Proof.
  induction l as [|a l IH]; intros H; [constructor|].
  destruct (strictly_decreasing_cons _ _ H) as [Hl Hall].
  constructor; [|now apply IH].
  intros Hin. rewrite List.Forall_forall in Hall.
  specialize (Hall a Hin). now rewrite ltb_irrefl in Hall.
Qed.

Lemma monotonic_is_unique l :
  Pd.strictly_increasing l || Pd.strictly_decreasing l = true ->
  Pd.is_unique l = true.
Proof.
  intros [H|H]%orb_true_iff; apply NoDup_is_unique;
    [now apply strictly_increasing_NoDup | now apply strictly_decreasing_NoDup].
Qed.

(** ** The steps that cannot fail *)

Lemma infer_freq_total idx :
  (3 <= length idx)%nat ->
  exists f,
    Pd.infer_freq idx = Ok f /\
    (f <> Pd.Inf_other ->
     Pd.strictly_increasing idx || Pd.strictly_decreasing idx = true).
Proof.
  intros H. unfold Pd.infer_freq.
  destruct (Nat.ltb_spec (length idx) 3) as [|_]; [lia|].
  destruct (Pd.strictly_increasing idx || Pd.strictly_decreasing idx); cbn [negb].
  2: { eexists. split; [reflexivity|]. congruence. }
  cbv zeta.
  repeat match goal with
         | |- context [match ?x with _ => _ end] => destruct x
         end;
    eexists; (split; [reflexivity|]); intros; reflexivity.
Qed.

Lemma resample_M_total agg df :
  rows df <> [] ->
  exists m,
    Pd.resample_M agg df = Ok m /\ columns m = columns df /\
    List.NoDup (Pd.index (rows m)).
Proof.
  intros Hne. unfold Pd.resample_M.
  destruct (Pd.sort_rows (rows df)) as [|r0 l] eqn:E.
  - exfalso. apply Hne. apply Permutation_nil. rewrite <- E.
    apply sort_rows_perm.
  - cbv zeta. eexists. split; [reflexivity|]. cbn [columns rows]. split; [reflexivity|].
    unfold Pd.index. rewrite List.map_map. cbn [fst].
    apply Finite.Injective_map_NoDup; [|apply NoDup_month_range].
    intros x y. apply month_end_inj.
Qed.

Lemma monthlyize_total df how :
  columns df = ["value"] ->
  exists m,
    monthlyize df how = Ok m /\ columns m = ["value"] /\
    List.NoDup (Pd.index (rows m)).
Proof.
  intros Hc. unfold monthlyize, Pd.empty. rewrite Hc.
  destruct (rows df) as [|r l] eqn:E.
  - exists df. rewrite E. repeat split; [exact Hc | constructor].
  - destruct (resample_M_total Pd.agg_mean df) as (m1 & H1 & Hm1 & Hn1); [congruence|].
    destruct (resample_M_total Pd.agg_last df) as (m2 & H2 & Hm2 & Hn2); [congruence|].
    destruct (String.eqb how "mean"); eexists; (split; [eassumption|]); split;
      congruence || assumption.
Qed.

Lemma getitem_single df c :
  columns df = [c] ->
  exists s, Pd.getitem df c = Ok s /\ name s = c /\
            Pd.index (obs s) = Pd.index (rows df).
Proof.
  intros Hc. destruct (Pd.getitem df c) as [s|e] eqn:E.
  - exists s. split; [reflexivity|].
    split; [exact (getitem_name _ _ _ E) | exact (getitem_index _ _ _ E)].
  - exfalso. unfold Pd.getitem in E. rewrite Hc in E. cbn [Pd.position] in E.
    rewrite String.eqb_refl in E. discriminate.
Qed.

Lemma cpi_yoy_total df :
  columns df = ["value"] ->
  rows df = [] \/ (3 <= length (rows df))%nat ->
  exists y,
    cpi_yoy_from_index df = Ok y /\ name y = "CPI_YoY" /\
    Pd.is_unique (Pd.index (obs y)) = true.
Proof.
  intros Hc [He|H3]; unfold cpi_yoy_from_index.
  - unfold Pd.empty. rewrite Hc, He. eexists. repeat split.
  - assert (Hne : Pd.empty df = false).
    { unfold Pd.empty. rewrite Hc. destruct (rows df); [simpl in H3; lia | reflexivity]. }
    rewrite Hne.
    destruct (infer_freq_total (Pd.index (rows df))) as (f & -> & Hf);
      [now rewrite length_index|].
    cbn [rbind].
    assert (Hbase : exists base,
               match f with
               | Pd.Inf_M | Pd.Inf_MS => Ok df
               | Pd.Inf_other => Pd.resample_M Pd.agg_last df
               end = Ok base /\ columns base = ["value"] /\
               Pd.is_unique (Pd.index (rows base)) = true).
    { destruct f.
      - exists df. repeat split; [exact Hc|]. apply monotonic_is_unique, Hf. discriminate.
      - exists df. repeat split; [exact Hc|]. apply monotonic_is_unique, Hf. discriminate.
      - destruct (resample_M_total Pd.agg_last df) as (m & Hm & Hmc & Hnd).
        + intros E. rewrite E in H3. simpl in H3. lia.
        + exists m. split; [exact Hm|]. split; [congruence|].
          now apply NoDup_is_unique. }
    destruct Hbase as (base & -> & Hbc & Hbu). cbn [rbind].
    destruct (getitem_single base "value" Hbc) as (col & -> & _ & Hidx).
    cbn [rbind]. eexists. split; [reflexivity|]. split; [reflexivity|].
    cbn [obs]. now rewrite index_yoy, Hidx.
Qed.

Lemma combine_monthly_total C y U R :
  columns C = ["CPI"] -> columns U = ["Unemployment"] -> columns R = ["Real10Y"] ->
  List.NoDup (Pd.index (rows C)) -> List.NoDup (Pd.index (rows U)) ->
  List.NoDup (Pd.index (rows R)) ->
  name y = "CPI_YoY" ->
  Pd.is_unique (Pd.index (obs y)) = true ->
  exists P, combine_monthly C y U R = Ok P /\ Spec.is_panel P.
Proof.
  intros HC HU HR NC NU NR Hy Uy.
  destruct (combine_monthly C y U R) as [P|e] eqn:E.
  - exists P. split; [reflexivity|]. exact (combine_monthly_panel _ _ _ _ _ Hy E).
  - exfalso. unfold combine_monthly in E.
    destruct (getitem_single C "CPI" HC) as (c & Hc & _ & Ic).
    destruct (getitem_single U "Unemployment" HU) as (u & Hu & _ & Iu).
    destruct (getitem_single R "Real10Y" HR) as (r & Hr & _ & Ir).
    rewrite Hc, Hu, Hr in E. cbn [rbind] in E.
    destruct (concat_axis1_unique [c; y; u; r]) as (j & Hj).
    { repeat constructor; rewrite ?Ic, ?Iu, ?Ir; auto using NoDup_is_unique. }
    rewrite Hj in E. discriminate.
Qed.

Lemma fetch_fred_ok w s api_key series_id start obs :
  Spec.answered to_datetime w api_key series_id start obs ->
  exists df,
    fetch_fred to_datetime to_numeric date_error api_key series_id start w s =
      (Done df, Spec.logged s [EvHttpGet (fetch_request api_key series_id start)]) /\
    columns df = ["value"] /\ length (rows df) = length obs.
Proof.
  intros (code & o & Hresp & Hcode & Hobs & Hdates).
  unfold fetch_fred, Run.bind, Run.emit, Run.ask. cbn [log heap next_ref].
  rewrite Hresp.
  replace ((400 <=? code) && (code <? 600)) with false
    by (symmetry; apply andb_false_iff; rewrite Z.leb_gt, Z.ltb_ge; lia).
  rewrite Hobs. destruct obs as [|r obs].
  - eexists. split; [reflexivity|]. split; reflexivity.
  - rewrite observations_frame_cons, (map_result_ok _ _ _ _ Hdates).
    cbn [rbind Run.lift]. unfold Run.ret.
    eexists. split; [reflexivity|]. cbn [Pd.sort_index columns rows].
    split; [reflexivity|].
    rewrite (Permutation_length (sort_rows_perm _)). apply List.length_map.
Qed.

(** ** The data *)

Lemma rename_value df c :
  columns df = ["value"] ->
  columns (Pd.rename df "value" c) = [c] /\
  rows (Pd.rename df "value" c) = rows df.
Proof. intros H. unfold Pd.rename. cbn [columns rows]. now rewrite H. Qed.

Lemma fetch_data_total key start w s cpi unrate dfii :
  Spec.answered to_datetime w key "CPIAUCSL" start cpi ->
  Spec.answered to_datetime w key "UNRATE" start unrate ->
  Spec.answered to_datetime w key "DFII10" start dfii ->
  cpi = [] \/ (3 <= length cpi)%nat ->
  exists C U R P s1,
    fetch_data to_datetime to_numeric date_error key start w s =
      (Done (mkFrames (next_ref s) (S (next_ref s)) (S (S (next_ref s)))
                      (S (S (S (next_ref s))))), s1) /\
    heap s1 = <[S (S (S (next_ref s))) := P]>
                (<[S (S (next_ref s)) := R]>
                   (<[S (next_ref s) := U]> (<[next_ref s := C]> (heap s)))) /\
    next_ref s1 = S (S (S (S (next_ref s)))) /\
    Spec.is_panel P.
Proof.
  intros A1 A2 A3 Hlen.
  unfold fetch_data.
  erewrite bind_done by reflexivity.
  destruct (fetch_fred_ok w (mkState (log s ++ [EvSpinner "Fetching data from FRED…"])
                                     (heap s) (next_ref s)) _ _ _ _ A1)
    as (d1 & F1 & Hc1 & Hl1).
  erewrite bind_done by exact F1.
  destruct (monthlyize_total d1 "last" Hc1) as (m1 & -> & Hmc1 & Hn1).
  erewrite bind_done by reflexivity.
  erewrite bind_done by reflexivity.
  destruct (cpi_yoy_total d1 Hc1) as (y & -> & Hy & Uy).
  { destruct Hlen as [->|H3]; [left | right; now rewrite Hl1].
    destruct (rows d1); [reflexivity | discriminate]. }
  erewrite bind_done by reflexivity.
  unfold Spec.logged. cbn [log heap next_ref].
  match goal with |- context [Run.bind (fetch_fred _ _ _ _ _ _) _ _ ?st] =>
    destruct (fetch_fred_ok w st _ _ _ _ A2) as (d2 & F2 & Hc2 & _)
  end.
  erewrite bind_done by exact F2.
  destruct (monthlyize_total d2 "last" Hc2) as (m2 & -> & Hmc2 & Hn2).
  erewrite bind_done by reflexivity.
  erewrite bind_done by reflexivity.
  unfold Spec.logged. cbn [log heap next_ref].
  match goal with |- context [Run.bind (fetch_fred _ _ _ _ _ _) _ _ ?st] =>
    destruct (fetch_fred_ok w st _ _ _ _ A3) as (d3 & F3 & Hc3 & _)
  end.
  erewrite bind_done by exact F3.
  destruct (monthlyize_total d3 "mean" Hc3) as (m3 & -> & Hmc3 & Hn3).
  erewrite bind_done by reflexivity.
  erewrite bind_done by reflexivity.
  unfold Spec.logged. cbn [log heap next_ref].
  set (n := next_ref s).
  set (C := Pd.rename m1 "value" "CPI").
  set (U := Pd.rename m2 "value" "Unemployment").
  set (R := Pd.rename m3 "value" "Real10Y").
  erewrite bind_done
    by (apply read_ok; cbn [heap];
        rewrite lookup_insert_ne by lia; rewrite lookup_insert_ne by lia;
        apply lookup_insert_eq).
  erewrite bind_done
    by (apply read_ok; cbn [heap];
        rewrite lookup_insert_ne by lia; apply lookup_insert_eq).
  erewrite bind_done by (apply read_ok; cbn [heap]; apply lookup_insert_eq).
  destruct (rename_value m1 "CPI" Hmc1) as [HC HCr].
  destruct (rename_value m2 "Unemployment" Hmc2) as [HU HUr].
  destruct (rename_value m3 "Real10Y" Hmc3) as [HR HRr].
  destruct (combine_monthly_total C y U R) as (P & HP & Hpanel);
    try assumption; try (unfold C, U, R; congruence).
  rewrite HP.
  erewrite bind_done by reflexivity.
  erewrite bind_done by reflexivity.
  exists C, U, R, P. eexists. split; [reflexivity|].
  cbn [heap next_ref]. split; [reflexivity|]. split; [reflexivity | exact Hpanel].
Qed.

(** ** What follows the data *)

Lemma chart_done (D : DataFrame) (d : ref) (w : World) (s : State)
      (heading col title : string) :
  heap s !! d = Some D ->
  In col (columns D) ->
  exists ev,
    chart d heading col title w s = (Done tt, Spec.logged s [EvSubheader heading; ev]).
Proof.
  intros Hd Hin.
  destruct (Pd.position col (columns D)) as [k|] eqn:Hpos;
    [|now apply position_in in Hin].
  unfold chart, Run.bind at 1, Run.emit. unfold Run.bind at 1, Run.read.
  cbn [log heap next_ref]. rewrite Hd.
  unfold Pd.getitem_list. rewrite Hpos. unfold Run.bind, Run.lift, Run.ret, line_chart.
  destruct (Pd.empty _ || _); unfold Run.emit, Spec.logged; cbn [log heap next_ref];
    rewrite <- List.app_assoc; eexists; reflexivity.
Qed.

Lemma charts_done (D : DataFrame) (d : ref) (w : World) (s : State) :
  heap s !! d = Some D ->
  columns D = ["CPI"; "CPI_YoY"; "Unemployment"; "Real10Y"] ->
  exists evs, charts d w s = (Done tt, Spec.logged s evs).
Proof.
  intros Hd HD. unfold charts.
  destruct (chart_done D d w s "CPI — Year‑over‑Year (%)" "CPI_YoY"
                       "CPI YoY (computed from CPIAUCSL)" Hd) as (e1 & E1);
    [rewrite HD; simpl; tauto|].
  erewrite bind_done by exact E1.
  destruct (chart_done D d w (Spec.logged s [EvSubheader "CPI — Year‑over‑Year (%)"; e1])
                       "Unemployment Rate (%)" "Unemployment"
                       "Unemployment Rate (UNRATE)" Hd) as (e2 & E2);
    [rewrite HD; simpl; tauto|].
  erewrite bind_done by exact E2.
  destruct (chart_done D d w
                       (Spec.logged
                          (Spec.logged s [EvSubheader "CPI — Year‑over‑Year (%)"; e1])
                          [EvSubheader "Unemployment Rate (%)"; e2])
                       "Real Rates — 10Y TIPS Real Yield (%)" "Real10Y"
                       "10‑Year Real Yield (DFII10 monthly average)" Hd) as (e3 & E3);
    [rewrite HD; simpl; tauto|].
  rewrite E3, !logged_logged. eexists. reflexivity.
Qed.

Lemma present_done (fr : Frames) (b : bool) (w : World) (s : State)
      (P C U R : DataFrame) :
  heap s !! panel fr = Some P -> heap s !! cpi_m fr = Some C ->
  heap s !! unrate_m fr = Some U -> heap s !! real10_m fr = Some R ->
  panel fr <> next_ref s -> cpi_m fr <> next_ref s ->
  unrate_m fr <> next_ref s -> real10_m fr <> next_ref s ->
  Spec.is_panel P ->
  exists s', present fr b w s = (Done tt, s').
Proof.
  intros HP HC HU HR FP FC FU FR [Hcols _].
  destruct (kpi_row_run P) as (ek & _ & Hk).
  unfold present.
  erewrite bind_done by exact (make_display_df_run w s (panel fr) P b HP).
  set (D := if b then Spec.smooth_columns P (columns P) else P).
  assert (HD : columns D = ["CPI"; "CPI_YoY"; "Unemployment"; "Real10Y"])
    by (unfold D; now rewrite display_columns).
  set (s1 := mkState (log s) (<[next_ref s := D]> (heap s)) (S (next_ref s))).
  assert (H1 : forall r df evs, r <> next_ref s -> heap s !! r = Some df ->
                                heap (Spec.logged s1 evs) !! r = Some df).
  { intros r df evs Hr Hdf. unfold Spec.logged, s1. cbn [heap].
    now rewrite lookup_insert_ne by congruence. }
  assert (H2 : forall evs, heap (Spec.logged s1 evs) !! next_ref s = Some D).
  { intros evs. unfold Spec.logged, s1. cbn [heap]. apply lookup_insert_eq. }
  erewrite bind_done by exact (Hk _ w s1 (H1 _ _ [] FP HP)).
  destruct (charts_done D (next_ref s) w (Spec.logged s1 ek) (H2 _) HD) as (ec & Ec).
  erewrite bind_done by exact Ec.
  rewrite (download_run fr w _ P C U R)
    by (rewrite logged_logged; apply H1; assumption).
  eexists. reflexivity.
Qed.

Lemma cpi_yoy_short df :
  columns df = ["value"] ->
  length (rows df) = 1%nat \/ length (rows df) = 2%nat ->
  cpi_yoy_from_index df = Raise (ValueError "Need at least 3 dates to infer frequency").
Proof.
  intros Hc Hlen. unfold cpi_yoy_from_index, Pd.empty. rewrite Hc.
  destruct (rows df) as [|r l] eqn:E; [simpl in Hlen; lia|].
  unfold Pd.infer_freq. rewrite length_index.
  destruct (Nat.ltb_spec (length (r :: l)) 3) as [_|]; [reflexivity | lia].
Qed.

(** X13. With a credential, when the three requests are answered with a
    status outside 400..599 and a JSON object whose dates can be read,
    and the index series has no observation or at least three, the run
    completes: no later step of the script can fail, whatever the values,
    the order and the dates of the observations and whatever the
    smoothing switch. *)
Theorem run_completes (w : World) (key : string) (cpi unrate dfii : list RawObs) :
  secrets w !! "FRED_API_KEY" = Some key ->
  key <> "" ->
  Spec.answered to_datetime w key "CPIAUCSL" (Fmt.strftime_ymd (date_input w)) cpi ->
  Spec.answered to_datetime w key "UNRATE" (Fmt.strftime_ymd (date_input w)) unrate ->
  Spec.answered to_datetime w key "DFII10" (Fmt.strftime_ymd (date_input w)) dfii ->
  length cpi <> 1%nat -> length cpi <> 2%nat ->
  exists s', macro_dashboard to_datetime to_numeric date_error w initial = (Done tt, s').
Proof.
  destruct w as [sec di b h]. cbn [secrets date_input].
  intros Hsec Hkey A1 A2 A3 L1 L2.
  destruct sec as [store|]; [|discriminate Hsec].
  rewrite macro_dashboard_unfold, Hsec. cbn [default from_option id].
  change (bool_decide (Some store = None)) with false. cbv iota.
  destruct (String.eqb_spec key "") as [|_]; [contradiction|].
  match goal with |- context [fetch_data _ _ _ _ _ _ ?st] =>
    destruct (fetch_data_total key (Fmt.strftime_ymd di) (mkWorld (Some store) di b h) st
                               cpi unrate dfii A1 A2 A3)
      as (C & U & R & P & s3 & -> & Hheap & Hnext & Hpanel)
  end.
  { destruct cpi as [|? [|? [|? ?]]]; simpl in *; (now left) || (right; lia) || congruence. }
  cbn [next_ref Spec.logged initial] in Hheap, Hnext |- *.
  apply (present_done _ b _ s3 P C U R); cbn [panel cpi_m unrate_m real10_m];
    rewrite ?Hheap, ?Hnext; try lia; by simplify_map_eq.
Qed.

(** X14. With a credential, when the request for the index series is
    answered with one or two observations whose dates can be read, the
    run fails with the ValueError of the frequency inference: after one
    request, with no metric, no chart and no export on the page. *)
Theorem short_cpi_history_aborts_run (w : World) (key : string) (cpi : list RawObs) :
  secrets w !! "FRED_API_KEY" = Some key ->
  key <> "" ->
  Spec.answered to_datetime w key "CPIAUCSL" (Fmt.strftime_ymd (date_input w)) cpi ->
  length cpi = 1%nat \/ length cpi = 2%nat ->
  exists s',
    macro_dashboard to_datetime to_numeric date_error w initial =
      (Raised (ValueError "Need at least 3 dates to infer frequency"), s') /\
    Spec.network_calls (log s') =
      [EvHttpGet (fetch_request key "CPIAUCSL" (Fmt.strftime_ymd (date_input w)))] /\
    List.filter Spec.is_metric (log s') = [] /\
    Spec.downloads (log s') = [].
Proof.
  destruct w as [sec di b h]. cbn [secrets date_input].
  intros Hsec Hkey A1 Hlen.
  destruct sec as [store|]; [|discriminate Hsec].
  rewrite macro_dashboard_unfold, Hsec. cbn [default from_option id].
  change (bool_decide (Some store = None)) with false. cbv iota.
  destruct (String.eqb_spec key "") as [|_]; [contradiction|].
  unfold fetch_data.
  erewrite bind_done by reflexivity.
  match goal with |- context [Run.bind (fetch_fred _ _ _ _ _ _) _ _ ?st] =>
    destruct (fetch_fred_ok (mkWorld (Some store) di b h) st _ _ _ _ A1) as (d1 & F1 & Hc1 & Hl1)
  end.
  erewrite bind_done by exact F1.
  destruct (monthlyize_total d1 "last" Hc1) as (m1 & -> & _ & _).
  erewrite bind_done by reflexivity.
  erewrite bind_done by reflexivity.
  rewrite (cpi_yoy_short d1 Hc1) by (now rewrite Hl1).
  unfold Run.bind at 1, Run.lift, Run.raise.
  eexists. split; [reflexivity|]. repeat split.
Qed.

End Completion.

Lemma run_completes_witness :
  exists s', macro_dashboard Api.iso_date Api.numeral Api.date_error Ex.young_world initial = (Done tt, s').
Proof.
  apply (run_completes Api.iso_date Api.numeral Api.date_error Ex.young_world "k"
           (Ex.monthly_obs 24000 3 100) (Ex.monthly_obs 24000 3 4)
           [mkRawObs "2000-01-03" "2"; mkRawObs "2000-02-01" "2";
            mkRawObs "2000-03-01" "2"]).
  - reflexivity.
  - discriminate.
  - exists 200, (Some (Ex.monthly_obs 24000 3 100)).
    split; [reflexivity|]. split; [left; lia|]. split; [reflexivity|].
    repeat constructor; discriminate.
  - exists 200, (Some (Ex.monthly_obs 24000 3 4)).
    split; [reflexivity|]. split; [left; lia|]. split; [reflexivity|].
    repeat constructor; discriminate.
  - eexists 200, (Some _).
    split; [reflexivity|]. split; [left; lia|]. split; [reflexivity|].
    repeat constructor; discriminate.
  - simpl. lia.
  - simpl. lia.
Defined.

Lemma short_cpi_history_aborts_run_witness :
  exists s',
    macro_dashboard Api.iso_date Api.numeral Api.date_error Ex.two_month_world initial =
      (Raised (ValueError "Need at least 3 dates to infer frequency"), s') /\
    Spec.network_calls (log s') =
      [EvHttpGet (fetch_request "k" "CPIAUCSL" "2000-01-01")] /\
    List.filter Spec.is_metric (log s') = [] /\
    Spec.downloads (log s') = [].
Proof.
  apply (short_cpi_history_aborts_run Api.iso_date Api.numeral Api.date_error Ex.two_month_world "k"
           (Ex.monthly_obs 24000 2 100)).
  - reflexivity.
  - discriminate.
  - exists 200, (Some (Ex.monthly_obs 24000 2 100)).
    split; [reflexivity|]. split; [left; lia|]. split; [reflexivity|].
    repeat constructor; discriminate.
  - right. reflexivity.
Defined.

(* ===================================================================== *)
(** * The KPI row and the smoothing switch *)
(* ===================================================================== *)

Section KpiSource.

Variable to_datetime : string -> option Timestamp.
Variable to_numeric : string -> float.
Variable date_error : list string -> string.

Ltac quiet_steps :=
  repeat first
    [ apply silent_ret
    | apply silent_lift
    | apply silent_read
    | apply silent_alloc
    | apply silent_modify
    | apply silent_emit; reflexivity
    | apply silent_bind; [|intros ?]
    | apply silent_for_each; intros ? ].

Lemma charts_and_download_show_no_metric fr d :
  Spec.silent Spec.is_metric (Run.bind (charts d) (fun _ => download fr)).
Proof.
  unfold charts, chart, download, line_chart.
  quiet_steps; destruct (Pd.empty _ || _); quiet_steps.
Qed.

(** The metrics that the sections after the data add to the page are
    those of the KPI row of the panel, whatever the switch. *)
Lemma present_metrics (fr : Frames) (s : State) (P : DataFrame) :
  heap s !! panel fr = Some P -> panel fr <> next_ref s ->
  exists evs,
    (forall (w : World) (s0 : State),
        heap s0 !! panel fr = Some P ->
        kpi_row (panel fr) w s0 = (Done tt, Spec.logged s0 evs)) /\
    forall (b : bool) (w : World) o s',
      present fr b w s = (o, s') ->
      List.filter Spec.is_metric (log s') =
      (List.filter Spec.is_metric (log s) ++ List.filter Spec.is_metric evs)%list.
Proof.
  intros HP FP. destruct (kpi_row_run P) as (ek & _ & Hk).
  exists ek. split; [intros w s0; apply Hk|].
  intros b w o s'. unfold present. unfold Run.bind at 1.
  rewrite (make_display_df_run w s (panel fr) P b HP).
  set (s1 := mkState _ _ _).
  assert (H1 : heap s1 !! panel fr = Some P).
  { unfold s1. cbn [heap]. now rewrite lookup_insert_ne by congruence. }
  unfold Run.bind at 1. rewrite (Hk _ w s1 H1).
  intros H. apply charts_and_download_show_no_metric in H. rewrite H.
  unfold Spec.logged, s1. cbn [log]. apply List.filter_app.
Qed.

(** X15. The KPI row does not depend on the smoothing switch: the
    metrics on the page are the same with the switch on and off, and in
    a completed run they are the metrics of the KPI row of the panel as
    it was combined. *)
Theorem kpi_ignores_smoothing :
  (forall sec di h,
      let run b := macro_dashboard to_datetime to_numeric date_error (mkWorld sec di b h) initial in
      List.filter Spec.is_metric (log (snd (run true))) =
      List.filter Spec.is_metric (log (snd (run false)))) /\
  (forall (w : World) (s' : State),
      macro_dashboard to_datetime to_numeric date_error w initial = (Done tt, s') ->
      exists P evs,
        heap s' !! 3%nat = Some P /\
        kpi_row 3%nat w s' = (Done tt, Spec.logged s' evs) /\
        List.filter Spec.is_metric (log s') = List.filter Spec.is_metric evs).
Proof.
  assert (Hdata : forall sec di b h fr s3,
             fetch_data to_datetime to_numeric date_error (default "" (sec !! "FRED_API_KEY"))
                        (Fmt.strftime_ymd di) (mkWorld sec di b h)
                        (Spec.logged
                           (Spec.logged initial
                              [EvPageConfig "Macro Dashboard (CPI, Unemployment, Real Rates)"
                                            "📈" "wide";
                               EvTitle "📈 Macro Dashboard — CPI (YoY), Unemployment, Real Rates";
                               EvCaption "Source: Federal Reserve Economic Data (FRED)."])
                           [EvSidebarHeader "Settings";
                            EvSidebarCaption
                              "Series: CPIAUCSL (CPI index), UNRATE (U‑3), DFII10 (10‑year TIPS real yield)."])
             = (Done fr, s3) ->
             exists P evs,
               heap s3 !! 3%nat = Some P /\
               (forall (w : World) (s0 : State),
                   heap s0 !! 3%nat = Some P ->
                   kpi_row 3%nat w s0 = (Done tt, Spec.logged s0 evs)) /\
               forall (b' : bool) (w : World) o s',
                 present fr b' w s3 = (o, s') ->
                 heap s' !! 3%nat = Some P /\
                 List.filter Spec.is_metric (log s') = List.filter Spec.is_metric evs).
  { intros sec di b h fr s3 Hfetch.
    pose proof (fetch_data_log _ _ _ _ _ _ _ _ _ Hfetch) as Hlog.
    destruct (fetch_data_store _ _ _ _ _ _ _ _ _ Hfetch)
      as (C & U & R & P & yoy & Hcomb & Hfr & Hn3 & Hh3 & _).
    cbn [next_ref Spec.logged initial] in Hfr, Hn3, Hh3. subst fr.
    assert (HP : heap s3 !! 3%nat = Some P) by (rewrite Hh3; apply lookup_insert_eq).
    destruct (present_metrics (mkFrames 0%nat 1%nat 2%nat 3%nat) s3 P) as (evs & Hk & Hm);
      cbn [panel]; [exact HP | rewrite Hn3; lia |].
    exists P, evs. split; [exact HP|]. split; [exact Hk|].
    intros b' w o s' Hpres. split.
    - destruct (present_run (mkFrames 0%nat 1%nat 2%nat 3%nat) s3 P C U R)
        as (o' & dl & _ & Hrun);
        cbn [panel cpi_m unrate_m real10_m]; rewrite ?Hh3, ?Hn3;
        try (by simplify_map_eq); try lia.
      destruct (Hrun b' w) as (s'' & Hp' & _ & Hh).
      rewrite Hpres in Hp'. injection Hp' as _ <-. exact Hh.
    - rewrite (Hm b' w o s' Hpres), Hlog. reflexivity. }
  split.
  - intros sec di h run. unfold run.
    rewrite !macro_dashboard_unfold.
    destruct (bool_decide (sec = None)); [reflexivity|].
    destruct (String.eqb (default "" (sec !! "FRED_API_KEY")) ""); [reflexivity|].
    rewrite flagless_fetch_data.
    destruct (fetch_data _ _ _ _ _ _ _) as [[fr| |e] s3] eqn:Hfetch; try reflexivity.
    destruct (Hdata _ _ _ _ _ _ Hfetch) as (P & evs & _ & _ & Hm).
    destruct (present fr true (mkWorld sec di true h) s3) as [o1 st] eqn:Et.
    destruct (present fr false (mkWorld sec di false h) s3) as [o2 sf] eqn:Ef.
    cbn [snd].
    rewrite (proj2 (Hm _ _ _ _ Et)), (proj2 (Hm _ _ _ _ Ef)). reflexivity.
  - intros [sec di b h] s' Hrun.
    rewrite macro_dashboard_unfold in Hrun.
    destruct (bool_decide (sec = None)); [discriminate|].
    destruct (String.eqb (default "" (sec !! "FRED_API_KEY")) ""); [discriminate|].
    destruct (fetch_data _ _ _ _ _ _ _) as [[fr| |e] s3] eqn:Hfetch; try discriminate.
    destruct (Hdata _ _ _ _ _ _ Hfetch) as (P & evs & _ & Hk & Hm).
    destruct (Hm _ _ _ _ Hrun) as [Hh Hmet].
    exists P, evs. split; [exact Hh|]. split; [now apply Hk | exact Hmet].
Qed.

End KpiSource.

Lemma kpi_ignores_smoothing_witness :
  exists P evs,
    heap (snd (macro_dashboard Api.iso_date Api.numeral Api.date_error Ex.fred_world initial))
      !! 3%nat = Some P /\
    kpi_row 3%nat Ex.fred_world
            (snd (macro_dashboard Api.iso_date Api.numeral Api.date_error Ex.fred_world initial))
    = (Done tt,
       Spec.logged (snd (macro_dashboard Api.iso_date Api.numeral Api.date_error Ex.fred_world initial))
                   evs) /\
    List.filter Spec.is_metric
      (log (snd (macro_dashboard Api.iso_date Api.numeral Api.date_error Ex.fred_world initial)))
    = List.filter Spec.is_metric evs.
Proof.
  destruct (kpi_ignores_smoothing Api.iso_date Api.numeral Api.date_error) as [_ H].
  apply (H Ex.fred_world). vm_compute. reflexivity.
Defined.
